(** * Smart-salon: the appointment scheduling and availability engine

    A shallow embedding of [app/routers/appointments.py] (with the parts of
    [app/models], [app/schemas] and [app/auth/permissions.py] it relies on)
    and the properties of the scheduling core proved about it.

    Conventions of the embedding:
    - a naive [datetime] is the number of microseconds since
      0001-01-01T00:00:00 (a Monday), a [Z]; Python's range check on
      datetime arithmetic is written out ([OverflowError]);
    - a [Float] column and a Python [float] are an IEEE binary64 value;
    - a table is the list of its rows in storage order; [query.first()] is
      the first row that satisfies the filter, [query.all()] all of them;
    - an endpoint answers with a [response]: a value, an [HTTPException]
      with its status code and detail, or [Raised] for any other Python
      exception, which the framework turns into status 500; the value that
      a handler returns goes through the [response_model] of its route
      before it is the answer, and a row that the model refuses is such an
      exception, raised after the handler has committed;
    - the JSON column [working_hours] is a dictionary from day names to
      lists of dictionaries from strings to strings;
    - the time stamps [created_at] and [updated_at], which the session
      writes on INSERT and on every UPDATE, and the descriptive columns
      that no handler of the scheduling core reads are left out: a row here
      is the row without them, and no statement below speaks of them. *)

From Stdlib Require Import ZArith Floats Lia Bool List Ascii String.
From stdpp Require Import gmap strings list.

Local Open Scope Z_scope.

(** * Part I: the embedding *)

(** ** Outcomes of a handler *)

Inductive response (A : Type) : Type :=
| Ok (a : A)
| HTTPException (status_code : Z) (detail : string)
| Raised.

Arguments Ok {A} a.
Arguments HTTPException {A} status_code detail.
Arguments Raised {A}.

(** ** [datetime] and [timedelta] *)

Module Datetime.

Definition US_PER_MINUTE : Z := 60000000.
Definition US_PER_HOUR : Z := 3600000000.
Definition US_PER_DAY : Z := 86400000000.

(** [datetime.max] is 9999-12-31T23:59:59.999999, the last microsecond of
    day 3652059 counted from 1. *)
Definition MAX_US : Z := 3652059 * US_PER_DAY.

Definition in_range (t : Z) : bool := (0 <=? t) && (t <? MAX_US).

(** [timedelta(minutes=m)]: [OverflowError] outside
    [timedelta.min .. timedelta.max] (999999999 days either way). *)
Definition timedelta_minutes (m : Z) : option Z :=
  let us := m * US_PER_MINUTE in
  if (-999999999 * US_PER_DAY <=? us) && (us <? 1000000000 * US_PER_DAY)
  then Some us else None.

(** [t + delta]: [OverflowError] when the result leaves year 1..9999. *)
Definition add (t delta : Z) : option Z :=
  if in_range (t + delta) then Some (t + delta) else None.

(** [t.replace(hour=h, minute=m, second=0, microsecond=0)]: [ValueError]
    unless [0 <= h <= 23] and [0 <= m <= 59]. *)
Definition replace (t hour minute : Z) : option Z :=
  if (0 <=? hour) && (hour <=? 23) && (0 <=? minute) && (minute <=? 59)
  then Some (t / US_PER_DAY * US_PER_DAY + hour * US_PER_HOUR + minute * US_PER_MINUTE)
  else None.

(** [t.weekday()], Monday is 0. *)
Definition weekday (t : Z) : Z := (t / US_PER_DAY) mod 7.

(** [t.strftime("%A").lower()] in the C locale. *)
Definition day_name (t : Z) : string :=
  match weekday t with
  | 0 => "monday"
  | 1 => "tuesday"
  | 2 => "wednesday"
  | 3 => "thursday"
  | 4 => "friday"
  | 5 => "saturday"
  | _ => "sunday"
  end.

End Datetime.

(** ** Python's truth values *)

(** [bool(x)] for a float: zero of either sign is false, NaN is true. *)
Definition float_truthy (x : float) : bool := negb (PrimFloat.eqb x 0%float).

(** [bool(x)] for an [Optional[float]]. *)
Definition opt_float_truthy (x : option float) : bool :=
  match x with
  | Some f => float_truthy f
  | None => false
  end.

(** [bool(x)] for an [Optional[str]]. *)
Definition opt_str_truthy (x : option string) : bool :=
  match x with
  | Some s => negb (String.eqb s "")
  | None => false
  end.

(** [bool(x)] for an [Optional[int]]. *)
Definition opt_int_truthy (x : option Z) : bool :=
  match x with
  | Some n => negb (n =? 0)
  | None => false
  end.

(** ** Interval algebra *)

Module Interval.

(** The [or_(and_(..), and_(..), and_(..))] filter shared by the conflict
    queries of [create_appointment] and [check_availability]: [a_start],
    [a_end] are the columns of the stored appointment, [s], [e] the
    candidate's start and end. *)
Definition conflict_condition (a_start a_end s e : Z) : bool :=
  ((a_start <=? s) && (a_end >? s))
  || ((a_start <? e) && (a_end >=? e))
  || ((a_start >=? s) && (a_end <=? e)).

(** The single half-open test of the specification:
    [a.start < b.end AND b.start < a.end]. *)
Definition overlaps (a_start a_end b_start b_end : Z) : bool :=
  (a_start <? b_end) && (b_start <? a_end).

(** [contains(outer, inner)] of the specification:
    [outer.start <= inner.start AND inner.end <= outer.end]. *)
Definition contains (o_start o_end i_start i_end : Z) : bool :=
  (o_start <=? i_start) && (i_end <=? o_end).

End Interval.

(** ** Enumerations ([app/models/appointment.py], [app/models/user.py]) *)

Inductive AppointmentStatus := PENDING | CONFIRMED | COMPLETED | CANCELLED | NO_SHOW.

Inductive AppointmentType := IN_SALON | AT_HOME.

Inductive UserRole := CLIENT | SALON_OWNER | STYLIST | ADMIN.

#[global] Instance AppointmentStatus_eq_dec : EqDecision AppointmentStatus.
Proof. solve_decision. Defined.

#[global] Instance AppointmentType_eq_dec : EqDecision AppointmentType.
Proof. solve_decision. Defined.

#[global] Instance UserRole_eq_dec : EqDecision UserRole.
Proof. solve_decision. Defined.

(** [role.value] *)
Definition role_value (r : UserRole) : string :=
  match r with
  | CLIENT => "client"
  | SALON_OWNER => "salon_owner"
  | STYLIST => "stylist"
  | ADMIN => "admin"
  end.

(** [x in xs] for a Python list of enum members. *)
Definition status_in (xs : list AppointmentStatus) (x : AppointmentStatus) : bool :=
  existsb (fun y => bool_decide (x = y)) xs.

Definition role_in (xs : list UserRole) (x : UserRole) : bool :=
  existsb (fun y => bool_decide (x = y)) xs.

(** ** Rows ([app/models]) *)

Module User.
Record t := mk {
  id : Z;
  role : UserRole;
  is_active : bool
}.
End User.

Module Salon.
Record t := mk {
  id : Z;
  owner_id : Z
}.
End Salon.

Module Service.
Record t := mk {
  id : Z;
  salon_id : Z;
  duration_minutes : Z;
  price : float;
  is_active : bool;
  home_service_fee : option float
}.
End Service.

Module Stylist.
(** [services] is the relationship through the [stylist_service] table,
    kept as the ids of the services the stylist offers. *)
Record t := mk {
  id : Z;
  salon_id : Z;
  full_name : string;
  is_active : bool;
  working_hours : option (gmap string (list (gmap string string)));
  services : list Z
}.
End Stylist.

Module Appointment.
(** The columns of [Appointment] but for the time stamps of [BaseModel];
    [id] is [None] until the row is flushed. *)
Record t := mk {
  id : option Z;
  client_id : Z;
  service_id : Z;
  stylist_id : Z;
  start_time : Z;
  end_time : Z;
  status : AppointmentStatus;
  appointment_type : AppointmentType;
  address : option string;
  price : float;
  original_price : float;
  discount_amount : float;
  additional_fees : float;
  is_paid : bool;
  notes : option string;
  cancellation_reason : option string
}.

Definition set_id (v : option Z) (a : t) : t :=
  mk v (client_id a) (service_id a) (stylist_id a) (start_time a) (end_time a)
     (status a) (appointment_type a) (address a) (price a) (original_price a)
     (discount_amount a) (additional_fees a) (is_paid a) (notes a)
     (cancellation_reason a).

Definition set_status (v : AppointmentStatus) (a : t) : t :=
  mk (id a) (client_id a) (service_id a) (stylist_id a) (start_time a) (end_time a)
     v (appointment_type a) (address a) (price a) (original_price a)
     (discount_amount a) (additional_fees a) (is_paid a) (notes a)
     (cancellation_reason a).

Definition set_cancellation_reason (v : option string) (a : t) : t :=
  mk (id a) (client_id a) (service_id a) (stylist_id a) (start_time a) (end_time a)
     (status a) (appointment_type a) (address a) (price a) (original_price a)
     (discount_amount a) (additional_fees a) (is_paid a) (notes a) v.

Definition set_is_paid (v : bool) (a : t) : t :=
  mk (id a) (client_id a) (service_id a) (stylist_id a) (start_time a) (end_time a)
     (status a) (appointment_type a) (address a) (price a) (original_price a)
     (discount_amount a) (additional_fees a) v (notes a)
     (cancellation_reason a).
End Appointment.

(** ** Schemas ([app/schemas/appointment.py]) *)

Module AppointmentCreate.
Record t := mk {
  service_id : Z;
  stylist_id : Z;
  start_time : Z;
  appointment_type : AppointmentType;
  address : option string;
  notes : option string
}.
End AppointmentCreate.

Module AppointmentStatusUpdate.
Record t := mk {
  status : AppointmentStatus;
  cancellation_reason : option string
}.
End AppointmentStatusUpdate.

Module AppointmentPaymentUpdate.
Record t := mk {
  is_paid : bool
}.
End AppointmentPaymentUpdate.

Module TimeSlot.
Record t := mk {
  start_time : Z;
  end_time : Z;
  stylist_id : Z;
  stylist_name : string
}.
End TimeSlot.

(** A field of a JSON request body: absent, [null], or a value. *)
Inductive field (A : Type) : Type :=
| Missing
| Null
| Given (a : A).

Arguments Missing {A}.
Arguments Null {A}.
Arguments Given {A} a.

(** The body of [PUT /appointments/{id}/status] before validation. *)
Module StatusBody.
Record t := mk {
  status : AppointmentStatus;
  cancellation_reason : field string
}.
End StatusBody.

(** [AppointmentStatusUpdate.validate_cancellation_reason]: raises when the
    status is [CANCELLED] and the reason is [None] or empty. *)
Definition validate_cancellation_reason (v : option string) (status : AppointmentStatus)
  : option (option string) :=
  if bool_decide (status = CANCELLED) && negb (opt_str_truthy v) then None else Some v.

(** Building an [AppointmentStatusUpdate] from the body. The validator is
    declared with [@validator('cancellation_reason')], without
    [always=True]: pydantic runs such a validator on a value that the body
    supplies ([null] included, the field being [Optional]) and skips it
    when the field is absent, the default [None] being taken as it is. A
    validation error is the 422 response of the framework. *)
Definition parse_status_update (body : StatusBody.t) : response AppointmentStatusUpdate.t :=
  let status := StatusBody.status body in
  match StatusBody.cancellation_reason body with
  | Missing => Ok (AppointmentStatusUpdate.mk status None)
  | Null =>
      match validate_cancellation_reason None status with
      | Some v => Ok (AppointmentStatusUpdate.mk status v)
      | None => HTTPException 422 "Cancellation reason is required when cancelling an appointment"
      end
  | Given s =>
      match validate_cancellation_reason (Some s) status with
      | Some v => Ok (AppointmentStatusUpdate.mk status v)
      | None => HTTPException 422 "Cancellation reason is required when cancelling an appointment"
      end
  end.

(** [AppointmentBase.validate_address]: raises when the appointment is at
    home and the address is [None] or empty. *)
Definition validate_address (v : option string) (appointment_type : AppointmentType)
  : option (option string) :=
  if bool_decide (appointment_type = AT_HOME) && negb (opt_str_truthy v) then None else Some v.

(** [response_model=AppointmentDetail]: the row that the handler returns is
    read into the schema. [AppointmentDetail] extends [Appointment], which
    extends [AppointmentBase], so [validate_address] is run on the address
    of the row, an attribute that every row has; when it raises, the
    request ends in an internal error. The other fields are read from
    columns that are not nullable and from the service and the stylist
    that the foreign keys of the row name. *)
Definition appointment_detail (appointment : Appointment.t) : response Appointment.t :=
  match validate_address (Appointment.address appointment)
                         (Appointment.appointment_type appointment) with
  | Some _ => Ok appointment
  | None => Raised
  end.

(** [response_model=List[AppointmentDetail]]: every row of the list is read
    into the schema. *)
Definition appointment_details (rows : list Appointment.t) : response (list Appointment.t) :=
  if forallb (fun a => match appointment_detail a with Ok _ => true | _ => false end) rows
  then Ok rows
  else Raised.

(** ** The database session *)

Record Database := mkDatabase {
  salons : list Salon.t;
  services : list Service.t;
  stylists : list Stylist.t;
  appointments : list Appointment.t
}.

Definition set_appointments (rows : list Appointment.t) (db : Database) : Database :=
  mkDatabase (salons db) (services db) (stylists db) rows.

(** [query.filter(p).first()] and [query.filter(p).all()] *)
Definition first {A : Type} (p : A -> bool) (rows : list A) : option A := List.find p rows.

Definition all {A : Type} (p : A -> bool) (rows : list A) : list A := List.filter p rows.

(** The primary key given to a new row: one more than the largest in use. *)
Definition next_id (rows : list Appointment.t) : Z :=
  1 + fold_right (fun a m => Z.max (default 0 (Appointment.id a)) m) 0 rows.

(** [db.add(row); db.commit(); db.refresh(row)] *)
Definition add_commit_refresh (db : Database) (row : Appointment.t) : Database * Appointment.t :=
  let row' := Appointment.set_id (Some (next_id (appointments db))) row in
  (set_appointments (appointments db ++ [row']) db, row').

(** Writing back a row that was loaded and changed in place:
    [db.commit(); db.refresh(row)]. *)
Definition commit_update (db : Database) (row : Appointment.t) : Database :=
  set_appointments
    (List.map (fun a => if bool_decide (Appointment.id a = Appointment.id row) then row else a)
              (appointments db))
    db.

Definition appointment_by_id (db : Database) (appointment_id : Z) : option Appointment.t :=
  first (fun a => bool_decide (Appointment.id a = Some appointment_id)) (appointments db).

(** Sequencing of steps that may fail: the first failure is the outcome. *)
Definition rbind {A B : Type} (r : response A) (k : A -> response B) : response B :=
  match r with
  | Ok a => k a
  | HTTPException c d => HTTPException c d
  | Raised => Raised
  end.

Notation "x <- r ;; k" := (rbind r (fun x => k))
  (at level 100, r at next level, right associativity).

(** An exception of the interpreter where a value was expected. *)
Definition or_raise {A : Type} (o : option A) : response A :=
  match o with
  | Some a => Ok a
  | None => Raised
  end.

(** ** Dependencies ([app/auth/permissions.py]) *)

Definition get_current_active_user (current_user : User.t) : response User.t :=
  if negb (User.is_active current_user)
  then HTTPException 403 "Inactive user"
  else Ok current_user.

Definition role_required (roles : list UserRole) (current_user : User.t) : response User.t :=
  if negb (role_in roles (User.role current_user))
  then HTTPException 403
         ("Role " +:+ role_value (User.role current_user)
          +:+ " not authorized to access this resource")
  else Ok current_user.

Definition get_client := role_required [CLIENT].

Definition get_salon_staff := role_required [SALON_OWNER; STYLIST].

(** ** Working hours *)

(** [s.split(":")] *)
Fixpoint split_colon (s : string) : list string :=
  match s with
  | EmptyString => [EmptyString]
  | String c rest =>
      if Ascii.eqb c ":"%char then EmptyString :: split_colon rest
      else match split_colon rest with
           | [] => [String c EmptyString]
           | head :: tail => String c head :: tail
           end
  end.

Section Handlers.

(** Python's [int] on a string; [None] stands for its [ValueError]. *)
Variable py_int : string -> option Z.

(** [hour, minute = map(int, s.split(":"))]: exactly two parts, both read
    by [int], or an exception. *)
Definition parse_hour_minute (s : string) : option (Z * Z) :=
  match split_colon s with
  | [h; m] =>
      match py_int h, py_int m with
      | Some hour, Some minute => Some (hour, minute)
      | _, _ => None
      end
  | _ => None
  end.

(** The four statements that turn a [time_slot] dictionary into
    [(work_start, work_end)] on the day of [date]; [None] when one of them
    raises ([KeyError], [ValueError]). *)
Definition block_bounds (date : Z) (time_slot : gmap string string) : option (Z * Z) :=
  match time_slot !! "start" with
  | None => None
  | Some start_text =>
      match parse_hour_minute start_text with
      | None => None
      | Some (start_hour, start_minute) =>
          match time_slot !! "end" with
          | None => None
          | Some end_text =>
              match parse_hour_minute end_text with
              | None => None
              | Some (end_hour, end_minute) =>
                  match Datetime.replace date start_hour start_minute with
                  | None => None
                  | Some work_start =>
                      match Datetime.replace date end_hour end_minute with
                      | None => None
                      | Some work_end => Some (work_start, work_end)
                      end
                  end
              end
          end
      end
  end.

(** ** The conflict query *)

(** [db.query(Appointment).filter(stylist_id == .., status.in_([PENDING,
    CONFIRMED]), or_(..)).first()] *)
Definition conflict_filter (stylist_id s e : Z) (a : Appointment.t) : bool :=
  (Appointment.stylist_id a =? stylist_id)
  && status_in [PENDING; CONFIRMED] (Appointment.status a)
  && Interval.conflict_condition (Appointment.start_time a) (Appointment.end_time a) s e.

Definition conflicting_appointment (db : Database) (stylist_id s e : Z) : option Appointment.t :=
  first (conflict_filter stylist_id s e) (appointments db).

(** ** [create_appointment] *)

(** The [for time_slot in ...] loop with its [break]: [Some true] when a
    block contains the interval, [Some false] when the loop ends without
    one, [None] when reading a block raises before that. *)
Fixpoint is_within_hours (start_time end_time : Z) (blocks : list (gmap string string))
  : option bool :=
  match blocks with
  | [] => Some false
  | time_slot :: rest =>
      match block_bounds start_time time_slot with
      | None => None
      | Some (work_start, work_end) =>
          if (start_time >=? work_start) && (end_time <=? work_end)
          then Some true
          else is_within_hours start_time end_time rest
      end
  end.

(** The block under [# Check stylist working hours]. *)
Definition check_working_hours (stylist : Stylist.t) (start_time end_time : Z) : response unit :=
  match Stylist.working_hours stylist with
  | None => Ok tt
  | Some working_hours =>
      if bool_decide (working_hours = ∅) then Ok tt
      else
        let day_of_week := Datetime.day_name start_time in
        match working_hours !! day_of_week with
        | Some blocks =>
            within <- or_raise (is_within_hours start_time end_time blocks) ;;
            if negb within
            then HTTPException 400 "Appointment time is outside of stylist's working hours"
            else Ok tt
        | None =>
            HTTPException 400 ("Stylist does not work on " +:+ day_of_week)
        end
  end.

(** [additional_fees = 0], then the assignment under [# Add fee for at-home
    services]; the integer [0] is the float zero once in a [Float] column. *)
Definition additional_fees_for (appointment_data : AppointmentCreate.t)
    (service : Service.t) : float :=
  if bool_decide (AppointmentCreate.appointment_type appointment_data = AT_HOME)
     && opt_float_truthy (Service.home_service_fee service)
  then default 0%float (Service.home_service_fee service)
  else 0%float.

(** Everything [create_appointment] does before it touches the session for
    writing: the lookups, the conflict query, the working-hours check and
    the construction of the row. *)
Definition new_appointment (db : Database) (appointment_data : AppointmentCreate.t)
    (current_user : User.t) : response Appointment.t :=
  service <-
    match first (fun s => (Service.id s =? AppointmentCreate.service_id appointment_data)
                          && Service.is_active s) (services db) with
    | None => HTTPException 404 "Service not found or inactive"
    | Some service => Ok service
    end ;;
  stylist <-
    match first (fun s => (Stylist.id s =? AppointmentCreate.stylist_id appointment_data)
                          && Stylist.is_active s) (stylists db) with
    | None => HTTPException 404 "Stylist not found or inactive"
    | Some stylist => Ok stylist
    end ;;
  _ <- (if negb (existsb (Z.eqb (Service.id service)) (Stylist.services stylist))
        then HTTPException 400 "Stylist does not offer this service"
        else Ok tt) ;;
  let start_time := AppointmentCreate.start_time appointment_data in
  duration <- or_raise (Datetime.timedelta_minutes (Service.duration_minutes service)) ;;
  end_time <- or_raise (Datetime.add start_time duration) ;;
  _ <- match conflicting_appointment db (Stylist.id stylist) start_time end_time with
       | Some _ => HTTPException 400 "Time slot is not available"
       | None => Ok tt
       end ;;
  _ <- check_working_hours stylist start_time end_time ;;
  let price := Service.price service in
  let additional_fees := additional_fees_for appointment_data service in
  Ok (Appointment.mk
        None
        (User.id current_user)
        (Service.id service)
        (Stylist.id stylist)
        start_time
        end_time
        PENDING
        (AppointmentCreate.appointment_type appointment_data)
        (AppointmentCreate.address appointment_data)
        (price + additional_fees)%float
        price
        0%float
        additional_fees
        false
        (AppointmentCreate.notes appointment_data)
        None).

(** [POST /appointments]: the dependency [get_client], the checks, then
    [db.add], [db.commit], [db.refresh]; the row that the handler returns
    is answered through [response_model=AppointmentDetail]. *)
Definition create_appointment (db : Database) (appointment_data : AppointmentCreate.t)
    (current_user : User.t) : Database * response Appointment.t :=
  match (client <- get_client current_user ;;
         new_appointment db appointment_data client) with
  | Ok row =>
      let (db', row') := add_commit_refresh db row in
      (db', appointment_detail row')
  | HTTPException c d => (db, HTTPException c d)
  | Raised => (db, Raised)
  end.

(** ** [update_appointment_status] *)

(** The block under [# Check authorization based on user role and requested
    status change]. For a salon owner the stylist and the salon are loaded
    and dereferenced without a test for [None]. *)
Definition authorize_status_update (db : Database) (appointment : Appointment.t)
    (status_data : AppointmentStatusUpdate.t) (current_user : User.t) : response unit :=
  match User.role current_user with
  | CLIENT =>
      if negb (Appointment.client_id appointment =? User.id current_user)
      then HTTPException 403 "Not authorized to update this appointment"
      else if negb (bool_decide (AppointmentStatusUpdate.status status_data = CANCELLED))
      then HTTPException 403 "Clients can only cancel appointments"
      else Ok tt
  | STYLIST =>
      if negb (Appointment.stylist_id appointment =? User.id current_user)
      then HTTPException 403 "Not authorized to update this appointment"
      else
        let allowed_statuses := [CONFIRMED; COMPLETED; NO_SHOW] in
        if negb (status_in allowed_statuses (AppointmentStatusUpdate.status status_data))
        then HTTPException 403
               "Stylists can only confirm, complete, or mark appointments as no-show"
        else Ok tt
  | SALON_OWNER =>
      stylist <- or_raise (first (fun s => Stylist.id s =? Appointment.stylist_id appointment)
                                 (stylists db)) ;;
      salon <- or_raise (first (fun s => Salon.id s =? Stylist.salon_id stylist) (salons db)) ;;
      if negb (Salon.owner_id salon =? User.id current_user)
      then HTTPException 403 "Not authorized to update this appointment"
      else Ok tt
  | ADMIN => Ok tt
  end.

(** The assignments under [# Update appointment status] and [# Add
    cancellation reason if provided]. *)
Definition apply_status_update (appointment : Appointment.t)
    (status_data : AppointmentStatusUpdate.t) : Appointment.t :=
  let appointment := Appointment.set_status (AppointmentStatusUpdate.status status_data)
                                            appointment in
  if bool_decide (AppointmentStatusUpdate.status status_data = CANCELLED)
     && opt_str_truthy (AppointmentStatusUpdate.cancellation_reason status_data)
  then Appointment.set_cancellation_reason
         (AppointmentStatusUpdate.cancellation_reason status_data) appointment
  else appointment.

(** The handler of [PUT /appointments/{appointment_id}/status], given the
    validated [status_data] and the user of the dependency, and the answer
    through [response_model=AppointmentDetail]. *)
Definition update_appointment_status (db : Database) (appointment_id : Z)
    (status_data : AppointmentStatusUpdate.t) (current_user : User.t)
  : Database * response Appointment.t :=
  match appointment_by_id db appointment_id with
  | None => (db, HTTPException 404 "Appointment not found")
  | Some appointment =>
      match authorize_status_update db appointment status_data current_user with
      | Ok _ =>
          let appointment := apply_status_update appointment status_data in
          (commit_update db appointment, appointment_detail appointment)
      | HTTPException c d => (db, HTTPException c d)
      | Raised => (db, Raised)
      end
  end.

(** The endpoint as the framework serves it: the dependency
    [get_current_active_user], the validation of the body, the handler. *)
Definition put_appointment_status (db : Database) (appointment_id : Z)
    (body : StatusBody.t) (current_user : User.t) : Database * response Appointment.t :=
  match (user <- get_current_active_user current_user ;;
         status_data <- parse_status_update body ;;
         Ok (user, status_data)) with
  | Ok (user, status_data) => update_appointment_status db appointment_id status_data user
  | HTTPException c d => (db, HTTPException c d)
  | Raised => (db, Raised)
  end.

(** ** [update_appointment_payment] *)

Definition authorize_payment_update (db : Database) (appointment : Appointment.t)
    (current_user : User.t) : response unit :=
  match User.role current_user with
  | STYLIST =>
      if negb (Appointment.stylist_id appointment =? User.id current_user)
      then HTTPException 403 "Not authorized to update this appointment"
      else Ok tt
  | SALON_OWNER =>
      stylist <- or_raise (first (fun s => Stylist.id s =? Appointment.stylist_id appointment)
                                 (stylists db)) ;;
      salon <- or_raise (first (fun s => Salon.id s =? Stylist.salon_id stylist) (salons db)) ;;
      if negb (Salon.owner_id salon =? User.id current_user)
      then HTTPException 403 "Not authorized to update this appointment"
      else Ok tt
  | _ => Ok tt
  end.

(** [PUT /appointments/{appointment_id}/payment], with its dependency
    [get_salon_staff] and its [response_model=AppointmentDetail]. *)
Definition update_appointment_payment (db : Database) (appointment_id : Z)
    (payment_data : AppointmentPaymentUpdate.t) (current_user : User.t)
  : Database * response Appointment.t :=
  match get_salon_staff current_user with
  | Ok current_user =>
      match appointment_by_id db appointment_id with
      | None => (db, HTTPException 404 "Appointment not found")
      | Some appointment =>
          match authorize_payment_update db appointment current_user with
          | Ok _ =>
              let appointment :=
                Appointment.set_is_paid (AppointmentPaymentUpdate.is_paid payment_data)
                                        appointment in
              (commit_update db appointment, appointment_detail appointment)
          | HTTPException c d => (db, HTTPException c d)
          | Raised => (db, Raised)
          end
      end
  | HTTPException c d => (db, HTTPException c d)
  | Raised => (db, Raised)
  end.

(** ** [check_availability] *)

(** Thirty minutes, the step of the candidate cursor. *)
Definition SLOT_STEP : Z := 30 * Datetime.US_PER_MINUTE.

(** The [while slot_start + service_duration <= work_end] loop. The
    recursion is on [fuel], an upper bound on the number of evaluations of
    the loop test; [None] means that the bound was reached before the loop
    ended, [Some Raised] that an addition left the range of [datetime]. *)
Fixpoint slot_loop (fuel : nat) (db : Database) (stylist : Stylist.t)
    (service_duration work_end slot_start : Z) (available_slots : list TimeSlot.t)
  : option (response (list TimeSlot.t)) :=
  match fuel with
  | O => None
  | S fuel =>
      match Datetime.add slot_start service_duration with
      | None => Some Raised
      | Some slot_end =>
          if slot_end <=? work_end then
            let available_slots :=
              match conflicting_appointment db (Stylist.id stylist) slot_start slot_end with
              | None =>
                  available_slots
                  ++ [TimeSlot.mk slot_start slot_end (Stylist.id stylist)
                                  (Stylist.full_name stylist)]
              | Some _ => available_slots
              end in
            match Datetime.add slot_start SLOT_STEP with
            | None => Some Raised
            | Some slot_start =>
                slot_loop fuel db stylist service_duration work_end slot_start available_slots
            end
          else Some (Ok available_slots)
      end
  end.

(** The [for time_slot in working_hours] loop. *)
Fixpoint block_loop (fuel : nat) (db : Database) (service : Service.t) (date : Z)
    (stylist : Stylist.t) (working_hours : list (gmap string string))
    (available_slots : list TimeSlot.t) : option (response (list TimeSlot.t)) :=
  match working_hours with
  | [] => Some (Ok available_slots)
  | time_slot :: rest =>
      match block_bounds date time_slot with
      | None => Some Raised
      | Some (work_start, work_end) =>
          match Datetime.timedelta_minutes (Service.duration_minutes service) with
          | None => Some Raised
          | Some service_duration =>
              match slot_loop fuel db stylist service_duration work_end work_start
                              available_slots with
              | Some (Ok available_slots) =>
                  block_loop fuel db service date stylist rest available_slots
              | other => other
              end
          end
      end
  end.

(** [stylist.working_hours.get(day_of_week, [])] behind the test
    [not stylist.working_hours or day_of_week not in stylist.working_hours];
    [None] when the stylist is skipped. *)
Definition blocks_of_day (stylist : Stylist.t) (day_of_week : string)
  : option (list (gmap string string)) :=
  match Stylist.working_hours stylist with
  | None => None
  | Some working_hours =>
      if bool_decide (working_hours = ∅) then None
      else working_hours !! day_of_week
  end.

(** The [for stylist in stylists] loop. *)
Fixpoint stylist_loop (fuel : nat) (db : Database) (service : Service.t) (date : Z)
    (stylists : list Stylist.t) (available_slots : list TimeSlot.t)
  : option (response (list TimeSlot.t)) :=
  match stylists with
  | [] => Some (Ok available_slots)
  | stylist :: rest =>
      match blocks_of_day stylist (Datetime.day_name date) with
      | None => stylist_loop fuel db service date rest available_slots
      | Some working_hours =>
          match block_loop fuel db service date stylist working_hours available_slots with
          | Some (Ok available_slots) =>
              stylist_loop fuel db service date rest available_slots
          | other => other
          end
      end
  end.

(** The stylists that the query of [check_availability] returns: active,
    offering the service, and the requested one only when [stylist_id] is
    given and not zero. *)
Definition candidate_stylists (db : Database) (service_id : Z) (stylist_id : option Z)
  : list Stylist.t :=
  let query := all (fun s => Stylist.is_active s && existsb (Z.eqb service_id) (Stylist.services s))
                   (stylists db) in
  if opt_int_truthy stylist_id
  then all (fun s => Stylist.id s =? default 0 stylist_id) query
  else query.

(** [GET /appointments/availability]. [fuel] bounds each run of the
    [while] loop; the outer [None] is a run that the bound cut short. *)
Definition check_availability (fuel : nat) (db : Database) (service_id : Z) (date : Z)
    (stylist_id : option Z) : option (response (list TimeSlot.t)) :=
  match first (fun s => (Service.id s =? service_id) && Service.is_active s) (services db) with
  | None => Some (HTTPException 404 "Service not found or inactive")
  | Some service =>
      let stylists := candidate_stylists db service_id stylist_id in
      match stylists with
      | [] => Some (Ok [])
      | _ => stylist_loop fuel db service date stylists []
      end
  end.

End Handlers.

(** ** The requests that change the appointment table *)

Inductive request :=
| CreateAppointment (appointment_data : AppointmentCreate.t) (current_user : User.t)
| UpdateStatus (appointment_id : Z) (body : StatusBody.t) (current_user : User.t)
| UpdatePayment (appointment_id : Z) (payment_data : AppointmentPaymentUpdate.t)
                (current_user : User.t).

(** One request served from start to end. *)
Definition serve (py_int : string -> option Z) (db : Database) (r : request)
  : Database * response Appointment.t :=
  match r with
  | CreateAppointment appointment_data current_user =>
      create_appointment py_int db appointment_data current_user
  | UpdateStatus appointment_id body current_user =>
      put_appointment_status db appointment_id body current_user
  | UpdatePayment appointment_id payment_data current_user =>
      update_appointment_payment db appointment_id payment_data current_user
  end.

(** Requests served one after the other, with their responses. *)
Fixpoint serve_all (py_int : string -> option Z) (db : Database) (rs : list request)
  : Database * list (response Appointment.t) :=
  match rs with
  | [] => (db, [])
  | r :: rest =>
      let (db1, out) := serve py_int db r in
      let (db2, outs) := serve_all py_int db1 rest in
      (db2, out :: outs)
  end.

(** ** Properties of the appointment table *)

Definition is_active_status (s : AppointmentStatus) : bool :=
  status_in [PENDING; CONFIRMED] s.

(** Two rows that may stand together: not both live bookings of one
    stylist with overlapping half-open intervals. *)
Definition compatible (a b : Appointment.t) : Prop :=
  Appointment.stylist_id a = Appointment.stylist_id b ->
  is_active_status (Appointment.status a) = true ->
  is_active_status (Appointment.status b) = true ->
  Interval.overlaps (Appointment.start_time a) (Appointment.end_time a)
                    (Appointment.start_time b) (Appointment.end_time b) = false.

Definition no_double_booking (db : Database) : Prop :=
  ForallOrdPairs compatible (appointments db).

Definition time_range_ok (a : Appointment.t) : Prop :=
  Appointment.start_time a < Appointment.end_time a.


(** Blocks of a day stored in ascending order without overlap: each block
    that can be read ends no later than every later one begins. *)
Definition block_before (py_int : string -> option Z) (date : Z)
    (b1 b2 : gmap string string) : Prop :=
  forall s1 e1 s2 e2,
    block_bounds py_int date b1 = Some (s1, e1) ->
    block_bounds py_int date b2 = Some (s2, e2) ->
    e1 <= s2.

Definition blocks_ascending (py_int : string -> option Z) (date : Z)
    (blocks : list (gmap string string)) : Prop :=
  ForallOrdPairs (block_before py_int date) blocks.

Definition starts_ascending (slots : list TimeSlot.t) : Prop :=
  ForallOrdPairs (fun s1 s2 => TimeSlot.start_time s1 <= TimeSlot.start_time s2) slots.

(** ** What the loops of [check_availability] produce *)

(** What the [while] loop puts on the list for one block: a slot belongs to
    the stylist, starts at or after the cursor, lasts [service_duration],
    ends by [work_end], and no live booking of the stylist overlaps it. *)
Definition slot_of_block (db : Database) (stylist : Stylist.t)
    (service_duration work_start work_end : Z) (t : TimeSlot.t) : Prop :=
  TimeSlot.stylist_id t = Stylist.id stylist
  /\ TimeSlot.stylist_name t = Stylist.full_name stylist
  /\ work_start <= TimeSlot.start_time t
  /\ TimeSlot.end_time t = TimeSlot.start_time t + service_duration
  /\ TimeSlot.end_time t <= work_end
  /\ forall a, In a (appointments db) ->
       Appointment.stylist_id a = Stylist.id stylist ->
       is_active_status (Appointment.status a) = true ->
       Interval.overlaps (Appointment.start_time a) (Appointment.end_time a)
                         (TimeSlot.start_time t) (TimeSlot.end_time t) = false.

(** What the loop over the blocks of a day puts on the list. *)
Definition slot_of_blocks (py_int : string -> option Z) (db : Database)
    (service : Service.t) (date : Z) (stylist : Stylist.t)
    (blocks : list (gmap string string)) (t : TimeSlot.t) : Prop :=
  exists time_slot work_start work_end,
    In time_slot blocks
    /\ block_bounds py_int date time_slot = Some (work_start, work_end)
    /\ slot_of_block db stylist
         (Service.duration_minutes service * Datetime.US_PER_MINUTE)
         work_start work_end t.

(** What the loop over the stylists puts on the list for one of them. *)
Definition group_of_stylist (py_int : string -> option Z) (db : Database)
    (service : Service.t) (date : Z) (stylist : Stylist.t) (group : list TimeSlot.t)
  : Prop :=
  Forall (fun t => exists blocks,
            blocks_of_day stylist (Datetime.day_name date) = Some blocks
            /\ slot_of_blocks py_int db service date stylist blocks t) group
  /\ (0 <= Service.duration_minutes service ->
      (forall blocks, blocks_of_day stylist (Datetime.day_name date) = Some blocks ->
                      blocks_ascending py_int date blocks) ->
      starts_ascending group).

(** ** [get_appointment] *)


(** ** [get_my_appointments] *)

(** The rows that the base query of [get_my_appointments] selects for the
    role of the user. *)
Definition visible_to (db : Database) (current_user : User.t) (a : Appointment.t) : bool :=
  match User.role current_user with
  | CLIENT => Appointment.client_id a =? User.id current_user
  | STYLIST => Appointment.stylist_id a =? User.id current_user
  | SALON_OWNER =>
      let salon_ids :=
        List.map Salon.id
          (all (fun s => Salon.owner_id s =? User.id current_user) (salons db)) in
      let stylist_ids :=
        List.map Stylist.id
          (all (fun s => existsb (Z.eqb (Stylist.salon_id s)) salon_ids) (stylists db)) in
      existsb (Z.eqb (Appointment.stylist_id a)) stylist_ids
  | ADMIN => true
  end.

(** The three optional filters; an enum member and a [datetime] are always
    true for [if status:], [if from_date:] and [if to_date:]. *)
Definition matches_filters (status : option AppointmentStatus) (from_date to_date : option Z)
    (a : Appointment.t) : bool :=
  match status with
  | Some s => bool_decide (Appointment.status a = s)
  | None => true
  end
  && match from_date with
     | Some d => Appointment.start_time a >=? d
     | None => true
     end
  && match to_date with
     | Some d => Appointment.start_time a <=? d
     | None => true
     end.

(** [order_by(Appointment.start_time.desc())]. Rows with the same start
    keep their storage order here; SQL leaves their order open. *)
Fixpoint insert_by_start_desc (a : Appointment.t) (rows : list Appointment.t)
  : list Appointment.t :=
  match rows with
  | [] => [a]
  | b :: rest =>
      if Appointment.start_time b <=? Appointment.start_time a
      then a :: b :: rest
      else b :: insert_by_start_desc a rest
  end.

Definition order_by_start_time_desc (rows : list Appointment.t) : list Appointment.t :=
  fold_right insert_by_start_desc [] rows.

(** The order of the result: [x] comes before [y] only if it does not
    start earlier. *)
Definition start_desc (x y : Appointment.t) : Prop :=
  Appointment.start_time y <= Appointment.start_time x.

(** [.offset(skip)] and [.limit(limit)] as SQLite, the database of the
    default [DATABASE_URL], reads them: a negative offset skips nothing and
    a negative limit is no limit. *)
Definition offset_rows {A : Type} (skip : Z) (rows : list A) : list A :=
  skipn (Z.to_nat skip) rows.

Definition limit_rows {A : Type} (limit : Z) (rows : list A) : list A :=
  if limit <? 0 then rows else firstn (Z.to_nat limit) rows.

(** [GET /appointments/my-appointments], with its dependency
    [get_current_active_user] and its
    [response_model=List[AppointmentDetail]]. *)
Definition get_my_appointments (db : Database) (status : option AppointmentStatus)
    (from_date to_date : option Z) (skip limit : Z) (current_user : User.t)
  : response (list Appointment.t) :=
  current_user <- get_current_active_user current_user ;;
  let query := all (visible_to db current_user) (appointments db) in
  let query := all (matches_filters status from_date to_date) query in
  appointment_details (limit_rows limit (offset_rows skip (order_by_start_time_desc query))).

(** ** The body of [POST /appointments] *)

(** The body before validation, its typed fields read: [appointment_type]
    is [None] when the body leaves it out. *)
Module CreateBody.
Record t := mk {
  service_id : Z;
  stylist_id : Z;
  start_time : Z;
  appointment_type : option AppointmentType;
  address : field string;
  notes : field string
}.
End CreateBody.

Definition field_value {A : Type} (f : field A) : option A :=
  match f with
  | Given a => Some a
  | _ => None
  end.

(** Building an [AppointmentCreate] from the body: [appointment_type]
    defaults to [IN_SALON]; the validator of [address], declared like the
    one of [cancellation_reason], is run on a supplied value and skipped on
    an absent field. *)
Definition parse_appointment_create (body : CreateBody.t) : response AppointmentCreate.t :=
  let appointment_type := default IN_SALON (CreateBody.appointment_type body) in
  address <-
    match CreateBody.address body with
    | Missing => Ok None
    | supplied =>
        match validate_address (field_value supplied) appointment_type with
        | Some v => Ok v
        | None => HTTPException 422 "Address is required for at-home appointments"
        end
    end ;;
  Ok (AppointmentCreate.mk (CreateBody.service_id body) (CreateBody.stylist_id body)
        (CreateBody.start_time body) appointment_type address
        (field_value (CreateBody.notes body))).

(** ** What a run of [check_availability] has checked *)

(** What the [while] loop has established of a slot before putting it on the
    list: the slot starts a whole number of steps after the start of the
    block, its end is the start plus the duration and within the block,
    and the conflict query for it found nothing. *)
Definition slot_checked (db : Database) (stylist : Stylist.t)
    (service_duration work_start work_end : Z) (t : TimeSlot.t) : Prop :=
  TimeSlot.stylist_id t = Stylist.id stylist
  /\ TimeSlot.stylist_name t = Stylist.full_name stylist
  /\ (exists k, 0 <= k /\ TimeSlot.start_time t = work_start + k * SLOT_STEP)
  /\ Datetime.add (TimeSlot.start_time t) service_duration = Some (TimeSlot.end_time t)
  /\ TimeSlot.end_time t <= work_end
  /\ conflicting_appointment db (Stylist.id stylist)
       (TimeSlot.start_time t) (TimeSlot.end_time t) = None.

(** A slot checked against one of the blocks that the stylist has on the
    day of [date], all of which could be read. *)
Definition slot_offered (py_int : string -> option Z) (db : Database)
    (service : Service.t) (date : Z) (stylist : Stylist.t) (t : TimeSlot.t) : Prop :=
  exists blocks time_slot work_start work_end,
    blocks_of_day stylist (Datetime.day_name date) = Some blocks
    /\ Forall (fun b => block_bounds py_int date b <> None) blocks
    /\ In time_slot blocks
    /\ block_bounds py_int date time_slot = Some (work_start, work_end)
    /\ slot_checked db stylist
         (Service.duration_minutes service * Datetime.US_PER_MINUTE)
         work_start work_end t.

(** The slots that one run of the [while] loop puts on the list for a
    block, as a list: they come in strictly ascending order of start time,
    and they are exactly the candidates of the block for which the conflict
    query finds nothing, a candidate being a start a whole number of steps
    after the start of the block whose slot ends within the block. *)
Definition slots_of_block (db : Database) (stylist : Stylist.t)
    (service_duration work_start work_end : Z) (slots : list TimeSlot.t) : Prop :=
  ForallOrdPairs (fun t1 t2 => TimeSlot.start_time t1 < TimeSlot.start_time t2) slots
  /\ forall t,
       In t slots <->
       exists k,
         0 <= k
         /\ t = TimeSlot.mk (work_start + k * SLOT_STEP)
                            (work_start + k * SLOT_STEP + service_duration)
                            (Stylist.id stylist) (Stylist.full_name stylist)
         /\ work_start + k * SLOT_STEP + service_duration <= work_end
         /\ conflicting_appointment db (Stylist.id stylist) (work_start + k * SLOT_STEP)
              (work_start + k * SLOT_STEP + service_duration) = None.

(** The slots of a stylist block by block: one list per block of the day,
    in the order in which the blocks are stored, each the slots of its
    block. *)
Definition slots_by_block (py_int : string -> option Z) (db : Database)
    (service : Service.t) (date : Z) (stylist : Stylist.t)
    (blocks : list (gmap string string)) (per_block : list (list TimeSlot.t)) : Prop :=
  Forall2 (fun time_slot slots =>
             exists work_start work_end,
               block_bounds py_int date time_slot = Some (work_start, work_end)
               /\ slots_of_block db stylist
                    (Service.duration_minutes service * Datetime.US_PER_MINUTE)
                    work_start work_end slots)
          blocks per_block.


(** The primary key of the appointment table. *)
Definition appointment_ids_unique (db : Database) : Prop :=
  List.NoDup (List.map Appointment.id (appointments db)).

(** ** Histories that follow the life cycle *)



(** ** Concrete inputs *)

Module Scenario.

(** [int] on a non-empty string of ASCII digits. On any other string this
    reading answers [None], also where Python reads a number (a sign,
    blanks, underscores); it serves to run the handlers on the inputs
    below, whose texts are all of the form ["HH:MM"]. *)
Definition digit_value (c : ascii) : option Z :=
  let n := Z.of_N (N_of_ascii c) in
  if (48 <=? n) && (n <=? 57) then Some (n - 48) else None.

Fixpoint decimal_digits (acc : Z) (s : string) : option Z :=
  match s with
  | EmptyString => Some acc
  | String c rest =>
      match digit_value c with
      | Some d => decimal_digits (acc * 10 + d) rest
      | None => None
      end
  end.

Definition decimal_int (s : string) : option Z :=
  match s with
  | EmptyString => None
  | _ => decimal_digits 0 s
  end.

(** Day 738885 after 0001-01-01 is Monday 2024-01-01. *)
Definition monday : Z := 738885.

Definition at_time (day hour minute : Z) : Z :=
  day * Datetime.US_PER_DAY + hour * Datetime.US_PER_HOUR + minute * Datetime.US_PER_MINUTE.

Definition block (s e : string) : gmap string string := {[ "start" := s; "end" := e ]}.

Definition haircut : Service.t := Service.mk 1 1 60 50%float true None.

Definition manicure : Service.t := Service.mk 2 1 45 50%float true (Some 15%float).

(** A service row with no duration, as the table admits it. *)
Definition instant : Service.t := Service.mk 3 1 0 10%float true None.

(** Monday 09:00-13:00 and 14:00-18:00. *)
Definition anna : Stylist.t :=
  Stylist.mk 1 1 "Anna" true
    (Some {[ "monday" := [block "09:00" "13:00"; block "14:00" "18:00"] ]}) [1; 2; 3].

(** Two blocks stored afternoon first. *)
Definition bea : Stylist.t :=
  Stylist.mk 2 1 "Bea" true
    (Some {[ "monday" := [block "14:00" "15:00"; block "09:00" "10:00"] ]}) [1].

(** No working hours recorded. *)
Definition cleo : Stylist.t := Stylist.mk 3 1 "Cleo" true None [1].

Definition db0 : Database :=
  mkDatabase [Salon.mk 1 10] [haircut; manicure] [anna; bea; cleo] [].

Definition db_instant : Database :=
  mkDatabase [Salon.mk 1 10] [haircut; manicure; instant] [anna; bea; cleo] [].

Definition client : User.t := User.mk 5 CLIENT true.

Definition admin : User.t := User.mk 1 ADMIN true.

Definition book (service_id stylist_id hour minute : Z) : AppointmentCreate.t :=
  AppointmentCreate.mk service_id stylist_id (at_time monday hour minute) IN_SALON None None.

Definition at_home (service_id stylist_id hour minute : Z) : AppointmentCreate.t :=
  AppointmentCreate.mk service_id stylist_id (at_time monday hour minute) AT_HOME
    (Some "12 Rose Lane") None.

(** A slot of one hour with Anna. *)
Definition anna_slot (hm : Z * Z) : TimeSlot.t :=
  TimeSlot.mk (at_time monday (fst hm) (snd hm)) (at_time monday (fst hm + 1) (snd hm))
              1 "Anna".

(** The slots of Scenario A: seven in the morning, seven in the
    afternoon. *)
Definition monday_slots : list TimeSlot.t :=
  List.map anna_slot
    [(9, 0); (9, 30); (10, 0); (10, 30); (11, 0); (11, 30); (12, 0);
     (14, 0); (14, 30); (15, 0); (15, 30); (16, 0); (16, 30); (17, 0)].

(** A haircut booked with Anna at 10:00, confirmed and completed. *)
Definition completed_history : list request :=
  [CreateAppointment (book 1 1 10 0) client;
   UpdateStatus 1 (StatusBody.mk CONFIRMED Missing) admin;
   UpdateStatus 1 (StatusBody.mk COMPLETED Missing) admin].

(** A haircut booked with Anna at 10:00 and cancelled by the client, the
    same hour booked again, and the first appointment set back to
    CONFIRMED by an administrator. *)
Definition reactivation_history : list request :=
  [CreateAppointment (book 1 1 10 0) client;
   UpdateStatus 1 (StatusBody.mk CANCELLED (Given "Cancelled by client")) client;
   CreateAppointment (book 1 1 10 0) client;
   UpdateStatus 1 (StatusBody.mk CONFIRMED Missing) admin].

(** The row of a haircut with Anna on Monday from 10:00 to 11:00, as
    [create_appointment] stores it for [client] in the empty table. *)
Definition pending_10 : Appointment.t :=
  Appointment.mk (Some 1) 5 1 1 (at_time monday 10 0) (at_time monday 11 0) PENDING
    IN_SALON None 50%float 50%float 0%float 0%float false None None.

Definition db1 : Database :=
  mkDatabase [Salon.mk 1 10] [haircut; manicure] [anna; bea; cleo] [pending_10].

(** The user behind the stylist Anna (the handlers compare the
    [stylist_id] of an appointment with the id of the user) and the owner
    of the salon. *)
Definition anna_user : User.t := User.mk 1 STYLIST true.

Definition owner : User.t := User.mk 10 SALON_OWNER true.

(** A stylist whose working-hours record is the empty dictionary, and a
    database in which she works. *)
Definition dora : Stylist.t := Stylist.mk 4 1 "Dora" true (Some ∅) [1].

Definition db_dora : Database :=
  mkDatabase [Salon.mk 1 10] [haircut; manicure] [anna; bea; cleo; dora] [].

Definition client2 : User.t := User.mk 6 CLIENT true.

(** A request for an appointment at home that leaves the address out. *)
Definition at_home_no_address (service_id stylist_id hour minute : Z) : AppointmentCreate.t :=
  AppointmentCreate.mk service_id stylist_id (at_time monday hour minute) AT_HOME None None.

(** The row of a haircut of [client] with Anna on Monday, one hour from
    [hour]. *)
Definition booking (id hour : Z) (status : AppointmentStatus) : Appointment.t :=
  Appointment.mk (Some id) 5 1 1 (at_time monday hour 0) (at_time monday (hour + 1) 0) status
    IN_SALON None 50%float 50%float 0%float 0%float false None None.

(** Two bookings back to back, 10:00-11:00 and 11:00-12:00. *)
Definition db2 : Database :=
  mkDatabase [Salon.mk 1 10] [haircut; manicure] [anna; bea; cleo]
    [pending_10; booking 2 11 PENDING].

(** Three bookings stored out of order: 10:00, 12:00, 11:00. *)
Definition db3 : Database :=
  mkDatabase [Salon.mk 1 10] [haircut; manicure] [anna; bea; cleo]
    [pending_10; booking 2 12 CONFIRMED; booking 3 11 PENDING].

(** Two clients book Anna at 10:00 and at 11:00; she confirms the first,
    the owner records the payment of the second, its client cancels it,
    and the hour is booked again, for a manicure at 11:15. *)
Definition two_bookings_history : list request :=
  [CreateAppointment (book 1 1 10 0) client;
   CreateAppointment (book 1 1 11 0) client2;
   UpdateStatus 1 (StatusBody.mk CONFIRMED Missing) anna_user;
   UpdatePayment 2 (AppointmentPaymentUpdate.mk true) owner;
   UpdateStatus 2 (StatusBody.mk CANCELLED (Given "Cancelled by client")) client2;
   CreateAppointment (book 2 1 11 15) client].

(** The slots of Scenario A that are left once 10:00-11:00 is booked. *)
Definition monday_slots_after : list TimeSlot.t :=
  List.map anna_slot
    [(9, 0); (11, 0); (11, 30); (12, 0);
     (14, 0); (14, 30); (15, 0); (15, 30); (16, 0); (16, 30); (17, 0)].

End Scenario.

(** * Part II: the properties *)

(** ** Tactics *)

Ltac bool_to_Z :=
  repeat match goal with
  | H : _ && _ = true |- _ => apply andb_true_iff in H; destruct H
  | H : _ || _ = true |- _ => apply orb_true_iff in H; destruct H
  | H : _ && _ = false |- _ => apply andb_false_iff in H; destruct H
  | H : _ || _ = false |- _ => apply orb_false_iff in H; destruct H
  | H : negb _ = true |- _ => apply negb_true_iff in H
  | H : negb _ = false |- _ => apply negb_false_iff in H
  | H : (_ <=? _) = true |- _ => apply Z.leb_le in H
  | H : (_ <? _) = true |- _ => apply Z.ltb_lt in H
  | H : (_ >=? _) = true |- _ => rewrite Z.geb_leb in H; apply Z.leb_le in H
  | H : (_ >? _) = true |- _ => rewrite Z.gtb_ltb in H; apply Z.ltb_lt in H
  | H : (_ <=? _) = false |- _ => apply Z.leb_gt in H
  | H : (_ <? _) = false |- _ => apply Z.ltb_ge in H
  | H : (_ >=? _) = false |- _ => rewrite Z.geb_leb in H; apply Z.leb_gt in H
  | H : (_ >? _) = false |- _ => rewrite Z.gtb_ltb in H; apply Z.ltb_ge in H
  | H : (_ =? _) = true |- _ => apply Z.eqb_eq in H
  | H : (_ =? _) = false |- _ => apply Z.eqb_neq in H
  end.

(** ** Interval algebra *)

Section IntervalFacts.
Import Interval.

(** Whatever the four endpoints are, an overlap in the half-open sense is
    caught by the stored filter. *)
Lemma overlaps_conflict_condition a_start a_end s e :
  overlaps a_start a_end s e = true ->
  conflict_condition a_start a_end s e = true.
Proof.
  unfold overlaps, conflict_condition. intros H.
  apply not_false_is_true. intros Hc. bool_to_Z; lia.
Qed.

Lemma no_conflict_no_overlap a_start a_end s e :
  conflict_condition a_start a_end s e = false ->
  overlaps a_start a_end s e = false.
Proof.
  intros H. apply not_true_is_false. intros Ho.
  apply overlaps_conflict_condition in Ho. congruence.
Qed.


Lemma overlaps_sym a_start a_end b_start b_end :
  overlaps a_start a_end b_start b_end = overlaps b_start b_end a_start a_end.
Proof. unfold overlaps. apply andb_comm. Qed.

(** C3. For well-formed intervals (start < end on both sides) the
    three-condition disjunction of the conflict queries holds exactly when
    the half-open overlap test [a.start < b.end AND b.start < a.end]
    does. *)
Theorem conflict_condition_iff_overlaps a_start a_end b_start b_end :
  a_start < a_end -> b_start < b_end ->
  (conflict_condition a_start a_end b_start b_end = true
   <-> overlaps a_start a_end b_start b_end = true)
  /\ (((a_start <= b_start /\ a_end > b_start)
       \/ (a_start < b_end /\ a_end >= b_end)
       \/ (a_start >= b_start /\ a_end <= b_end))
      <-> (a_start < b_end /\ b_start < a_end))
  /\ (conflict_condition a_start a_end b_start b_end = true
      <-> ((a_start <= b_start /\ a_end > b_start)
           \/ (a_start < b_end /\ a_end >= b_end)
           \/ (a_start >= b_start /\ a_end <= b_end))).
Proof.
  intros Ha Hb. split; [| split].
  - split.
    + unfold overlaps, conflict_condition. intros Hc.
      apply not_false_is_true. intros Ho. bool_to_Z; lia.
    + apply overlaps_conflict_condition.
  - lia.
  - unfold conflict_condition. split.
    + intros Hc. bool_to_Z; lia.
    + intros Hc. apply not_false_is_true. intros Hn. bool_to_Z; lia.
Qed.

End IntervalFacts.

(** The three-condition filter and the half-open test part ways once an
    interval is empty: a stored [10:00, 11:00) and an empty candidate at
    10:00 conflict for the filter and do not overlap. *)
Example conflict_condition_empty_candidate :
  Interval.conflict_condition 600 660 600 600 = true
  /\ Interval.overlaps 600 660 600 600 = false.
Proof. split; reflexivity. Qed.

Lemma conflict_condition_iff_overlaps_witness :
  (600 < 660 /\ 630 < 690)
  /\ (Interval.conflict_condition 600 660 630 690 = true
      <-> Interval.overlaps 600 660 630 690 = true).
Proof.
  split; [lia |].
  exact (proj1 (conflict_condition_iff_overlaps 600 660 630 690 ltac:(lia) ltac:(lia))).
Defined.

(** ** [create_appointment] *)

Section CreateFacts.

Variable py_int : string -> option Z.

(** What a successful run of the checks has established, and the row it
    has built. *)
Lemma new_appointment_Ok db appointment_data current_user row :
  new_appointment py_int db appointment_data current_user = Ok row ->
  exists service stylist duration end_time,
    first (fun s => (Service.id s =? AppointmentCreate.service_id appointment_data)
                    && Service.is_active s) (services db) = Some service
    /\ first (fun s => (Stylist.id s =? AppointmentCreate.stylist_id appointment_data)
                       && Stylist.is_active s) (stylists db) = Some stylist
    /\ existsb (Z.eqb (Service.id service)) (Stylist.services stylist) = true
    /\ Datetime.timedelta_minutes (Service.duration_minutes service) = Some duration
    /\ Datetime.add (AppointmentCreate.start_time appointment_data) duration = Some end_time
    /\ conflicting_appointment db (Stylist.id stylist)
         (AppointmentCreate.start_time appointment_data) end_time = None
    /\ check_working_hours py_int stylist
         (AppointmentCreate.start_time appointment_data) end_time = Ok tt
    /\ row = Appointment.mk None (User.id current_user) (Service.id service)
               (Stylist.id stylist) (AppointmentCreate.start_time appointment_data)
               end_time PENDING (AppointmentCreate.appointment_type appointment_data)
               (AppointmentCreate.address appointment_data)
               (Service.price service + additional_fees_for appointment_data service)%float
               (Service.price service) 0%float (additional_fees_for appointment_data service) false
               (AppointmentCreate.notes appointment_data) None.
Proof.
  unfold new_appointment. intros H.
  destruct (first _ (services db)) as [service |] eqn:Hservice; [| discriminate].
  destruct (first _ (stylists db)) as [stylist |] eqn:Hstylist; [| discriminate].
  simpl in H.
  destruct (existsb _ (Stylist.services stylist)) eqn:Hoffers; [| discriminate].
  simpl in H.
  destruct (Datetime.timedelta_minutes _) as [duration |] eqn:Hduration; [| discriminate].
  simpl in H.
  destruct (Datetime.add _ duration) as [end_time |] eqn:Hend; [| discriminate].
  simpl in H.
  destruct (conflicting_appointment _ _ _ _) eqn:Hconflict; [discriminate |].
  simpl in H.
  destruct (check_working_hours _ _ _ _) as [[] | |] eqn:Hhours; try discriminate.
  simpl in H. injection H as <-.
  exists service, stylist, duration, end_time. repeat split; assumption.
Qed.

(** The answer through the response model is the row itself or an
    internal error, never an [HTTPException]. *)
Lemma appointment_detail_cases a :
  appointment_detail a = Ok a \/ appointment_detail a = Raised.
Proof. unfold appointment_detail. destruct (validate_address _ _); auto. Qed.

Lemma appointment_detail_Ok a b : appointment_detail a = Ok b -> b = a.
Proof. destruct (appointment_detail_cases a) as [-> | ->]; congruence. Qed.

(** What [create_appointment] does, in all: either the dependency or the
    checks stop the request and the database stays as it is, or the checks
    end in a row, which is stored under a new key and answered through the
    response model. *)
Lemma create_appointment_cases db appointment_data current_user :
  (exists r,
      create_appointment py_int db appointment_data current_user = (db, r)
      /\ (forall a, r <> Ok a)
      /\ (forall row, new_appointment py_int db appointment_data current_user = Ok row ->
                      User.role current_user <> CLIENT))
  \/ (exists row,
        User.role current_user = CLIENT
        /\ new_appointment py_int db appointment_data current_user = Ok row
        /\ create_appointment py_int db appointment_data current_user
           = (set_appointments
                (appointments db
                 ++ [Appointment.set_id (Some (next_id (appointments db))) row]) db,
              appointment_detail
                (Appointment.set_id (Some (next_id (appointments db))) row))).
Proof.
  unfold create_appointment, get_client, role_required, role_in.
  destruct (User.role current_user) eqn:Hrole; simpl;
    try (left; eexists; split; [reflexivity |]; split; [discriminate |];
         intros row _; discriminate).
  destruct (new_appointment _ _ _ _) as [row | c d |] eqn:Hrow; simpl.
  - right. exists row. auto.
  - left. eexists. split; [reflexivity |]. split; discriminate.
  - left. eexists. split; [reflexivity |]. split; discriminate.
Qed.

(** A successful [create_appointment] is a successful run of the checks
    followed by the insertion of the row under a new key. *)
Lemma create_appointment_Ok db appointment_data current_user db' a :
  create_appointment py_int db appointment_data current_user = (db', Ok a) ->
  exists row,
    new_appointment py_int db appointment_data current_user = Ok row
    /\ a = Appointment.set_id (Some (next_id (appointments db))) row
    /\ db' = set_appointments (appointments db ++ [a]) db.
Proof.
  intros H.
  destruct (create_appointment_cases db appointment_data current_user)
    as [(r & Hr & Hno & _) | (row & _ & Hrow & Hc)]; rewrite H in *.
  - injection Hr as _ <-. exfalso. eapply Hno. reflexivity.
  - injection Hc as -> Hd. symmetry in Hd. apply appointment_detail_Ok in Hd. subst a.
    exists row. auto.
Qed.

(** A call that is refused with an [HTTPException] leaves the database as
    it was. *)
Lemma create_appointment_failure db appointment_data current_user db' c d :
  create_appointment py_int db appointment_data current_user
  = (db', HTTPException c d) ->
  db' = db.
Proof.
  intros H.
  destruct (create_appointment_cases db appointment_data current_user)
    as [(r & Hr & _) | (row & _ & _ & Hc)]; rewrite H in *.
  - now injection Hr as ->.
  - injection Hc as _ Hd.
    destruct (appointment_detail_cases
                (Appointment.set_id (Some (next_id (appointments db))) row))
      as [He | He]; rewrite He in Hd; discriminate.
Qed.

(** C6. Every appointment that a successful [create_appointment] returns
    carries the home-service fee as additional fees when the appointment is
    at home and the fee is set (a fee of zero being stored as 0), and 0
    otherwise; its price is the service's price plus the additional fees,
    its original price the service's price, its discount 0, its status
    PENDING, it is unpaid, and it ends [duration_minutes] after the
    requested start. *)
Theorem create_appointment_pricing db appointment_data current_user db' a :
  create_appointment py_int db appointment_data current_user = (db', Ok a) ->
  exists service,
    first (fun s => (Service.id s =? AppointmentCreate.service_id appointment_data)
                    && Service.is_active s) (services db) = Some service
    /\ (forall fee,
          AppointmentCreate.appointment_type appointment_data = AT_HOME ->
          Service.home_service_fee service = Some fee ->
          Appointment.additional_fees a = fee
          \/ (PrimFloat.eqb fee 0 = true /\ Appointment.additional_fees a = 0%float))
    /\ (AppointmentCreate.appointment_type appointment_data <> AT_HOME
        \/ Service.home_service_fee service = None ->
        Appointment.additional_fees a = 0%float)
    /\ Appointment.price a
       = (Service.price service + Appointment.additional_fees a)%float
    /\ Appointment.original_price a = Service.price service
    /\ Appointment.discount_amount a = 0%float
    /\ Appointment.status a = PENDING
    /\ Appointment.is_paid a = false
    /\ Appointment.start_time a = AppointmentCreate.start_time appointment_data
    /\ Appointment.end_time a
       = AppointmentCreate.start_time appointment_data
         + Service.duration_minutes service * Datetime.US_PER_MINUTE
    /\ In a (appointments db').
Proof.
  intros H.
  apply create_appointment_Ok in H. destruct H as (row & Hrow & -> & ->).
  apply new_appointment_Ok in Hrow.
  destruct Hrow as (service & stylist & duration & end_time
                    & Hservice & _ & _ & Hduration & Hend & _ & _ & ->).
  exists service. simpl.
  split; [exact Hservice |].
  split.
  { intros fee Htype Hfee. unfold additional_fees_for.
    rewrite Htype, Hfee. simpl. unfold float_truthy.
    destruct (PrimFloat.eqb fee 0) eqn:Hzero; simpl; auto. }
  split.
  { intros [Htype | Hfee]; unfold additional_fees_for.
    - rewrite bool_decide_eq_false_2 by exact Htype. reflexivity.
    - rewrite Hfee. simpl. now rewrite andb_false_r. }
  repeat split.
  - unfold Datetime.timedelta_minutes in Hduration.
    destruct (_ && _) in Hduration; [| discriminate].
    injection Hduration as <-.
    unfold Datetime.add in Hend.
    destruct (Datetime.in_range _) in Hend; [| discriminate].
    injection Hend as <-. reflexivity.
  - apply in_or_app. right. left. reflexivity.
Qed.

(** ** The working-hours check *)

Lemma is_within_hours_outside start_time end_time blocks :
  (forall time_slot, In time_slot blocks ->
     exists work_start work_end,
       block_bounds py_int start_time time_slot = Some (work_start, work_end)
       /\ Interval.contains work_start work_end start_time end_time = false) ->
  is_within_hours py_int start_time end_time blocks = Some false.
Proof.
  induction blocks as [| time_slot rest IH]; intros H; simpl; [reflexivity |].
  destruct (H time_slot (or_introl eq_refl)) as (work_start & work_end & Hb & Hc).
  rewrite Hb. unfold Interval.contains in Hc.
  rewrite Z.geb_leb, Hc. apply IH. intros ts Hts. apply H. now right.
Qed.

(** C4, as the code has it. Take a request of a client whose service and
    stylist resolve, whose stylist offers the service, whose end time can
    be computed and which meets no conflicting appointment. When the
    stylist has no working-hours record, or an empty one, the working
    hours are not looked at: the appointment is stored, with the requested
    start and the computed end, and answered through the response model.
    When the stylist has a record that is not empty and none of the blocks
    of the weekday (all of them readable) contains the interval, the
    weekday having no entry at all being the case of no block, the request
    is refused with status 400 and nothing is stored. *)
Theorem create_appointment_outside_working_hours
    db appointment_data current_user service stylist duration end_time :
  User.role current_user = CLIENT ->
  first (fun s => (Service.id s =? AppointmentCreate.service_id appointment_data)
                  && Service.is_active s) (services db) = Some service ->
  first (fun s => (Stylist.id s =? AppointmentCreate.stylist_id appointment_data)
                  && Stylist.is_active s) (stylists db) = Some stylist ->
  existsb (Z.eqb (Service.id service)) (Stylist.services stylist) = true ->
  Datetime.timedelta_minutes (Service.duration_minutes service) = Some duration ->
  Datetime.add (AppointmentCreate.start_time appointment_data) duration = Some end_time ->
  conflicting_appointment db (Stylist.id stylist)
    (AppointmentCreate.start_time appointment_data) end_time = None ->
  (Stylist.working_hours stylist = None \/ Stylist.working_hours stylist = Some ∅ ->
   exists r a,
     create_appointment py_int db appointment_data current_user
     = (set_appointments (appointments db ++ [a]) db, r)
     /\ (r = Ok a \/ r = Raised)
     /\ Appointment.stylist_id a = Stylist.id stylist
     /\ Appointment.start_time a = AppointmentCreate.start_time appointment_data
     /\ Appointment.end_time a = end_time
     /\ Appointment.status a = PENDING)
  /\ (forall working_hours,
        Stylist.working_hours stylist = Some working_hours ->
        working_hours <> ∅ ->
        (forall blocks time_slot,
            working_hours !! Datetime.day_name (AppointmentCreate.start_time appointment_data)
            = Some blocks ->
            In time_slot blocks ->
            exists work_start work_end,
              block_bounds py_int (AppointmentCreate.start_time appointment_data) time_slot
              = Some (work_start, work_end)
              /\ Interval.contains work_start work_end
                   (AppointmentCreate.start_time appointment_data) end_time = false) ->
        exists detail,
          create_appointment py_int db appointment_data current_user
          = (db, HTTPException 400 detail)
          /\ (detail = "Appointment time is outside of stylist's working hours"
              \/ detail = "Stylist does not work on "
                           +:+ Datetime.day_name
                                 (AppointmentCreate.start_time appointment_data))).
Proof.
  intros Hrole Hservice Hstylist Hoffers Hduration Hend Hconflict. split.
  - intros Hnone.
    assert (Hhours : check_working_hours py_int stylist
                       (AppointmentCreate.start_time appointment_data) end_time = Ok tt).
    { unfold check_working_hours. destruct Hnone as [-> | ->]; [reflexivity |].
      now rewrite bool_decide_eq_true_2. }
    unfold create_appointment, get_client, role_required. rewrite Hrole. simpl.
    unfold new_appointment. rewrite Hservice, Hstylist. simpl.
    rewrite Hoffers. simpl. rewrite Hduration. simpl. rewrite Hend. simpl.
    rewrite Hconflict. simpl. rewrite Hhours. simpl.
    do 2 eexists. split; [reflexivity |].
    split; [apply appointment_detail_cases |]. repeat split.
  - intros working_hours Hhours Hne Hblocks.
    unfold create_appointment, get_client, role_required. rewrite Hrole. simpl.
    unfold new_appointment. rewrite Hservice, Hstylist. simpl.
    rewrite Hoffers. simpl. rewrite Hduration. simpl. rewrite Hend. simpl.
    rewrite Hconflict. simpl.
    unfold check_working_hours. rewrite Hhours.
    rewrite bool_decide_eq_false_2 by exact Hne.
    destruct (working_hours !! _) as [blocks |] eqn:Hday.
    + rewrite (is_within_hours_outside _ _ blocks) by (intros ts Hts; eapply Hblocks; eauto).
      simpl. eexists. split; [reflexivity | now left].
    + simpl. eexists. split; [reflexivity | now right].
Qed.

End CreateFacts.

(** ** Requests served one at a time *)

Section SequentialFacts.

Variable py_int : string -> option Z.

Lemma ForallOrdPairs_snoc {A : Type} (R : A -> A -> Prop) (l : list A) (x : A) :
  ForallOrdPairs R l -> Forall (fun y => R y x) l -> ForallOrdPairs R (l ++ [x]).
Proof.
  induction 1 as [| y l Hy Hl IH]; intros Hx; simpl.
  - constructor; constructor.
  - inversion Hx; subst. constructor.
    + apply Forall_app. split; [assumption | constructor; [assumption | constructor]].
    + apply IH. assumption.
Qed.

Lemma first_None_all {A : Type} (p : A -> bool) (rows : list A) :
  first p rows = None -> forall x, In x rows -> p x = false.
Proof. unfold first. apply find_none. Qed.

Lemma first_found {A : Type} (p : A -> bool) (rows : list A) (x : A) :
  In x rows -> p x = true -> first p rows <> None.
Proof.
  intros Hin Hp Hnone. pose proof (first_None_all p rows Hnone x Hin). congruence.
Qed.

(** No stored live booking of the stylist overlaps an interval that the
    conflict query lets through. *)
Lemma no_conflict_compatible db stylist_id s e b :
  conflicting_appointment db stylist_id s e = None ->
  In b (appointments db) ->
  Appointment.stylist_id b = stylist_id ->
  is_active_status (Appointment.status b) = true ->
  Interval.overlaps (Appointment.start_time b) (Appointment.end_time b) s e = false.
Proof.
  intros Hnone Hin Hst Hact.
  pose proof (first_None_all _ _ Hnone b Hin) as Hf.
  unfold conflict_filter in Hf. unfold is_active_status in Hact.
  rewrite Hact, Hst, Z.eqb_refl in Hf. simpl in Hf.
  now apply no_conflict_no_overlap.
Qed.

(** The other way round: a stored live booking of the stylist that
    overlaps the interval stops the request. *)
Lemma overlap_is_conflict db stylist_id s e b :
  In b (appointments db) ->
  Appointment.stylist_id b = stylist_id ->
  is_active_status (Appointment.status b) = true ->
  Interval.overlaps (Appointment.start_time b) (Appointment.end_time b) s e = true ->
  conflicting_appointment db stylist_id s e <> None.
Proof.
  intros Hin Hst Hact Ho. apply first_found with (x := b); [assumption |].
  unfold conflict_filter. unfold is_active_status in Hact.
  rewrite Hact, Hst, Z.eqb_refl. simpl.
  now apply overlaps_conflict_condition.
Qed.

(** The row that the checks of [create_appointment] end in can be added
    to a table free of double bookings. *)
Lemma new_appointment_no_double_booking db appointment_data current_user row key :
  new_appointment py_int db appointment_data current_user = Ok row ->
  no_double_booking db ->
  no_double_booking
    (set_appointments (appointments db ++ [Appointment.set_id key row]) db).
Proof.
  intros Hrow Hinv.
  apply new_appointment_Ok in Hrow.
  destruct Hrow as (service & stylist & duration & end_time
                    & _ & _ & _ & _ & _ & Hconflict & _ & ->).
  unfold no_double_booking. simpl.
  apply ForallOrdPairs_snoc; [exact Hinv |].
  apply List.Forall_forall. intros b Hb. unfold compatible. simpl.
  intros Hst Hact _.
  eapply no_conflict_compatible; eauto.
Qed.

(** A successful [create_appointment] keeps a table free of double
    bookings free of them. *)
Lemma create_appointment_no_double_booking db appointment_data current_user db' a :
  create_appointment py_int db appointment_data current_user = (db', Ok a) ->
  no_double_booking db -> no_double_booking db'.
Proof.
  intros H Hinv.
  apply create_appointment_Ok in H. destruct H as (row & Hrow & -> & ->).
  now apply new_appointment_no_double_booking with (1 := Hrow).
Qed.




(** ** The time range of stored appointments *)

Lemma commit_update_In db row a :
  In a (appointments (commit_update db row)) -> a = row \/ In a (appointments db).
Proof.
  unfold commit_update. simpl. intros H. apply in_map_iff in H.
  destruct H as (x & Hx & Hin). destruct (bool_decide _); subst; auto.
Qed.

Lemma appointment_by_id_In db appointment_id a :
  appointment_by_id db appointment_id = Some a -> In a (appointments db).
Proof. unfold appointment_by_id, first. intros H. now apply find_some in H. Qed.

Lemma apply_status_update_times a status_data :
  Appointment.start_time (apply_status_update a status_data) = Appointment.start_time a
  /\ Appointment.end_time (apply_status_update a status_data) = Appointment.end_time a.
Proof. unfold apply_status_update. destruct (_ && _); simpl; auto. Qed.

Lemma update_appointment_status_time_range db appointment_id status_data current_user :
  Forall time_range_ok (appointments db) ->
  Forall time_range_ok
    (appointments (fst (update_appointment_status db appointment_id status_data current_user))).
Proof.
  intros Hinv. unfold update_appointment_status.
  destruct (appointment_by_id db appointment_id) as [a |] eqn:Ha; [| exact Hinv].
  destruct (authorize_status_update _ _ _ _); simpl; try exact Hinv.
  apply List.Forall_forall. intros x Hx. apply commit_update_In in Hx.
  rewrite List.Forall_forall in Hinv. destruct Hx as [-> | Hx]; [| now apply Hinv].
  apply appointment_by_id_In in Ha. apply Hinv in Ha.
  unfold time_range_ok in *.
  destruct (apply_status_update_times a status_data) as [-> ->]. exact Ha.
Qed.

Lemma serve_time_range db r :
  Forall (fun s => 0 < Service.duration_minutes s) (services db) ->
  Forall time_range_ok (appointments db) ->
  services (fst (serve py_int db r)) = services db
  /\ Forall time_range_ok (appointments (fst (serve py_int db r))).
Proof.
  intros Hservices Hinv. destruct r as [data user | id body user | id data user].
  - simpl.
    destruct (create_appointment_cases py_int db data user)
      as [(r & -> & _) | (row & _ & Hrow & ->)]; [auto |].
    apply new_appointment_Ok in Hrow.
    destruct Hrow as (service & stylist & duration & end_time
                      & Hservice & _ & _ & Hduration & Hend & _ & _ & ->).
    simpl. split; [reflexivity |].
    apply Forall_app. split; [exact Hinv |]. constructor; [| constructor].
    unfold time_range_ok. simpl.
    apply find_some in Hservice. destruct Hservice as [Hin _].
    rewrite List.Forall_forall in Hservices. apply Hservices in Hin.
    unfold Datetime.timedelta_minutes in Hduration.
    destruct (_ && _) in Hduration; [| discriminate]. injection Hduration as <-.
    unfold Datetime.add in Hend.
    destruct (Datetime.in_range _) in Hend; [| discriminate]. injection Hend as <-.
    unfold Datetime.US_PER_MINUTE. lia.
  - simpl. unfold put_appointment_status.
    destruct (rbind _ _) as [[u sd] | |]; simpl; auto.
    split; [| now apply update_appointment_status_time_range].
    unfold update_appointment_status.
    destruct (appointment_by_id _ _); [| reflexivity].
    destruct (authorize_status_update _ _ _ _); reflexivity.
  - simpl. unfold update_appointment_payment.
    destruct (get_salon_staff user) as [u | |]; [| simpl; auto | simpl; auto].
    destruct (appointment_by_id db id) as [a0 |] eqn:Ha; [| simpl; auto].
    destruct (authorize_payment_update _ _ _); [| simpl; auto | simpl; auto].
    cbn [fst].
    split; [reflexivity |].
    apply List.Forall_forall. intros x Hx. apply commit_update_In in Hx.
    rewrite List.Forall_forall in Hinv. destruct Hx as [-> | Hx]; [| now apply Hinv].
    apply appointment_by_id_In in Ha. apply Hinv in Ha. exact Ha.
Qed.

(** C9, as the code has it. [create_appointment] does not look at the
    duration; the appointment it stores ends [duration_minutes] after it
    starts. So when every service row has a positive duration and every
    stored appointment has [start_time < end_time], the same holds of
    every appointment after any sequence of create, status and payment
    requests. *)
Theorem appointments_time_range db rs :
  Forall (fun s => 0 < Service.duration_minutes s) (services db) ->
  Forall time_range_ok (appointments db) ->
  Forall time_range_ok (appointments (fst (serve_all py_int db rs))).
Proof.
  revert db. induction rs as [| r rest IH]; intros db Hservices Hinv; simpl; [exact Hinv |].
  destruct (serve_time_range db r Hservices Hinv) as [Hs Hi].
  destruct (serve py_int db r) as [db1 out]. simpl in Hs, Hi.
  specialize (IH db1). rewrite Hs in IH. specialize (IH Hservices Hi).
  destruct (serve_all py_int db1 rest) as [db2 outs]. exact IH.
Qed.

End SequentialFacts.

(** ** Status updates *)

Section StatusFacts.

Lemma first_map_replace {A : Type} (p : A -> bool) (row : A) (rows : list A) :
  p row = true ->
  first p (List.map (fun x => if p x then row else x) rows)
  = match first p rows with Some _ => Some row | None => None end.
Proof.
  intros Hrow. unfold first. induction rows as [| x rest IH]; simpl; [reflexivity |].
  destruct (p x) eqn:Hx.
  - now rewrite Hrow.
  - now rewrite Hx.
Qed.

Lemma apply_status_update_id a status_data :
  Appointment.id (apply_status_update a status_data) = Appointment.id a.
Proof. unfold apply_status_update. destruct (_ && _); reflexivity. Qed.

Lemma apply_status_update_status a status_data :
  Appointment.status (apply_status_update a status_data)
  = AppointmentStatusUpdate.status status_data.
Proof. unfold apply_status_update. destruct (_ && _); reflexivity. Qed.

(** A row written back is the row that its key finds afterwards. *)
Lemma appointment_by_id_commit_update db appointment_id a row :
  appointment_by_id db appointment_id = Some a ->
  Appointment.id row = Appointment.id a ->
  appointment_by_id (commit_update db row) appointment_id = Some row.
Proof.
  intros Ha Hid. pose proof Ha as Hfound.
  unfold appointment_by_id, first in Ha. apply find_some in Ha. destruct Ha as [_ Hkey].
  apply bool_decide_eq_true_1 in Hkey.
  unfold appointment_by_id, commit_update. simpl.
  rewrite (map_ext _ (fun x => if bool_decide (Appointment.id x = Some appointment_id)
                               then row else x)).
  - rewrite first_map_replace.
    + unfold appointment_by_id in Hfound. now rewrite Hfound.
    + apply bool_decide_eq_true_2. congruence.
  - intros x. rewrite Hid, Hkey. reflexivity.
Qed.

(** The role checks do not look at the current status of the appointment:
    two rows that differ in nothing else are treated alike. *)
Lemma authorize_status_update_any_status db a status_data current_user s :
  authorize_status_update db (Appointment.set_status s a) status_data current_user
  = authorize_status_update db a status_data current_user.
Proof. reflexivity. Qed.

(** The role checks let the caller through exactly in these cases: a
    client on an appointment of which it is the client, asking for
    CANCELLED; a stylist on an appointment whose [stylist_id] is its own
    id, asking for CONFIRMED, COMPLETED or NO_SHOW; a salon owner when the
    stylist of the appointment and the salon of that stylist are found and
    the salon is owned by the caller; an administrator. *)
Lemma authorize_status_update_Ok db a status_data current_user :
  authorize_status_update db a status_data current_user = Ok tt <->
  ((User.role current_user = CLIENT
          /\ Appointment.client_id a = User.id current_user
          /\ AppointmentStatusUpdate.status status_data = CANCELLED)
         \/ (User.role current_user = STYLIST
             /\ Appointment.stylist_id a = User.id current_user
             /\ (AppointmentStatusUpdate.status status_data = CONFIRMED
                 \/ AppointmentStatusUpdate.status status_data = COMPLETED
                 \/ AppointmentStatusUpdate.status status_data = NO_SHOW))
         \/ (User.role current_user = SALON_OWNER
             /\ exists stylist salon,
                  first (fun s => Stylist.id s =? Appointment.stylist_id a) (stylists db)
                  = Some stylist
                  /\ first (fun s => Salon.id s =? Stylist.salon_id stylist) (salons db)
                     = Some salon
                  /\ Salon.owner_id salon = User.id current_user)
         \/ User.role current_user = ADMIN).
Proof.
  unfold authorize_status_update. split.
  - intros H. destruct (User.role current_user) eqn:Hrole.
    + left. split; [reflexivity |].
      destruct (Appointment.client_id a =? User.id current_user) eqn:Hc;
        simpl in H; [| discriminate].
      destruct (bool_decide _) eqn:Hs; simpl in H; [| discriminate].
      apply Z.eqb_eq in Hc. apply bool_decide_eq_true_1 in Hs. auto.
    + right. right. left. split; [reflexivity |].
      destruct (first _ (stylists db)) as [stylist |]; simpl in H; [| discriminate].
      destruct (first _ (salons db)) as [salon |] eqn:Hsalon; simpl in H; [| discriminate].
      destruct (Salon.owner_id salon =? User.id current_user) eqn:Ho;
        simpl in H; [| discriminate].
      apply Z.eqb_eq in Ho. exists stylist, salon. auto.
    + right. left. split; [reflexivity |].
      destruct (Appointment.stylist_id a =? User.id current_user) eqn:Hc;
        simpl in H; [| discriminate].
      apply Z.eqb_eq in Hc. split; [exact Hc |].
      destruct (AppointmentStatusUpdate.status status_data); simpl in H;
        try discriminate; auto.
    + right. right. right. reflexivity.
  - intros [(-> & Hc & Hs) | [(-> & Hc & Hs) | [(-> & stylist & salon & Hst & Hsa & Ho) | ->]]].
    + rewrite Hc, Z.eqb_refl, Hs. reflexivity.
    + rewrite Hc, Z.eqb_refl. destruct Hs as [-> | [-> | ->]]; reflexivity.
    + rewrite Hst. simpl. rewrite Hsa. simpl. rewrite Ho, Z.eqb_refl. reflexivity.
    + reflexivity.
Qed.

(** When the role checks do not let the caller through, they end in a 403,
    or, for a salon owner whose appointment has a stylist or a salon that
    is not in the table, in the exception of the attribute read on
    [None]. *)
Lemma authorize_status_update_refusal db a status_data current_user :
  authorize_status_update db a status_data current_user <> Ok tt ->
  (exists detail,
      authorize_status_update db a status_data current_user = HTTPException 403 detail)
  \/ (authorize_status_update db a status_data current_user = Raised
      /\ User.role current_user = SALON_OWNER
      /\ (first (fun s => Stylist.id s =? Appointment.stylist_id a) (stylists db) = None
          \/ exists stylist,
               first (fun s => Stylist.id s =? Appointment.stylist_id a) (stylists db)
               = Some stylist
               /\ first (fun s => Salon.id s =? Stylist.salon_id stylist) (salons db)
                  = None)).
Proof.
  unfold authorize_status_update. intros H.
  destruct (User.role current_user) eqn:Hrole.
  - left. destruct (negb _); [eauto |]. destruct (negb _); [eauto | contradiction].
  - destruct (first _ (stylists db)) as [stylist |] eqn:Hst; simpl in *.
    2:{ right. auto. }
    destruct (first _ (salons db)) as [salon |] eqn:Hsa; simpl in *.
    2:{ right. split; [reflexivity |]. split; [reflexivity |]. right. eauto. }
    left. destruct (negb _); [eauto | contradiction].
  - left. destruct (negb _); [eauto |]. destruct (negb _); [eauto | contradiction].
  - contradiction.
Qed.

(** C2, as the code has it. [update_appointment_status] has no table of
    legal transitions. For every stored appointment, whatever its current
    status, and every requested status, the requested status is stored
    under the id of the appointment once the role checks let the caller
    through, which they do for a client on its own appointment asking for
    CANCELLED, for a stylist on its own appointment asking for CONFIRMED,
    COMPLETED or NO_SHOW, for a salon owner when the stylist of the
    appointment and the salon of that stylist are found and the salon is
    the caller's, and for an administrator; the answer is then the updated
    appointment, or an internal error when the response cannot be built,
    the change being stored all the same. In every other case nothing is
    stored: the answer is 403, or the exception of a salon owner whose
    appointment has a stylist or a salon that is not in the table; an id
    that finds no appointment is answered with 404. *)
Theorem update_appointment_status_applies db appointment_id status_data current_user :
  (appointment_by_id db appointment_id = None ->
   update_appointment_status db appointment_id status_data current_user
   = (db, HTTPException 404 "Appointment not found"))
  /\ (forall a,
        appointment_by_id db appointment_id = Some a ->
        (((User.role current_user = CLIENT
          /\ Appointment.client_id a = User.id current_user
          /\ AppointmentStatusUpdate.status status_data = CANCELLED)
         \/ (User.role current_user = STYLIST
             /\ Appointment.stylist_id a = User.id current_user
             /\ (AppointmentStatusUpdate.status status_data = CONFIRMED
                 \/ AppointmentStatusUpdate.status status_data = COMPLETED
                 \/ AppointmentStatusUpdate.status status_data = NO_SHOW))
         \/ (User.role current_user = SALON_OWNER
             /\ exists stylist salon,
                  first (fun s => Stylist.id s =? Appointment.stylist_id a) (stylists db)
                  = Some stylist
                  /\ first (fun s => Salon.id s =? Stylist.salon_id stylist) (salons db)
                     = Some salon
                  /\ Salon.owner_id salon = User.id current_user)
         \/ User.role current_user = ADMIN) ->
         exists db' r a',
           update_appointment_status db appointment_id status_data current_user = (db', r)
           /\ (r = Ok a' \/ r = Raised)
           /\ Appointment.status a' = AppointmentStatusUpdate.status status_data
           /\ appointment_by_id db' appointment_id = Some a')
        /\ (~ ((User.role current_user = CLIENT
          /\ Appointment.client_id a = User.id current_user
          /\ AppointmentStatusUpdate.status status_data = CANCELLED)
         \/ (User.role current_user = STYLIST
             /\ Appointment.stylist_id a = User.id current_user
             /\ (AppointmentStatusUpdate.status status_data = CONFIRMED
                 \/ AppointmentStatusUpdate.status status_data = COMPLETED
                 \/ AppointmentStatusUpdate.status status_data = NO_SHOW))
         \/ (User.role current_user = SALON_OWNER
             /\ exists stylist salon,
                  first (fun s => Stylist.id s =? Appointment.stylist_id a) (stylists db)
                  = Some stylist
                  /\ first (fun s => Salon.id s =? Stylist.salon_id stylist) (salons db)
                     = Some salon
                  /\ Salon.owner_id salon = User.id current_user)
         \/ User.role current_user = ADMIN) ->
            (exists detail,
                update_appointment_status db appointment_id status_data current_user
                = (db, HTTPException 403 detail))
            \/ (update_appointment_status db appointment_id status_data current_user
                = (db, Raised)
                /\ User.role current_user = SALON_OWNER
                /\ (first (fun s => Stylist.id s =? Appointment.stylist_id a) (stylists db)
                    = None
                    \/ exists stylist,
                         first (fun s => Stylist.id s =? Appointment.stylist_id a)
                               (stylists db) = Some stylist
                         /\ first (fun s => Salon.id s =? Stylist.salon_id stylist)
                                  (salons db) = None)))).
Proof.
  split.
  - intros Ha. unfold update_appointment_status. now rewrite Ha.
  - intros a Ha. split.
    + intros Hallowed. apply authorize_status_update_Ok in Hallowed.
      unfold update_appointment_status. rewrite Ha, Hallowed.
      exists (commit_update db (apply_status_update a status_data)),
             (appointment_detail (apply_status_update a status_data)),
             (apply_status_update a status_data).
      split; [reflexivity |]. split; [apply appointment_detail_cases |]. split.
      * apply apply_status_update_status.
      * eapply appointment_by_id_commit_update; [exact Ha |].
        apply apply_status_update_id.
    + intros Hnot.
      assert (Hauth : authorize_status_update db a status_data current_user <> Ok tt).
      { intros H. apply Hnot. now apply authorize_status_update_Ok. }
      unfold update_appointment_status. rewrite Ha.
      destruct (authorize_status_update_refusal _ _ _ _ Hauth)
        as [(detail & ->) | (-> & Hrole & Hmissing)]; [left; eauto | right; auto].
Qed.

(** An administrator passes the role checks whatever is asked. *)
Lemma authorize_status_update_admin db a status_data current_user :
  User.role current_user = ADMIN ->
  authorize_status_update db a status_data current_user = Ok tt.
Proof. intros H. unfold authorize_status_update. now rewrite H. Qed.

(** The handler refuses with 404 or 403 only. *)
Lemma update_appointment_status_errors db appointment_id status_data current_user db' c d :
  update_appointment_status db appointment_id status_data current_user
  = (db', HTTPException c d) ->
  db' = db /\ (c = 404 \/ c = 403).
Proof.
  unfold update_appointment_status. intros H.
  destruct (appointment_by_id _ _) as [a |]; [| inversion H; auto].
  destruct (authorize_status_update _ _ _ _) as [[] | c' d' |] eqn:Hauth.
  { injection H as _ H.
    destruct (appointment_detail_cases (apply_status_update a status_data)) as [He | He];
      rewrite He in H; discriminate. }
  2:{ discriminate. }
  inversion H; subst. split; [reflexivity | right].
  unfold authorize_status_update in Hauth.
  destruct (User.role current_user).
  - destruct (negb _); [inversion Hauth; reflexivity |].
    destruct (negb _); inversion Hauth; reflexivity.
  - destruct (first _ (stylists _)); simpl in Hauth; [| discriminate].
    destruct (first _ (salons _)); simpl in Hauth; [| discriminate].
    destruct (negb _); inversion Hauth; reflexivity.
  - destruct (negb _); [inversion Hauth; reflexivity |].
    destruct (negb _); inversion Hauth; reflexivity.
  - discriminate.
Qed.

(** The half of C7 that the code keeps: a change to a status other than
    CANCELLED leaves the stored cancellation reason as it was. *)
Lemma apply_status_update_keeps_reason a status_data :
  AppointmentStatusUpdate.status status_data <> CANCELLED ->
  Appointment.cancellation_reason (apply_status_update a status_data)
  = Appointment.cancellation_reason a.
Proof.
  intros H. unfold apply_status_update.
  rewrite bool_decide_eq_false_2 by exact H. reflexivity.
Qed.

(** A body that names CANCELLED and gives [null] or the empty string as
    the reason is refused by the validator, and nothing changes. *)
Lemma put_appointment_status_empty_reason db appointment_id current_user reason :
  User.is_active current_user = true ->
  reason = Null \/ reason = Given "" ->
  put_appointment_status db appointment_id (StatusBody.mk CANCELLED reason) current_user
  = (db, HTTPException 422 "Cancellation reason is required when cancelling an appointment").
Proof.
  intros Hactive [-> | ->]; unfold put_appointment_status, get_current_active_user;
    rewrite Hactive; reflexivity.
Qed.

(** A body that names CANCELLED and leaves the reason out passes the
    validation, and the handler cancels the appointment without a
    reason and answers with it through the response model. *)
Lemma put_appointment_status_missing_reason db appointment_id current_user a :
  User.is_active current_user = true ->
  appointment_by_id db appointment_id = Some a ->
  authorize_status_update db a (AppointmentStatusUpdate.mk CANCELLED None) current_user
  = Ok tt ->
  put_appointment_status db appointment_id (StatusBody.mk CANCELLED Missing) current_user
  = (commit_update db (Appointment.set_status CANCELLED a),
     appointment_detail (Appointment.set_status CANCELLED a)).
Proof.
  intros Hactive Ha Hauth. unfold put_appointment_status, get_current_active_user.
  rewrite Hactive. simpl. unfold update_appointment_status. rewrite Ha, Hauth.
  reflexivity.
Qed.

End StatusFacts.

(** ** [check_availability] *)

Section AvailabilityFacts.

Variable py_int : string -> option Z.

Lemma ForallOrdPairs_app {A : Type} (R : A -> A -> Prop) (l1 l2 : list A) :
  ForallOrdPairs R l1 -> ForallOrdPairs R l2 ->
  (forall x y, In x l1 -> In y l2 -> R x y) ->
  ForallOrdPairs R (l1 ++ l2).
Proof.
  induction 1 as [| x l1 Hx Hl1 IH]; intros H2 Hcross; simpl; [exact H2 |].
  constructor.
  - apply Forall_app. split; [exact Hx |].
    apply List.Forall_forall. intros y Hy. apply Hcross; [now left | exact Hy].
  - apply IH; [exact H2 |]. intros a b Ha Hb. apply Hcross; [now right | exact Hb].
Qed.

Lemma add_Some t delta r :
  Datetime.add t delta = Some r -> r = t + delta.
Proof.
  unfold Datetime.add. destruct (Datetime.in_range _); [| discriminate].
  now intros [= <-].
Qed.

Lemma SLOT_STEP_pos : 0 < SLOT_STEP.
Proof. reflexivity. Qed.

Lemma slot_of_block_weaken db stylist service_duration s s' work_end t :
  s' <= s ->
  slot_of_block db stylist service_duration s work_end t ->
  slot_of_block db stylist service_duration s' work_end t.
Proof. unfold slot_of_block. intros Hle H. intuition lia. Qed.

Lemma slot_loop_spec fuel db stylist service_duration work_end :
  forall slot_start available_slots out,
    slot_loop fuel db stylist service_duration work_end slot_start available_slots
    = Some (Ok out) ->
    exists new,
      out = available_slots ++ new
      /\ Forall (slot_of_block db stylist service_duration slot_start work_end) new
      /\ starts_ascending new.
Proof.
  induction fuel as [| fuel IH]; intros slot_start available_slots out H;
    simpl in H; [discriminate |].
  destruct (Datetime.add slot_start service_duration) as [slot_end |] eqn:Hend;
    [| discriminate].
  apply add_Some in Hend.
  destruct (slot_end <=? work_end) eqn:Hguard.
  2:{ injection H as <-. exists []. rewrite app_nil_r.
      split; [reflexivity |]. split; constructor. }
  apply Z.leb_le in Hguard.
  destruct (Datetime.add slot_start SLOT_STEP) as [next |] eqn:Hnext; [| discriminate].
  apply add_Some in Hnext. pose proof SLOT_STEP_pos as Hstep.
  apply IH in H. destruct H as (new & -> & Hnew & Hsorted).
  assert (Hnew' : Forall (slot_of_block db stylist service_duration slot_start work_end) new).
  { eapply List.Forall_impl; [| exact Hnew]. intros t. apply slot_of_block_weaken. lia. }
  destruct (conflicting_appointment db (Stylist.id stylist) slot_start slot_end)
    eqn:Hconflict.
  - exists new. auto.
  - exists (TimeSlot.mk slot_start slot_end (Stylist.id stylist)
                        (Stylist.full_name stylist) :: new).
    split; [now rewrite <- app_assoc |]. split.
    + constructor; [| exact Hnew'].
      unfold slot_of_block. simpl. repeat split; try lia.
      intros a Ha Hst Hact. eapply no_conflict_compatible; eauto.
    + constructor; [| exact Hsorted].
      apply List.Forall_forall. intros t Ht. rewrite List.Forall_forall in Hnew.
      apply Hnew in Ht. unfold slot_of_block in Ht. simpl. lia.
Qed.

Lemma timedelta_minutes_Some m d :
  Datetime.timedelta_minutes m = Some d -> d = m * Datetime.US_PER_MINUTE.
Proof.
  unfold Datetime.timedelta_minutes. destruct (_ && _); [| discriminate].
  now intros [= <-].
Qed.

Lemma block_loop_spec fuel db service date stylist :
  forall blocks available_slots out,
    block_loop py_int fuel db service date stylist blocks available_slots = Some (Ok out) ->
    exists new,
      out = available_slots ++ new
      /\ Forall (slot_of_blocks py_int db service date stylist blocks) new
      /\ (0 <= Service.duration_minutes service ->
          blocks_ascending py_int date blocks ->
          starts_ascending new).
Proof.
  induction blocks as [| time_slot rest IH]; intros available_slots out H; simpl in H.
  - injection H as <-. exists []. rewrite app_nil_r.
    split; [reflexivity |]. split; [constructor | intros _ _; constructor].
  - destruct (block_bounds py_int date time_slot) as [[work_start work_end] |] eqn:Hb;
      [| discriminate].
    destruct (Datetime.timedelta_minutes _) as [service_duration |] eqn:Hd;
      [| discriminate].
    apply timedelta_minutes_Some in Hd. subst service_duration.
    destruct (slot_loop _ _ _ _ _ _ _) as [[mid | |] |] eqn:Hloop; try discriminate.
    apply slot_loop_spec in Hloop. destruct Hloop as (new1 & -> & Hnew1 & Hsorted1).
    apply IH in H. destruct H as (new2 & -> & Hnew2 & Hsorted2).
    exists (new1 ++ new2). split; [now rewrite app_assoc |]. split.
    + apply Forall_app. split.
      * eapply List.Forall_impl; [| exact Hnew1]. intros t Ht.
        exists time_slot, work_start, work_end. split; [now left | auto].
      * eapply List.Forall_impl; [| exact Hnew2]. intros t (ts & ws & we & Hin & Hbounds & Ht).
        exists ts, ws, we. split; [now right | auto].
    + intros Hdur Hasc. inversion Hasc as [| ? ? Hhead Htail]; subst.
      apply ForallOrdPairs_app; [exact Hsorted1 | now apply Hsorted2 |].
      intros t1 t2 Ht1 Ht2.
      rewrite List.Forall_forall in Hnew1, Hnew2, Hhead.
      apply Hnew1 in Ht1. apply Hnew2 in Ht2.
      destruct Ht2 as (ts & ws & we & Hin & Hbounds & Ht2).
      specialize (Hhead ts Hin _ _ _ _ Hb Hbounds).
      unfold slot_of_block in Ht1, Ht2. unfold Datetime.US_PER_MINUTE in *. lia.
Qed.

Lemma blocks_of_day_Some stylist day blocks :
  blocks_of_day stylist day = Some blocks ->
  exists working_hours,
    Stylist.working_hours stylist = Some working_hours
    /\ working_hours !! day = Some blocks.
Proof.
  unfold blocks_of_day. destruct (Stylist.working_hours stylist) as [wh |]; [| discriminate].
  destruct (bool_decide _); [discriminate |]. eauto.
Qed.

Lemma stylist_loop_spec fuel db service date :
  forall candidates available_slots out,
    stylist_loop py_int fuel db service date candidates available_slots = Some (Ok out) ->
    exists groups,
      out = available_slots ++ concat groups
      /\ Forall2 (group_of_stylist py_int db service date) candidates groups.
Proof.
  induction candidates as [| stylist rest IH]; intros available_slots out H; simpl in H.
  - injection H as <-. exists []. simpl. rewrite app_nil_r. split; [reflexivity | constructor].
  - destruct (blocks_of_day stylist (Datetime.day_name date)) as [blocks |] eqn:Hblocks.
    + destruct (block_loop _ _ _ _ _ _ _ _) as [[mid | |] |] eqn:Hloop; try discriminate.
      apply block_loop_spec in Hloop. destruct Hloop as (new & -> & Hnew & Hsorted).
      apply IH in H. destruct H as (groups & -> & Hgroups).
      exists (new :: groups). simpl. split; [now rewrite app_assoc |].
      constructor; [| exact Hgroups]. split.
      * eapply List.Forall_impl; [| exact Hnew]. intros t Ht. exists blocks. auto.
      * intros Hdur Hasc. apply Hsorted; [exact Hdur | now apply Hasc].
    + apply IH in H. destruct H as (groups & -> & Hgroups).
      exists ([] :: groups). simpl. split; [reflexivity |].
      constructor; [| exact Hgroups]. split; [constructor | intros _ _; constructor].
Qed.

Lemma check_availability_groups fuel db service_id date stylist_id slots :
  check_availability py_int fuel db service_id date stylist_id = Some (Ok slots) ->
  exists service groups,
    first (fun s => (Service.id s =? service_id) && Service.is_active s) (services db)
    = Some service
    /\ slots = concat groups
    /\ Forall2 (group_of_stylist py_int db service date)
               (candidate_stylists db service_id stylist_id) groups.
Proof.
  unfold check_availability. intros H.
  destruct (first _ (services db)) as [service |] eqn:Hservice; [| discriminate].
  exists service.
  destruct (candidate_stylists db service_id stylist_id) as [| stylist rest] eqn:Hc.
  - injection H as <-. exists []. repeat split. constructor.
  - apply stylist_loop_spec in H. destruct H as (groups & -> & Hgroups).
    exists groups. auto.
Qed.

Lemma candidate_stylists_In db service_id stylist_id stylist :
  In stylist (candidate_stylists db service_id stylist_id) -> In stylist (stylists db).
Proof.
  unfold candidate_stylists, all. destruct (opt_int_truthy stylist_id); intros H.
  - apply filter_In in H. destruct H as [H _]. apply filter_In in H. tauto.
  - apply filter_In in H. tauto.
Qed.

Lemma Forall2_concat_In {A B : Type} (P : A -> list B -> Prop) (xs : list A)
    (groups : list (list B)) (y : B) :
  Forall2 P xs groups -> In y (concat groups) ->
  exists x group, In x xs /\ P x group /\ In y group.
Proof.
  induction 1 as [| x g xs gs Hx Hrest IH]; simpl; intros Hin; [contradiction |].
  apply in_app_or in Hin. destruct Hin as [Hin | Hin].
  - exists x, g. auto.
  - destruct (IH Hin) as (x' & g' & Hx' & HP & Hy). exists x', g'. auto.
Qed.

(** C5. Every slot in the answer of [check_availability] lies inside one
    of the working blocks that its stylist has for the weekday of the
    requested date, and overlaps, in the half-open sense, no appointment of
    that stylist whose status is PENDING or CONFIRMED in the table the
    call has read. *)
Theorem check_availability_slots fuel db service_id date stylist_id slots :
  check_availability py_int fuel db service_id date stylist_id = Some (Ok slots) ->
  forall t, In t slots ->
    (exists stylist working_hours blocks time_slot work_start work_end,
        In stylist (stylists db)
        /\ Stylist.id stylist = TimeSlot.stylist_id t
        /\ Stylist.working_hours stylist = Some working_hours
        /\ working_hours !! Datetime.day_name date = Some blocks
        /\ In time_slot blocks
        /\ block_bounds py_int date time_slot = Some (work_start, work_end)
        /\ Interval.contains work_start work_end
             (TimeSlot.start_time t) (TimeSlot.end_time t) = true)
    /\ (forall a, In a (appointments db) ->
          Appointment.stylist_id a = TimeSlot.stylist_id t ->
          Appointment.status a = PENDING \/ Appointment.status a = CONFIRMED ->
          Interval.overlaps (Appointment.start_time a) (Appointment.end_time a)
                            (TimeSlot.start_time t) (TimeSlot.end_time t) = false).
Proof.
  intros H t Ht.
  apply check_availability_groups in H.
  destruct H as (service & groups & _ & -> & Hgroups).
  destruct (Forall2_concat_In _ _ _ _ Hgroups Ht) as (stylist & group & Hin & [Hg _] & Hy).
  rewrite List.Forall_forall in Hg. apply Hg in Hy.
  destruct Hy as (blocks & Hblocks & ts & ws & we & Hts & Hbounds & Hslot).
  apply blocks_of_day_Some in Hblocks. destruct Hblocks as (wh & Hwh & Hday).
  destruct Hslot as (Hid & _ & Hstart & _ & Hend & Hfree).
  split.
  - exists stylist, wh, blocks, ts, ws, we.
    repeat split; eauto using candidate_stylists_In.
    unfold Interval.contains. apply andb_true_iff. split; apply Z.leb_le; lia.
  - intros a Ha Hst Hact. apply Hfree; [exact Ha | congruence |].
    destruct Hact as [-> | ->]; reflexivity.
Qed.

(** *** Termination *)

(** More fuel does not change the outcome of a run that has ended. *)
Lemma slot_loop_mono db stylist service_duration work_end :
  forall fuel fuel' slot_start available_slots r,
    slot_loop fuel db stylist service_duration work_end slot_start available_slots = Some r ->
    (fuel <= fuel')%nat ->
    slot_loop fuel' db stylist service_duration work_end slot_start available_slots = Some r.
Proof.
  induction fuel as [| fuel IH]; intros fuel' slot_start available_slots r H Hle;
    simpl in H; [discriminate |].
  destruct fuel' as [| fuel']; [lia |]. simpl.
  destruct (Datetime.add slot_start service_duration) as [slot_end |]; [| exact H].
  destruct (slot_end <=? work_end); [| exact H].
  destruct (Datetime.add slot_start SLOT_STEP) as [next |]; [| exact H].
  apply IH with (1 := H). lia.
Qed.

(** The cursor moves forward by [SLOT_STEP] at every turn, whatever the
    duration is, so the distance [work_end - (slot_start +
    service_duration)] bounds the number of turns. *)
Lemma slot_loop_terminates db stylist service_duration work_end :
  forall n slot_start available_slots,
    work_end - (slot_start + service_duration) < Z.of_nat n ->
    exists r,
      slot_loop (S n) db stylist service_duration work_end slot_start available_slots
      = Some r.
Proof.
  induction n as [| n IH]; intros slot_start available_slots Hn.
  - simpl. destruct (Datetime.add slot_start service_duration) as [slot_end |] eqn:Hend;
      [| eauto].
    apply add_Some in Hend.
    destruct (slot_end <=? work_end) eqn:Hguard; [| eauto].
    apply Z.leb_le in Hguard. lia.
  - cbn [slot_loop].
    destruct (Datetime.add slot_start service_duration) as [slot_end |] eqn:Hend;
      [| eauto].
    destruct (slot_end <=? work_end) eqn:Hguard; [| eauto].
    destruct (Datetime.add slot_start SLOT_STEP) as [next |] eqn:Hnext; [| eauto].
    apply add_Some in Hnext. pose proof SLOT_STEP_pos as Hstep.
    apply IH. unfold SLOT_STEP, Datetime.US_PER_MINUTE in *. lia.
Qed.

Lemma slot_loop_total db stylist service_duration work_end slot_start available_slots :
  exists fuel r, forall fuel', (fuel <= fuel')%nat ->
    slot_loop fuel' db stylist service_duration work_end slot_start available_slots = Some r.
Proof.
  destruct (slot_loop_terminates db stylist service_duration work_end
              (Z.to_nat (work_end - (slot_start + service_duration) + 1))
              slot_start available_slots) as [r Hr]; [lia |].
  eexists. exists r. intros fuel' Hle. eapply slot_loop_mono; eauto.
Qed.

Lemma block_loop_total db service date stylist :
  forall blocks available_slots,
    exists fuel r, forall fuel', (fuel <= fuel')%nat ->
      block_loop py_int fuel' db service date stylist blocks available_slots = Some r.
Proof.
  induction blocks as [| time_slot rest IH]; intros available_slots; simpl.
  - exists O. eauto.
  - destruct (block_bounds py_int date time_slot) as [[work_start work_end] |];
      [| exists O; eauto].
    destruct (Datetime.timedelta_minutes _) as [service_duration |]; [| exists O; eauto].
    destruct (slot_loop_total db stylist service_duration work_end work_start
                available_slots) as (f1 & r1 & H1).
    destruct r1 as [mid | c d |].
    + destruct (IH mid) as (f2 & r2 & H2).
      exists (Nat.max f1 f2), r2. intros fuel' Hle.
      rewrite H1 by lia. apply H2. lia.
    + exists f1. eexists. intros fuel' Hle. rewrite H1 by lia. reflexivity.
    + exists f1. eexists. intros fuel' Hle. rewrite H1 by lia. reflexivity.
Qed.

Lemma stylist_loop_total db service date :
  forall candidates available_slots,
    exists fuel r, forall fuel', (fuel <= fuel')%nat ->
      stylist_loop py_int fuel' db service date candidates available_slots = Some r.
Proof.
  induction candidates as [| stylist rest IH]; intros available_slots; simpl.
  - exists O. eauto.
  - destruct (blocks_of_day stylist (Datetime.day_name date)) as [blocks |]; [| apply IH].
    destruct (block_loop_total db service date stylist blocks available_slots)
      as (f1 & r1 & H1).
    destruct r1 as [mid | c d |].
    + destruct (IH mid) as (f2 & r2 & H2).
      exists (Nat.max f1 f2), r2. intros fuel' Hle.
      rewrite H1 by lia. apply H2. lia.
    + exists f1. eexists. intros fuel' Hle. rewrite H1 by lia. reflexivity.
    + exists f1. eexists. intros fuel' Hle. rewrite H1 by lia. reflexivity.
Qed.

(** C10. [check_availability] ends on every input, whatever the duration
    of the service (zero and negative included) and whatever the bounds of
    the working blocks (an end at or before the start included): some
    number of turns is enough for every run of the [while] loop, and with
    that many or more the call has its outcome, a list of slots or an
    error. *)
Theorem check_availability_terminates db service_id date stylist_id :
  exists fuel r, forall fuel', (fuel <= fuel')%nat ->
    check_availability py_int fuel' db service_id date stylist_id = Some r.
Proof.
  unfold check_availability.
  destruct (first _ (services db)) as [service |]; [| exists O; eauto].
  destruct (candidate_stylists db service_id stylist_id) as [| stylist rest];
    [exists O; eauto |].
  apply stylist_loop_total.
Qed.

End AvailabilityFacts.

(** ** The handlers on concrete inputs *)

Section Scenarios.
Import Scenario.

(** Scenario A: Monday 09:00-13:00 and 14:00-18:00, a service of one hour
    and no bookings: seven slots in the morning, seven in the afternoon. *)
Example scenario_A :
  check_availability decimal_int 10 db0 1 (at_time monday 0 0) (Some 1)
  = Some (Ok monday_slots).
Proof. vm_compute. reflexivity. Qed.

(** Scenario B: with 10:00-11:00 booked, 10:30-11:30 is refused. *)
Example scenario_B :
  snd (create_appointment decimal_int
         (fst (create_appointment decimal_int db0 (book 1 1 10 0) client))
         (book 1 1 10 30) client)
  = HTTPException 400 "Time slot is not available".
Proof. vm_compute. reflexivity. Qed.

(** Scenario C: at home, fee 15.0, price 50.0. *)
Example scenario_C :
  exists db' a,
    create_appointment decimal_int db0 (at_home 2 1 10 0) client = (db', Ok a)
    /\ Appointment.price a = 65%float
    /\ Appointment.additional_fees a = 15%float
    /\ Appointment.original_price a = 50%float.
Proof. do 2 eexists. split; [vm_compute; reflexivity |]. repeat split. Qed.

Lemma create_appointment_pricing_witness :
  exists db' a,
    create_appointment decimal_int db0 (at_home 2 1 10 0) client = (db', Ok a)
    /\ Appointment.price a
       = (Appointment.original_price a + Appointment.additional_fees a)%float
    /\ Appointment.status a = PENDING.
Proof.
  destruct (create_appointment decimal_int db0 (at_home 2 1 10 0) client)
    as [db' r] eqn:H.
  assert (Hr : exists a, r = Ok a) by (vm_compute in H; injection H as _ <-; eauto).
  destruct Hr as [a ->]. exists db', a. split; [reflexivity |].
  destruct (create_appointment_pricing decimal_int _ _ _ _ _ H)
    as (service & _ & _ & _ & Hprice & Horig & _ & Hstatus & _).
  rewrite Hprice, Horig. auto.
Defined.

(** C4 as stated fails: Cleo has no working hours recorded, and a haircut
    with her at three in the morning is accepted and stored. *)
Lemma no_working_hours_accepted :
  Stylist.working_hours cleo = None
  /\ exists db' a,
       create_appointment decimal_int db0 (book 1 3 3 0) client = (db', Ok a)
       /\ In a (appointments db').
Proof.
  split; [reflexivity |]. do 2 eexists. split; [vm_compute; reflexivity |].
  left. reflexivity.
Qed.

(** C9 as stated fails: a service row with duration 0 resolves, the request
    is accepted, and the stored appointment ends when it starts. *)
Lemma zero_duration_accepted :
  Service.duration_minutes instant <= 0
  /\ exists db' a,
       create_appointment decimal_int db_instant (book 3 1 10 0) client = (db', Ok a)
       /\ In a (appointments db')
       /\ ~ time_range_ok a.
Proof.
  split; [discriminate |]. do 2 eexists. split; [vm_compute; reflexivity |].
  split; [left; reflexivity |]. unfold time_range_ok. simpl. lia.
Qed.

Lemma appointments_time_range_witness :
  Forall (fun s => 0 < Service.duration_minutes s) (services db0)
  /\ Forall time_range_ok (appointments db0)
  /\ Forall time_range_ok
       (appointments (fst (serve_all decimal_int db0 reactivation_history))).
Proof.
  assert (Hs : Forall (fun s => 0 < Service.duration_minutes s) (services db0))
    by (repeat constructor).
  assert (Ha : Forall time_range_ok (appointments db0)) by constructor.
  split; [exact Hs |]. split; [exact Ha |].
  exact (appointments_time_range decimal_int db0 reactivation_history Hs Ha).
Defined.


(** The same table arises without any change of status when the checks of
    two calls are both run on the table as it is before either of them
    commits: both pass, and both rows are stored. Nothing in the handler
    ties the conflict query to the insertion. *)
Lemma double_booking_by_interleaving :
  exists row db1 a1 db2 a2,
    new_appointment decimal_int db0 (book 1 1 10 0) client = Ok row
    /\ add_commit_refresh db0 row = (db1, a1)
    /\ add_commit_refresh db1 row = (db2, a2)
    /\ ~ no_double_booking db2.
Proof.
  do 5 eexists. split; [vm_compute; reflexivity |].
  split; [reflexivity |]. split; [reflexivity |].
  unfold no_double_booking. simpl. intros H.
  inversion H as [| a rest Hhead _]; subst.
  inversion Hhead as [| b rest' Hab _]; subst.
  specialize (Hab eq_refl eq_refl eq_refl). discriminate Hab.
Qed.

(** C2 as stated fails: the appointment is COMPLETED, an administrator
    asks for CANCELLED with a reason, and the handler answers with the
    appointment, now CANCELLED, and stores it. *)
Lemma completed_then_cancelled :
  exists a db' a',
    appointment_by_id (fst (serve_all decimal_int db0 completed_history)) 1 = Some a
    /\ Appointment.status a = COMPLETED
    /\ put_appointment_status (fst (serve_all decimal_int db0 completed_history)) 1
         (StatusBody.mk CANCELLED (Given "No longer needed")) admin
       = (db', Ok a')
    /\ Appointment.status a' = CANCELLED
    /\ appointment_by_id db' 1 = Some a'.
Proof.
  do 3 eexists. split; [vm_compute; reflexivity |]. split; [reflexivity |].
  split; [vm_compute; reflexivity |]. split; reflexivity.
Qed.

(** C7 fails on the code: the client's own PENDING appointment, a body
    [{"status": "cancelled"}] with no cancellation reason. The validator is
    not run on the absent field, the handler answers with the appointment,
    now CANCELLED, with no reason stored. *)
Theorem cancel_without_reason_accepted :
  exists a db' a',
    appointment_by_id (fst (create_appointment decimal_int db0 (book 1 1 10 0) client)) 1
    = Some a
    /\ Appointment.status a = PENDING
    /\ put_appointment_status
         (fst (create_appointment decimal_int db0 (book 1 1 10 0) client)) 1
         (StatusBody.mk CANCELLED Missing) client
       = (db', Ok a')
    /\ Appointment.status a' = CANCELLED
    /\ Appointment.cancellation_reason a' = None
    /\ appointment_by_id db' 1 = Some a'.
Proof.
  do 3 eexists. split; [vm_compute; reflexivity |]. split; [reflexivity |].
  split; [vm_compute; reflexivity |]. repeat split.
Qed.

Lemma check_availability_slots_witness :
  check_availability decimal_int 10 db0 1 (at_time monday 0 0) (Some 1)
  = Some (Ok monday_slots)
  /\ In (anna_slot (9, 0)) monday_slots
  /\ (exists stylist working_hours blocks time_slot work_start work_end,
        In stylist (stylists db0)
        /\ Stylist.id stylist = TimeSlot.stylist_id (anna_slot (9, 0))
        /\ Stylist.working_hours stylist = Some working_hours
        /\ working_hours !! Datetime.day_name (at_time monday 0 0) = Some blocks
        /\ In time_slot blocks
        /\ block_bounds decimal_int (at_time monday 0 0) time_slot
           = Some (work_start, work_end)
        /\ Interval.contains work_start work_end
             (TimeSlot.start_time (anna_slot (9, 0)))
             (TimeSlot.end_time (anna_slot (9, 0))) = true).
Proof.
  split; [vm_compute; reflexivity |]. split; [left; reflexivity |].
  refine (proj1 (check_availability_slots decimal_int 10 db0 1 (at_time monday 0 0)
                   (Some 1) monday_slots _ (anna_slot (9, 0)) _)).
  - vm_compute. reflexivity.
  - left. reflexivity.
Defined.

(** C8 as stated fails: Bea's blocks are stored afternoon first, and her
    slots come out in that order, 14:00 before 09:00. *)
Lemma unsorted_blocks_unsorted_slots :
  exists slots,
    check_availability decimal_int 10 db0 1 (at_time monday 0 0) (Some 2)
    = Some (Ok slots)
    /\ Forall (fun t => TimeSlot.stylist_id t = 2) slots
    /\ ~ starts_ascending slots.
Proof.
  eexists. split; [vm_compute; reflexivity |]. split; [repeat constructor |].
  intros H. inversion H as [| t rest Hhead _]; subst.
  inversion Hhead as [| t' rest' Hle _]; subst.
  simpl in Hle. vm_compute in Hle. apply Hle. reflexivity.
Qed.

End Scenarios.

(** * Part III: further properties of the handlers *)

(** ** The conflict query *)

Section ConflictQueryFacts.

Lemma conflict_condition_overlaps a_start a_end s e :
  a_start < a_end -> s < e ->
  Interval.conflict_condition a_start a_end s e = true ->
  Interval.overlaps a_start a_end s e = true.
Proof.
  unfold Interval.conflict_condition, Interval.overlaps. intros Ha Hs Hc.
  apply not_false_is_true. intros Ho. bool_to_Z; lia.
Qed.

(** X1. For a candidate interval with [s < e] and a table whose live
    bookings of the stylist all have [start_time < end_time], the conflict
    query finds nothing exactly when no live booking of the stylist
    overlaps the candidate in the half-open sense; in particular a
    candidate that begins when a booking ends, or ends when one begins,
    meets no conflict. *)
Theorem conflicting_appointment_None_iff db stylist_id s e :
  s < e ->
  (forall a, In a (appointments db) ->
     Appointment.stylist_id a = stylist_id ->
     is_active_status (Appointment.status a) = true ->
     time_range_ok a) ->
  (conflicting_appointment db stylist_id s e = None
   <-> forall a, In a (appointments db) ->
         Appointment.stylist_id a = stylist_id ->
         is_active_status (Appointment.status a) = true ->
         Appointment.end_time a <= s \/ e <= Appointment.start_time a).
Proof.
  intros Hse Hwf. split.
  - intros Hnone a Ha Hst Hact.
    pose proof (no_conflict_compatible db stylist_id s e a Hnone Ha Hst Hact) as Ho.
    unfold Interval.overlaps in Ho. bool_to_Z; lia.
  - intros Hfree. unfold conflicting_appointment, first.
    destruct (find _ _) as [a |] eqn:Hfind; [| reflexivity].
    apply find_some in Hfind. destruct Hfind as [Hin Hf].
    unfold conflict_filter in Hf.
    apply andb_true_iff in Hf. destruct Hf as [Hf Hc].
    apply andb_true_iff in Hf. destruct Hf as [Hst Hact].
    apply Z.eqb_eq in Hst.
    specialize (Hfree a Hin Hst Hact). specialize (Hwf a Hin Hst Hact).
    unfold time_range_ok in Hwf.
    apply conflict_condition_overlaps in Hc; [| assumption | assumption].
    unfold Interval.overlaps in Hc. bool_to_Z; lia.
Qed.

End ConflictQueryFacts.

(** ** More on [create_appointment] *)

Section CreateMore.

Variable py_int : string -> option Z.

(** X2. A request of a client whose service and stylist resolve, whose
    stylist offers the service, whose end time can be computed and whose
    interval overlaps, in the half-open sense, a PENDING or CONFIRMED
    appointment of the stylist is refused with 400 "Time slot is not
    available", and the database stays as it is. *)
Theorem create_appointment_overlap_refused
    db appointment_data current_user service stylist duration end_time b :
  User.role current_user = CLIENT ->
  first (fun s => (Service.id s =? AppointmentCreate.service_id appointment_data)
                  && Service.is_active s) (services db) = Some service ->
  first (fun s => (Stylist.id s =? AppointmentCreate.stylist_id appointment_data)
                  && Stylist.is_active s) (stylists db) = Some stylist ->
  existsb (Z.eqb (Service.id service)) (Stylist.services stylist) = true ->
  Datetime.timedelta_minutes (Service.duration_minutes service) = Some duration ->
  Datetime.add (AppointmentCreate.start_time appointment_data) duration = Some end_time ->
  In b (appointments db) ->
  Appointment.stylist_id b = Stylist.id stylist ->
  Appointment.status b = PENDING \/ Appointment.status b = CONFIRMED ->
  Interval.overlaps (Appointment.start_time b) (Appointment.end_time b)
    (AppointmentCreate.start_time appointment_data) end_time = true ->
  create_appointment py_int db appointment_data current_user
  = (db, HTTPException 400 "Time slot is not available").
Proof.
  intros Hrole Hservice Hstylist Hoffers Hduration Hend Hb Hst Hact Ho.
  unfold create_appointment, get_client, role_required. rewrite Hrole. simpl.
  unfold new_appointment. rewrite Hservice, Hstylist. simpl.
  rewrite Hoffers. simpl. rewrite Hduration. simpl. rewrite Hend. simpl.
  destruct (conflicting_appointment _ _ _ _) eqn:Hc; [reflexivity |].
  exfalso. revert Hc. eapply overlap_is_conflict; eauto.
  destruct Hact as [-> | ->]; reflexivity.
Qed.




(** X5. [create_appointment] never touches the salons, services or
    stylists, nor any stored appointment. A request that is answered with
    an appointment has added that row at the end of the table and nothing
    else; a request that is refused with an HTTP error has stored nothing;
    a request that ends in an internal error has stored nothing or has
    added one row. The last case occurs: a request for an appointment at
    home with no address that passes the checks is stored, and then
    answered with an internal error, the response model refusing the
    row. *)
Theorem create_appointment_frame db appointment_data current_user db' r :
  create_appointment py_int db appointment_data current_user = (db', r) ->
  salons db' = salons db
  /\ services db' = services db
  /\ stylists db' = stylists db
  /\ match r with
     | Ok a => appointments db' = appointments db ++ [a]
     | HTTPException _ _ => db' = db
     | Raised => db' = db \/ exists a, appointments db' = appointments db ++ [a]
     end
  /\ (forall row,
        User.role current_user = CLIENT ->
        new_appointment py_int db appointment_data current_user = Ok row ->
        AppointmentCreate.appointment_type appointment_data = AT_HOME ->
        AppointmentCreate.address appointment_data = None
        \/ AppointmentCreate.address appointment_data = Some "" ->
        r = Raised
        /\ exists a, appointments db' = appointments db ++ [a]
                     /\ Appointment.start_time a
                        = AppointmentCreate.start_time appointment_data
                     /\ Appointment.status a = PENDING).
Proof.
  intros H.
  destruct (create_appointment_cases py_int db appointment_data current_user)
    as [(r0 & Hr & Hno & Hrole) | (row & _ & Hrow & Hc)]; rewrite H in *.
  - injection Hr as -> ->.
    split; [reflexivity |]. split; [reflexivity |]. split; [reflexivity |]. split.
    + destruct r0 as [a | c d |]; auto. exfalso. eapply Hno. reflexivity.
    + intros row Hclient Hrow _ _. exfalso. eapply Hrole; eauto.
  - injection Hc as -> ->. simpl.
    split; [reflexivity |]. split; [reflexivity |]. split; [reflexivity |]. split.
    + destruct (appointment_detail_cases
                  (Appointment.set_id (Some (next_id (appointments db))) row))
        as [-> | ->]; [reflexivity | right; eauto].
    + intros row' _ Hrow' Htype Haddress.
      rewrite Hrow in Hrow'. injection Hrow' as <-.
      apply new_appointment_Ok in Hrow.
      destruct Hrow as (service & stylist & duration & end_time
                        & _ & _ & _ & _ & _ & _ & _ & ->).
      split.
      * unfold appointment_detail, validate_address. simpl. rewrite Htype.
        destruct Haddress as [-> | ->]; reflexivity.
      * eexists. split; [reflexivity |]. split; reflexivity.
Qed.

Lemma first_filter_None {A : Type} (f g : A -> bool) (rows : list A) :
  (forall x, f x = true -> g x = true) ->
  first f (List.filter g rows) = None <-> first f rows = None.
Proof.
  intros Hfg. unfold first. induction rows as [| x rest IH]; simpl; [tauto |].
  destruct (f x) eqn:Hf.
  - rewrite (Hfg x Hf). simpl. rewrite Hf. split; discriminate.
  - destruct (g x); simpl; [rewrite Hf |]; exact IH.
Qed.

(** X6. The checks of [create_appointment] read the appointment table only
    through its PENDING and CONFIRMED rows: with every COMPLETED, CANCELLED
    and NO_SHOW row removed, they end in the same row or the same error. *)
Theorem new_appointment_ignores_terminal db appointment_data current_user :
  new_appointment py_int
    (set_appointments
       (List.filter (fun a => is_active_status (Appointment.status a)) (appointments db)) db)
    appointment_data current_user
  = new_appointment py_int db appointment_data current_user.
Proof.
  unfold new_appointment. simpl.
  destruct (first _ (services db)) as [service |]; [| reflexivity].
  destruct (first _ (stylists db)) as [stylist |]; [| reflexivity]. simpl.
  destruct (negb _); [reflexivity |]. simpl.
  destruct (Datetime.timedelta_minutes _) as [duration |]; [| reflexivity]. simpl.
  destruct (Datetime.add _ _) as [end_time |]; [| reflexivity]. simpl.
  unfold conflicting_appointment. simpl.
  pose proof (first_filter_None
                (conflict_filter (Stylist.id stylist)
                   (AppointmentCreate.start_time appointment_data) end_time)
                (fun a => is_active_status (Appointment.status a))
                (appointments db)) as Hiff.
  destruct (first _ (List.filter _ _)) eqn:H1; destruct (first _ (appointments db)) eqn:H2;
    try reflexivity.
  - exfalso. assert (Hn : @None Appointment.t = None) by reflexivity.
    apply Hiff in Hn; [discriminate |].
    intros x Hx. unfold conflict_filter in Hx. bool_to_Z. assumption.
  - exfalso. assert (Hn : @None Appointment.t = None) by reflexivity.
    apply Hiff in Hn; [discriminate |].
    intros x Hx. unfold conflict_filter in Hx. bool_to_Z. assumption.
Qed.

End CreateMore.

(** ** More on the status and payment updates *)

Section UpdateMore.

Lemma update_appointment_status_Ok db appointment_id status_data current_user db' a' :
  update_appointment_status db appointment_id status_data current_user = (db', Ok a') ->
  exists a,
    appointment_by_id db appointment_id = Some a
    /\ authorize_status_update db a status_data current_user = Ok tt
    /\ a' = apply_status_update a status_data
    /\ db' = commit_update db a'.
Proof.
  unfold update_appointment_status. intros H.
  destruct (appointment_by_id db appointment_id) as [a |]; [| inversion H].
  destruct (authorize_status_update _ _ _ _) as [[] | |] eqn:Hauth; inversion H; subst.
  match goal with Hd : appointment_detail _ = Ok _ |- _ =>
    apply appointment_detail_Ok in Hd; subst a' end.
  exists a. auto.
Qed.

Lemma appointment_by_id_key db appointment_id a :
  appointment_by_id db appointment_id = Some a -> Appointment.id a = Some appointment_id.
Proof.
  unfold appointment_by_id, first. intros H. apply find_some in H.
  destruct H as [_ H]. now apply bool_decide_eq_true_1 in H.
Qed.

(** X7. A status update that succeeds was allowed by the role of the
    caller: a client has changed an appointment of which it is the client,
    and to CANCELLED; a stylist an appointment whose [stylist_id] is its
    own id, and to CONFIRMED, COMPLETED or NO_SHOW; a salon owner an
    appointment whose stylist works in a salon it owns. *)
Theorem update_appointment_status_authorized
    db appointment_id status_data current_user db' a' :
  update_appointment_status db appointment_id status_data current_user = (db', Ok a') ->
  exists a,
    appointment_by_id db appointment_id = Some a
    /\ (User.role current_user = CLIENT ->
        Appointment.client_id a = User.id current_user
        /\ AppointmentStatusUpdate.status status_data = CANCELLED)
    /\ (User.role current_user = STYLIST ->
        Appointment.stylist_id a = User.id current_user
        /\ In (AppointmentStatusUpdate.status status_data) [CONFIRMED; COMPLETED; NO_SHOW])
    /\ (User.role current_user = SALON_OWNER ->
        exists stylist salon,
          In stylist (stylists db)
          /\ Stylist.id stylist = Appointment.stylist_id a
          /\ In salon (salons db)
          /\ Salon.id salon = Stylist.salon_id stylist
          /\ Salon.owner_id salon = User.id current_user).
Proof.
  intros H. apply update_appointment_status_Ok in H.
  destruct H as (a & Ha & Hauth & _ & _). exists a. split; [exact Ha |].
  unfold authorize_status_update in Hauth.
  split; [| split]; intros Hrole; rewrite Hrole in Hauth.
  - destruct (Appointment.client_id a =? User.id current_user) eqn:Hc;
      simpl in Hauth; [| discriminate].
    destruct (bool_decide _) eqn:Hs; simpl in Hauth; [| discriminate].
    apply Z.eqb_eq in Hc. apply bool_decide_eq_true_1 in Hs. auto.
  - destruct (Appointment.stylist_id a =? User.id current_user) eqn:Hc;
      simpl in Hauth; [| discriminate].
    apply Z.eqb_eq in Hc. split; [exact Hc |].
    destruct (AppointmentStatusUpdate.status status_data); simpl in *;
      try discriminate; auto.
  - destruct (first _ (stylists db)) as [stylist |] eqn:Hstylist;
      simpl in Hauth; [| discriminate].
    destruct (first _ (salons db)) as [salon |] eqn:Hsalon; simpl in Hauth; [| discriminate].
    destruct (Salon.owner_id salon =? User.id current_user) eqn:Ho;
      simpl in Hauth; [| discriminate].
    apply find_some in Hstylist. destruct Hstylist as [Hs1 Hs2].
    apply find_some in Hsalon. destruct Hsalon as [Hl1 Hl2].
    apply Z.eqb_eq in Hs2, Hl2, Ho.
    exists stylist, salon. auto.
Qed.

(** X8. A status update that succeeds sets the status to the requested
    one, and the cancellation reason to the one of the request when the new
    status is CANCELLED and the reason is not empty; otherwise the reason
    stays as it was. The id, the client, the service, the stylist, the
    start and the end, the type, the address, the four amounts, the
    payment flag and the notes of the appointment are those it had. In the
    table the rows stored under the given id are replaced by the updated
    appointment; every row stored under another id, the number of rows and
    the other tables are as before. *)
Theorem update_appointment_status_frame
    db appointment_id status_data current_user db' a' :
  update_appointment_status db appointment_id status_data current_user = (db', Ok a') ->
  exists a,
    appointment_by_id db appointment_id = Some a
    /\ Appointment.status a' = AppointmentStatusUpdate.status status_data
    /\ Appointment.cancellation_reason a'
       = (if bool_decide (AppointmentStatusUpdate.status status_data = CANCELLED)
             && opt_str_truthy (AppointmentStatusUpdate.cancellation_reason status_data)
          then AppointmentStatusUpdate.cancellation_reason status_data
          else Appointment.cancellation_reason a)
    /\ Appointment.id a' = Appointment.id a
    /\ Appointment.client_id a' = Appointment.client_id a
    /\ Appointment.service_id a' = Appointment.service_id a
    /\ Appointment.stylist_id a' = Appointment.stylist_id a
    /\ Appointment.start_time a' = Appointment.start_time a
    /\ Appointment.end_time a' = Appointment.end_time a
    /\ Appointment.appointment_type a' = Appointment.appointment_type a
    /\ Appointment.address a' = Appointment.address a
    /\ Appointment.price a' = Appointment.price a
    /\ Appointment.original_price a' = Appointment.original_price a
    /\ Appointment.discount_amount a' = Appointment.discount_amount a
    /\ Appointment.additional_fees a' = Appointment.additional_fees a
    /\ Appointment.is_paid a' = Appointment.is_paid a
    /\ Appointment.notes a' = Appointment.notes a
    /\ appointments db'
       = List.map (fun b => if bool_decide (Appointment.id b = Some appointment_id)
                            then a' else b)
                  (appointments db)
    /\ salons db' = salons db
    /\ services db' = services db
    /\ stylists db' = stylists db.
Proof.
  intros H. apply update_appointment_status_Ok in H.
  destruct H as (a & Ha & _ & -> & ->). exists a. split; [exact Ha |].
  pose proof (appointment_by_id_key _ _ _ Ha) as Hkey.
  assert (Hmap : appointments (commit_update db (apply_status_update a status_data))
                 = List.map (fun b => if bool_decide (Appointment.id b = Some appointment_id)
                                      then apply_status_update a status_data else b)
                            (appointments db)).
  { unfold commit_update. simpl. apply map_ext. intros b.
    rewrite apply_status_update_id, Hkey. reflexivity. }
  rewrite Hmap. clear Hmap.
  unfold apply_status_update.
  destruct (_ && _); simpl; repeat split.
Qed.

Lemma ForallOrdPairs_map {A : Type} (R : A -> A -> Prop) (f : A -> A) (l : list A) :
  ForallOrdPairs R l ->
  (forall x y, In x l -> In y l -> R x y -> R (f x) (f y)) ->
  ForallOrdPairs R (List.map f l).
Proof.
  induction 1 as [| x l Hx Hl IH]; intros Hf; simpl; constructor.
  - rewrite List.Forall_forall in *. intros y' Hy'. apply in_map_iff in Hy'.
    destruct Hy' as (y & <- & Hy). apply Hf; [now left | now right | now apply Hx].
  - apply IH. intros a b Ha Hb. apply Hf; now right.
Qed.

Lemma unique_id_row db a b :
  appointment_ids_unique db ->
  In a (appointments db) -> In b (appointments db) ->
  Appointment.id b = Appointment.id a -> b = a.
Proof.
  unfold appointment_ids_unique. generalize (appointments db) as rows.
  induction rows as [| x rest IH]; simpl; intros Hnd Ha Hb Hid; [contradiction |].
  inversion Hnd as [| ? ? Hnotin Hnd']; subst.
  destruct Ha as [-> | Ha], Hb as [-> | Hb]; auto.
  - exfalso. apply Hnotin. rewrite <- Hid. now apply in_map.
  - exfalso. apply Hnotin. rewrite Hid. now apply in_map.
Qed.

(** Writing back a row with a new status keeps the table free of double
    bookings when the new status is not a live one, and also, the ids
    being distinct, when the status of the row was a live one. *)
Lemma commit_status_no_double_booking db appointment_id status_data a :
  appointment_by_id db appointment_id = Some a ->
  is_active_status (AppointmentStatusUpdate.status status_data) = false
  \/ (appointment_ids_unique db /\ is_active_status (Appointment.status a) = true) ->
  no_double_booking db ->
  no_double_booking (commit_update db (apply_status_update a status_data)).
Proof.
  intros Ha Hcase Hinv.
  unfold no_double_booking, commit_update. simpl.
  apply ForallOrdPairs_map; [exact Hinv |].
  intros x y Hx Hy Hxy. rewrite apply_status_update_id.
  pose proof (apply_status_update_status a status_data) as Hs.
  pose proof (apply_status_update_times a status_data) as [Hts Hte].
  assert (Hst : Appointment.stylist_id (apply_status_update a status_data)
                = Appointment.stylist_id a).
  { unfold apply_status_update. destruct (_ && _); reflexivity. }
  pose proof (appointment_by_id_In _ _ _ Ha) as Hin.
  destruct Hcase as [Hterminal | [Huniq Hactive]].
  - unfold compatible.
    destruct (bool_decide (Appointment.id x = Appointment.id a));
      destruct (bool_decide (Appointment.id y = Appointment.id a));
      rewrite ?Hs; try exact Hxy; intros; congruence.
  - destruct (bool_decide (Appointment.id x = Appointment.id a)) eqn:Hxa;
      destruct (bool_decide (Appointment.id y = Appointment.id a)) eqn:Hya;
      try exact Hxy.
    + apply bool_decide_eq_true_1 in Hxa, Hya.
      apply (unique_id_row db a x Huniq Hin Hx) in Hxa.
      apply (unique_id_row db a y Huniq Hin Hy) in Hya. subst x y.
      unfold compatible in *. rewrite Hts, Hte. intros _ _ _. now apply Hxy.
    + apply bool_decide_eq_true_1 in Hxa.
      apply (unique_id_row db a x Huniq Hin Hx) in Hxa. subst x.
      unfold compatible in *. rewrite Hts, Hte, Hst. intros H1 _ H3. now apply Hxy.
    + apply bool_decide_eq_true_1 in Hya.
      apply (unique_id_row db a y Huniq Hin Hy) in Hya. subst y.
      unfold compatible in *. rewrite Hts, Hte, Hst. intros H1 H2 _. now apply Hxy.
Qed.

(** X9. A status update keeps the table free of double bookings when the
    new status is COMPLETED, CANCELLED or NO_SHOW, and also, the ids of
    the rows being distinct, when the appointment is PENDING or CONFIRMED
    at the time of the request. What is left is the update that makes a
    row live again. *)
Theorem update_appointment_status_no_double_booking
    db appointment_id status_data current_user db' a' a :
  update_appointment_status db appointment_id status_data current_user = (db', Ok a') ->
  appointment_by_id db appointment_id = Some a ->
  is_active_status (AppointmentStatusUpdate.status status_data) = false
  \/ (appointment_ids_unique db /\ is_active_status (Appointment.status a) = true) ->
  no_double_booking db -> no_double_booking db'.
Proof.
  intros H Ha Hcase Hinv. apply update_appointment_status_Ok in H.
  destruct H as (a0 & Ha0 & _ & -> & ->). rewrite Ha in Ha0. injection Ha0 as <-.
  eapply commit_status_no_double_booking; eauto.
Qed.

(** X10. The validation of the body of a status update: a body that names
    CANCELLED and supplies [null] or the empty string as the reason is
    refused with 422; every other body is accepted, with the status it
    names and the reason it supplies, if any. *)
Theorem parse_status_update_cases body :
  (StatusBody.status body = CANCELLED
   /\ (StatusBody.cancellation_reason body = Null
       \/ StatusBody.cancellation_reason body = Given "") ->
   parse_status_update body
   = HTTPException 422 "Cancellation reason is required when cancelling an appointment")
  /\ (~ (StatusBody.status body = CANCELLED
         /\ (StatusBody.cancellation_reason body = Null
             \/ StatusBody.cancellation_reason body = Given "")) ->
      parse_status_update body
      = Ok (AppointmentStatusUpdate.mk (StatusBody.status body)
              (field_value (StatusBody.cancellation_reason body)))).
Proof.
  destruct body as [status reason]. simpl. split.
  - intros [-> [-> | ->]]; reflexivity.
  - intros Hn. unfold parse_status_update, validate_cancellation_reason. simpl.
    destruct reason as [| | s]; simpl; [reflexivity | |].
    + destruct (bool_decide (status = CANCELLED)) eqn:Hs; [| reflexivity].
      apply bool_decide_eq_true_1 in Hs. exfalso. apply Hn. auto.
    + destruct (bool_decide (status = CANCELLED)) eqn:Hs; [| reflexivity].
      apply bool_decide_eq_true_1 in Hs.
      destruct (String.eqb s "") eqn:He; [| reflexivity].
      apply String.eqb_eq in He. subst s. exfalso. apply Hn. auto.
Qed.

Lemma update_appointment_payment_Ok db appointment_id payment_data current_user db' a' :
  update_appointment_payment db appointment_id payment_data current_user = (db', Ok a') ->
  exists a,
    get_salon_staff current_user = Ok current_user
    /\ appointment_by_id db appointment_id = Some a
    /\ authorize_payment_update db a current_user = Ok tt
    /\ a' = Appointment.set_is_paid (AppointmentPaymentUpdate.is_paid payment_data) a
    /\ db' = commit_update db a'.
Proof.
  unfold update_appointment_payment. intros H.
  destruct (get_salon_staff current_user) as [u | |] eqn:Hstaff; [| inversion H | inversion H].
  assert (u = current_user).
  { unfold get_salon_staff, role_required in Hstaff.
    destruct (negb _); [discriminate | congruence]. }
  subst u.
  destruct (appointment_by_id db appointment_id) as [a |]; [| inversion H].
  destruct (authorize_payment_update _ _ _) as [[] | |] eqn:Hauth; inversion H; subst.
  match goal with Hd : appointment_detail _ = Ok _ |- _ =>
    apply appointment_detail_Ok in Hd; subst a' end.
  exists a. auto.
Qed.

(** X11. A payment update succeeds only for a salon owner or a stylist
    (a client and an administrator are refused): for a stylist only on an
    appointment whose [stylist_id] is its own id, for a salon owner only
    on an appointment whose stylist works in a salon that it owns. It sets
    [is_paid] to the requested value and answers with the appointment as
    it is then stored under the id; the id, the client, the service, the
    stylist, the start and the end, the status, the type, the address,
    the four amounts, the notes and the cancellation reason of the
    appointment are those it had. *)
Theorem update_appointment_payment_effect
    db appointment_id payment_data current_user db' a' :
  update_appointment_payment db appointment_id payment_data current_user = (db', Ok a') ->
  (User.role current_user = SALON_OWNER \/ User.role current_user = STYLIST)
  /\ exists a,
       appointment_by_id db appointment_id = Some a
       /\ (User.role current_user = STYLIST ->
           Appointment.stylist_id a = User.id current_user)
       /\ (User.role current_user = SALON_OWNER ->
           exists stylist salon,
             In stylist (stylists db)
             /\ Stylist.id stylist = Appointment.stylist_id a
             /\ In salon (salons db)
             /\ Salon.id salon = Stylist.salon_id stylist
             /\ Salon.owner_id salon = User.id current_user)
       /\ appointment_by_id db' appointment_id = Some a'
       /\ Appointment.is_paid a' = AppointmentPaymentUpdate.is_paid payment_data
       /\ Appointment.id a' = Appointment.id a
       /\ Appointment.client_id a' = Appointment.client_id a
       /\ Appointment.service_id a' = Appointment.service_id a
       /\ Appointment.stylist_id a' = Appointment.stylist_id a
       /\ Appointment.start_time a' = Appointment.start_time a
       /\ Appointment.end_time a' = Appointment.end_time a
       /\ Appointment.status a' = Appointment.status a
       /\ Appointment.appointment_type a' = Appointment.appointment_type a
       /\ Appointment.address a' = Appointment.address a
       /\ Appointment.price a' = Appointment.price a
       /\ Appointment.original_price a' = Appointment.original_price a
       /\ Appointment.discount_amount a' = Appointment.discount_amount a
       /\ Appointment.additional_fees a' = Appointment.additional_fees a
       /\ Appointment.notes a' = Appointment.notes a
       /\ Appointment.cancellation_reason a' = Appointment.cancellation_reason a.
Proof.
  intros H. apply update_appointment_payment_Ok in H.
  destruct H as (a & Hstaff & Ha & Hauth & -> & ->). split.
  - unfold get_salon_staff, role_required, role_in in Hstaff.
    destruct (User.role current_user); simpl in Hstaff; try discriminate; auto.
  - exists a. split; [exact Ha |]. split; [| split; [| split]].
    + intros Hrole. unfold authorize_payment_update in Hauth. rewrite Hrole in Hauth.
      destruct (Appointment.stylist_id a =? User.id current_user) eqn:Hc;
        simpl in Hauth; [| discriminate].
      now apply Z.eqb_eq in Hc.
    + intros Hrole. unfold authorize_payment_update in Hauth. rewrite Hrole in Hauth.
      destruct (first _ (stylists db)) as [stylist |] eqn:Hstylist;
        simpl in Hauth; [| discriminate].
      destruct (first _ (salons db)) as [salon |] eqn:Hsalon; simpl in Hauth; [| discriminate].
      destruct (Salon.owner_id salon =? User.id current_user) eqn:Ho;
        simpl in Hauth; [| discriminate].
      apply find_some in Hstylist. destruct Hstylist as [Hs1 Hs2].
      apply find_some in Hsalon. destruct Hsalon as [Hl1 Hl2].
      apply Z.eqb_eq in Hs2, Hl2, Ho.
      exists stylist, salon. auto.
    + eapply appointment_by_id_commit_update; [exact Ha | reflexivity].
    + simpl. repeat split.
Qed.

(** Writing back a row with a new payment flag keeps a table with distinct
    ids free of double bookings. *)
Lemma commit_payment_no_double_booking db appointment_id is_paid a :
  appointment_by_id db appointment_id = Some a ->
  appointment_ids_unique db ->
  no_double_booking db ->
  no_double_booking (commit_update db (Appointment.set_is_paid is_paid a)).
Proof.
  intros Ha Huniq Hinv.
  pose proof (appointment_by_id_In _ _ _ Ha) as Hin.
  unfold no_double_booking, commit_update. simpl.
  apply ForallOrdPairs_map; [exact Hinv |].
  intros x y Hx Hy Hxy.
  destruct (bool_decide (Appointment.id x = Appointment.id a)) eqn:Hxa;
    destruct (bool_decide (Appointment.id y = Appointment.id a)) eqn:Hya;
    try exact Hxy.
  - apply bool_decide_eq_true_1 in Hxa, Hya.
    apply (unique_id_row db a x Huniq Hin Hx) in Hxa.
    apply (unique_id_row db a y Huniq Hin Hy) in Hya. subst x y. exact Hxy.
  - apply bool_decide_eq_true_1 in Hxa.
    apply (unique_id_row db a x Huniq Hin Hx) in Hxa. subst x. exact Hxy.
  - apply bool_decide_eq_true_1 in Hya.
    apply (unique_id_row db a y Huniq Hin Hy) in Hya. subst y. exact Hxy.
Qed.

(** X12. The ids of the rows being distinct, a payment update keeps the
    table free of double bookings. *)
Theorem update_appointment_payment_no_double_booking
    db appointment_id payment_data current_user db' a' :
  update_appointment_payment db appointment_id payment_data current_user = (db', Ok a') ->
  appointment_ids_unique db ->
  no_double_booking db -> no_double_booking db'.
Proof.
  intros H Huniq Hinv. apply update_appointment_payment_Ok in H.
  destruct H as (a & _ & Ha & _ & -> & ->).
  eapply commit_payment_no_double_booking; eauto.
Qed.

End UpdateMore.

(** ** Reading appointments *)

Section ReadFacts.
Import Permutation.


Lemma appointment_details_Ok rows out : appointment_details rows = Ok out -> out = rows.
Proof. unfold appointment_details. destruct (forallb _ _); congruence. Qed.

Lemma insert_by_start_desc_perm a rows :
  Permutation (a :: rows) (insert_by_start_desc a rows).
Proof.
  induction rows as [| b rest IH]; simpl; [reflexivity |].
  destruct (_ <=? _); [reflexivity |].
  rewrite perm_swap. now apply perm_skip.
Qed.

Lemma order_by_start_time_desc_perm rows :
  Permutation rows (order_by_start_time_desc rows).
Proof.
  induction rows as [| a rest IH]; simpl; [constructor |].
  rewrite <- insert_by_start_desc_perm. now apply perm_skip.
Qed.

Lemma insert_by_start_desc_sorted a rows :
  ForallOrdPairs start_desc rows -> ForallOrdPairs start_desc (insert_by_start_desc a rows).
Proof.
  induction 1 as [| b rest Hb Hrest IH]; simpl.
  - constructor; constructor.
  - destruct (Appointment.start_time b <=? Appointment.start_time a) eqn:Hle.
    + apply Z.leb_le in Hle. constructor; [| now constructor].
      constructor; [exact Hle |].
      eapply List.Forall_impl; [| exact Hb]. unfold start_desc. intros; lia.
    + apply Z.leb_gt in Hle. constructor; [| exact IH].
      apply List.Forall_forall. intros x Hx.
      apply (Permutation_in _ (Permutation_sym (insert_by_start_desc_perm a rest))) in Hx.
      destruct Hx as [<- | Hx]; [unfold start_desc; lia |].
      rewrite List.Forall_forall in Hb. now apply Hb.
Qed.

Lemma order_by_start_time_desc_sorted rows :
  ForallOrdPairs start_desc (order_by_start_time_desc rows).
Proof.
  induction rows as [| a rest IH]; simpl; [constructor |].
  now apply insert_by_start_desc_sorted.
Qed.

Lemma ForallOrdPairs_skipn {A : Type} (R : A -> A -> Prop) n (l : list A) :
  ForallOrdPairs R l -> ForallOrdPairs R (skipn n l).
Proof.
  revert l. induction n as [| n IH]; intros l H; simpl; [exact H |].
  destruct H; [constructor | now apply IH].
Qed.

Lemma ForallOrdPairs_firstn {A : Type} (R : A -> A -> Prop) n (l : list A) :
  ForallOrdPairs R l -> ForallOrdPairs R (firstn n l).
Proof.
  revert l. induction n as [| n IH]; intros l H; simpl; [constructor |].
  destruct H as [| x l Hx Hl]; constructor; [| now apply IH].
  rewrite List.Forall_forall in *. intros y Hy. apply Hx.
  revert Hy. clear. revert l. induction n; intros [| z l]; simpl; try tauto.
  intros [-> | H]; auto.
Qed.

Lemma In_limit_offset {A : Type} (skip limit : Z) (rows : list A) x :
  In x (limit_rows limit (offset_rows skip rows)) -> In x rows.
Proof.
  unfold limit_rows, offset_rows. intros H.
  assert (Hs : In x (skipn (Z.to_nat skip) rows)).
  { destruct (limit <? 0); [exact H |].
    revert H. generalize (skipn (Z.to_nat skip) rows) as l. generalize (Z.to_nat limit) as n.
    induction n; intros [| z l]; simpl; try tauto. intros [-> | H]; auto. }
  clear H. revert Hs. generalize (Z.to_nat skip) as n. intros n. revert rows.
  induction n; intros [| z l]; simpl; try tauto. intros H'. right. now apply IHn.
Qed.

(** X14. Every appointment that [get_my_appointments] returns is a stored
    row that the base query selects for the user (for a client, a row of
    which it is the client) and that passes the filters given: the status,
    [start_time >= from_date] and [start_time <= to_date]. *)
Theorem get_my_appointments_sound
    db status from_date to_date skip limit current_user rows a :
  get_my_appointments db status from_date to_date skip limit current_user = Ok rows ->
  In a rows ->
  In a (appointments db)
  /\ visible_to db current_user a = true
  /\ (User.role current_user = CLIENT -> Appointment.client_id a = User.id current_user)
  /\ (forall s, status = Some s -> Appointment.status a = s)
  /\ (forall d, from_date = Some d -> d <= Appointment.start_time a)
  /\ (forall d, to_date = Some d -> Appointment.start_time a <= d).
Proof.
  unfold get_my_appointments, get_current_active_user. intros H Hin.
  destruct (negb _); simpl in H; [discriminate |].
  apply appointment_details_Ok in H. subst rows.
  apply In_limit_offset in Hin.
  apply (Permutation_in _ (Permutation_sym (order_by_start_time_desc_perm _))) in Hin.
  unfold all in Hin. apply filter_In in Hin. destruct Hin as [Hin Hm].
  apply filter_In in Hin. destruct Hin as [Hin Hv].
  split; [exact Hin |]. split; [exact Hv |].
  unfold matches_filters in Hm.
  apply andb_true_iff in Hm. destruct Hm as [Hm Hto].
  apply andb_true_iff in Hm. destruct Hm as [Hs Hfrom].
  split; [| split; [| split]].
  - intros Hrole. unfold visible_to in Hv. rewrite Hrole in Hv. now apply Z.eqb_eq in Hv.
  - intros s ->. now apply bool_decide_eq_true_1 in Hs.
  - intros d ->. bool_to_Z. lia.
  - intros d ->. bool_to_Z. lia.
Qed.

(** The base query of [get_my_appointments] selects the rows of which a
    client is the client, those whose [stylist_id] is the id of a stylist,
    those whose stylist works in a salon of a salon owner, and every row
    for an administrator. *)
Lemma visible_to_selected db current_user a :
  ((User.role current_user = CLIENT
    /\ Appointment.client_id a = User.id current_user)
   \/ (User.role current_user = STYLIST
       /\ Appointment.stylist_id a = User.id current_user)
   \/ (User.role current_user = SALON_OWNER
       /\ exists stylist salon,
            In stylist (stylists db)
            /\ Stylist.id stylist = Appointment.stylist_id a
            /\ In salon (salons db)
            /\ Salon.id salon = Stylist.salon_id stylist
            /\ Salon.owner_id salon = User.id current_user)
   \/ User.role current_user = ADMIN) ->
  visible_to db current_user a = true.
Proof.
  unfold visible_to.
  intros [(-> & Hc) | [(-> & Hc) | [(-> & stylist & salon & Hs1 & Hs2 & Hl1 & Hl2 & Ho) | ->]]].
  - now apply Z.eqb_eq.
  - now apply Z.eqb_eq.
  - apply existsb_exists. exists (Stylist.id stylist). split; [| now apply Z.eqb_eq].
    apply in_map. unfold all. apply filter_In. split; [exact Hs1 |].
    apply existsb_exists. exists (Salon.id salon). split; [| now apply Z.eqb_eq].
    apply in_map. apply filter_In. split; [exact Hl1 | now apply Z.eqb_eq].
  - reflexivity.
Qed.

(** A stored row that the user is to see and that passes the filters is
    among the rows that the query selects. *)
Lemma matching_In db status from_date to_date current_user a :
  In a (appointments db) ->
  ((User.role current_user = CLIENT
    /\ Appointment.client_id a = User.id current_user)
   \/ (User.role current_user = STYLIST
       /\ Appointment.stylist_id a = User.id current_user)
   \/ (User.role current_user = SALON_OWNER
       /\ exists stylist salon,
            In stylist (stylists db)
            /\ Stylist.id stylist = Appointment.stylist_id a
            /\ In salon (salons db)
            /\ Salon.id salon = Stylist.salon_id stylist
            /\ Salon.owner_id salon = User.id current_user)
   \/ User.role current_user = ADMIN) ->
  (forall s, status = Some s -> Appointment.status a = s) ->
  (forall d, from_date = Some d -> d <= Appointment.start_time a) ->
  (forall d, to_date = Some d -> Appointment.start_time a <= d) ->
  In a (all (matches_filters status from_date to_date)
            (all (visible_to db current_user) (appointments db))).
Proof.
  intros Hin Hselect Hstatus Hfrom Hto.
  unfold all. apply filter_In. split.
  - apply filter_In. split; [exact Hin | now apply visible_to_selected].
  - unfold matches_filters. apply andb_true_iff. split; [apply andb_true_iff; split |].
    + destruct status as [s |]; [| reflexivity].
      apply bool_decide_eq_true_2. now apply Hstatus.
    + destruct from_date as [d |]; [| reflexivity].
      rewrite Z.geb_leb. apply Z.leb_le. now apply Hfrom.
    + destruct to_date as [d |]; [| reflexivity].
      apply Z.leb_le. now apply Hto.
Qed.

Lemma ForallOrdPairs_app_inv {A : Type} (R : A -> A -> Prop) (l1 l2 : list A) x y :
  ForallOrdPairs R (l1 ++ l2) -> In x l1 -> In y l2 -> R x y.
Proof.
  induction l1 as [| z l1 IH]; simpl; intros H Hx Hy; [contradiction |].
  inversion H as [| ? ? Hz Hrest]; subst.
  destruct Hx as [-> | Hx]; [| now apply IH].
  rewrite List.Forall_forall in Hz. apply Hz. apply in_or_app. now right.
Qed.

(** X15. The list that [get_my_appointments] returns is ordered by
    [start_time], latest first, and has at most [limit] rows when [limit]
    is not negative. With nothing skipped, the rows that the limit leaves
    out are the earliest: a stored appointment that the user is to see,
    that passes the filters and that is not in the answer starts no later
    than any appointment of the answer. *)
Theorem get_my_appointments_order
    db status from_date to_date skip limit current_user rows :
  get_my_appointments db status from_date to_date skip limit current_user = Ok rows ->
  ForallOrdPairs (fun x y => Appointment.start_time y <= Appointment.start_time x) rows
  /\ (0 <= limit -> Z.of_nat (length rows) <= limit)
  /\ (skip <= 0 ->
      forall a x,
        In a (appointments db) ->
        ((User.role current_user = CLIENT
    /\ Appointment.client_id a = User.id current_user)
   \/ (User.role current_user = STYLIST
       /\ Appointment.stylist_id a = User.id current_user)
   \/ (User.role current_user = SALON_OWNER
       /\ exists stylist salon,
            In stylist (stylists db)
            /\ Stylist.id stylist = Appointment.stylist_id a
            /\ In salon (salons db)
            /\ Salon.id salon = Stylist.salon_id stylist
            /\ Salon.owner_id salon = User.id current_user)
   \/ User.role current_user = ADMIN) ->
        (forall s, status = Some s -> Appointment.status a = s) ->
        (forall d, from_date = Some d -> d <= Appointment.start_time a) ->
        (forall d, to_date = Some d -> Appointment.start_time a <= d) ->
        ~ In a rows ->
        In x rows ->
        Appointment.start_time a <= Appointment.start_time x).
Proof.
  unfold get_my_appointments, get_current_active_user. intros H.
  destruct (negb _); simpl in H; [discriminate |].
  apply appointment_details_Ok in H. subst rows. split; [| split].
  - unfold limit_rows, offset_rows.
    destruct (limit <? 0); [| apply ForallOrdPairs_firstn];
      apply ForallOrdPairs_skipn; apply order_by_start_time_desc_sorted.
  - intros Hl. unfold limit_rows. rewrite (proj2 (Z.ltb_ge limit 0)) by lia.
    rewrite length_firstn. lia.
  - intros Hskip a x Hin Hselect Hstatus Hfrom Hto Hout Hx.
    pose proof (matching_In db status from_date to_date current_user a
                  Hin Hselect Hstatus Hfrom Hto) as Hm.
    set (matching := all (matches_filters status from_date to_date)
                         (all (visible_to db current_user) (appointments db))) in *.
    pose proof (order_by_start_time_desc_perm matching) as Hperm.
    pose proof (order_by_start_time_desc_sorted matching) as Hsorted.
    apply (Permutation_in _ Hperm) in Hm.
    unfold offset_rows in Hout, Hx. replace (Z.to_nat skip) with O in Hout, Hx by lia.
    rewrite drop_0 in Hout, Hx. unfold limit_rows in Hout, Hx.
    destruct (limit <? 0); [contradiction |].
    rewrite <- (firstn_skipn (Z.to_nat limit) (order_by_start_time_desc matching))
      in Hm, Hsorted.
    apply in_app_or in Hm. destruct Hm as [Hm | Hm]; [contradiction |].
    exact (ForallOrdPairs_app_inv _ _ _ _ _ Hsorted Hx Hm).
Qed.

(** X16. When [get_my_appointments] answers with a list, nothing being
    skipped and the limit being negative or at least the number of stored
    appointments, the list holds every stored appointment that the user is
    to see (a client those of which it is the client, a stylist those
    whose [stylist_id] is its id, a salon owner those whose stylist works
    in a salon it owns, an administrator all) and that passes the filters
    given: the status is the requested one, [from_date <= start_time] and
    [start_time <= to_date], both bounds included. *)
Theorem get_my_appointments_complete
    db status from_date to_date skip limit current_user rows a :
  get_my_appointments db status from_date to_date skip limit current_user = Ok rows ->
  skip <= 0 ->
  limit < 0 \/ Z.of_nat (length (appointments db)) <= limit ->
  In a (appointments db) ->
  ((User.role current_user = CLIENT
    /\ Appointment.client_id a = User.id current_user)
   \/ (User.role current_user = STYLIST
       /\ Appointment.stylist_id a = User.id current_user)
   \/ (User.role current_user = SALON_OWNER
       /\ exists stylist salon,
            In stylist (stylists db)
            /\ Stylist.id stylist = Appointment.stylist_id a
            /\ In salon (salons db)
            /\ Salon.id salon = Stylist.salon_id stylist
            /\ Salon.owner_id salon = User.id current_user)
   \/ User.role current_user = ADMIN) ->
  (forall s, status = Some s -> Appointment.status a = s) ->
  (forall d, from_date = Some d -> d <= Appointment.start_time a) ->
  (forall d, to_date = Some d -> Appointment.start_time a <= d) ->
  In a rows.
Proof.
  unfold get_my_appointments, get_current_active_user.
  intros H Hskip Hlimit Hin Hselect Hstatus Hfrom Hto.
  destruct (negb _); simpl in H; [discriminate |].
  apply appointment_details_Ok in H. subst rows.
  set (matching := all (matches_filters status from_date to_date)
                       (all (visible_to db current_user) (appointments db))).
  assert (Hm : In a matching) by now apply matching_In.
  pose proof (order_by_start_time_desc_perm matching) as Hperm.
  apply (Permutation_in _ Hperm) in Hm.
  unfold offset_rows. replace (Z.to_nat skip) with O by lia. rewrite drop_0.
  unfold limit_rows. destruct (limit <? 0) eqn:Hneg; [exact Hm |].
  rewrite firstn_all2; [exact Hm |].
  rewrite <- (Permutation_length Hperm).
  assert (Hlen : (length matching <= length (appointments db))%nat).
  { unfold matching, all.
    etransitivity; [apply filter_length_le |]. apply filter_length_le. }
  destruct Hlimit as [Hl | Hl]; [apply Z.ltb_ge in Hneg; lia | lia].
Qed.

End ReadFacts.

(** ** The body of [POST /appointments] *)

Section CreateBodyFacts.

(** X17. The validation of the body of a booking: a body for an at-home
    appointment that supplies [null] or the empty string as the address
    is refused with 422; every other body is accepted, an in-salon one
    whatever its address, and an at-home one that leaves the address out
    as well, with no address. The type is IN_SALON when the body does not
    name one. *)
Theorem parse_appointment_create_cases body :
  (CreateBody.appointment_type body = Some AT_HOME
   /\ (CreateBody.address body = Null \/ CreateBody.address body = Given "") ->
   parse_appointment_create body
   = HTTPException 422 "Address is required for at-home appointments")
  /\ (~ (CreateBody.appointment_type body = Some AT_HOME
         /\ (CreateBody.address body = Null \/ CreateBody.address body = Given "")) ->
      parse_appointment_create body
      = Ok (AppointmentCreate.mk (CreateBody.service_id body) (CreateBody.stylist_id body)
              (CreateBody.start_time body)
              (default IN_SALON (CreateBody.appointment_type body))
              (field_value (CreateBody.address body))
              (field_value (CreateBody.notes body)))).
Proof.
  destruct body as [service_id stylist_id start_time appointment_type address notes].
  simpl. split.
  - intros [-> [-> | ->]]; reflexivity.
  - intros Hn. unfold parse_appointment_create, validate_address. simpl.
    destruct address as [| | s]; simpl; [reflexivity | |].
    + destruct appointment_type as [[] |]; simpl; try reflexivity.
      exfalso. apply Hn. auto.
    + destruct appointment_type as [[] |]; simpl; try reflexivity.
      destruct (String.eqb s "") eqn:He; [| reflexivity].
      apply String.eqb_eq in He. subst s. exfalso. apply Hn. auto.
Qed.

End CreateBodyFacts.

(** ** More on [check_availability] *)

Section AvailabilityMore.

Variable py_int : string -> option Z.

Lemma slot_checked_weaken db stylist service_duration s work_end t :
  slot_checked db stylist service_duration (s + SLOT_STEP) work_end t ->
  slot_checked db stylist service_duration s work_end t.
Proof.
  unfold slot_checked. intros (H1 & H2 & (k & Hk & Hstart) & H4).
  split; [exact H1 |]. split; [exact H2 |]. split; [| exact H4].
  exists (k + 1). split; [lia |]. rewrite Hstart. ring.
Qed.

Lemma slot_loop_checked fuel db stylist service_duration work_end :
  forall slot_start available_slots out,
    slot_loop fuel db stylist service_duration work_end slot_start available_slots
    = Some (Ok out) ->
    exists new,
      out = available_slots ++ new
      /\ Forall (slot_checked db stylist service_duration slot_start work_end) new.
Proof.
  induction fuel as [| fuel IH]; intros slot_start available_slots out H;
    simpl in H; [discriminate |].
  destruct (Datetime.add slot_start service_duration) as [slot_end |] eqn:Hend;
    [| discriminate].
  destruct (slot_end <=? work_end) eqn:Hguard.
  2:{ injection H as <-. exists []. rewrite app_nil_r. split; [reflexivity | constructor]. }
  apply Z.leb_le in Hguard.
  destruct (Datetime.add slot_start SLOT_STEP) as [next |] eqn:Hnext; [| discriminate].
  apply add_Some in Hnext. subst next.
  apply IH in H. destruct H as (new & -> & Hnew).
  assert (Hnew' : Forall (slot_checked db stylist service_duration slot_start work_end) new).
  { eapply List.Forall_impl; [| exact Hnew]. intros t. apply slot_checked_weaken. }
  destruct (conflicting_appointment db (Stylist.id stylist) slot_start slot_end)
    eqn:Hconflict.
  - exists new. auto.
  - eexists (_ :: new). split; [now rewrite <- app_assoc |].
    constructor; [| exact Hnew'].
    unfold slot_checked. simpl. repeat split; auto.
    exists 0. split; [lia | ring].
Qed.

Lemma slot_loop_complete fuel db stylist service_duration work_end :
  forall slot_start available_slots out,
    slot_loop fuel db stylist service_duration work_end slot_start available_slots
    = Some (Ok out) ->
    forall k, 0 <= k ->
      slot_start + k * SLOT_STEP + service_duration <= work_end ->
      conflicting_appointment db (Stylist.id stylist) (slot_start + k * SLOT_STEP)
        (slot_start + k * SLOT_STEP + service_duration) = None ->
      In (TimeSlot.mk (slot_start + k * SLOT_STEP)
            (slot_start + k * SLOT_STEP + service_duration)
            (Stylist.id stylist) (Stylist.full_name stylist)) out.
Proof.
  induction fuel as [| fuel IH]; intros slot_start available_slots out H k Hk Hfit Hfree;
    simpl in H; [discriminate |].
  pose proof SLOT_STEP_pos as Hstep.
  destruct (Datetime.add slot_start service_duration) as [slot_end |] eqn:Hend;
    [| discriminate].
  apply add_Some in Hend. subst slot_end.
  destruct (slot_start + service_duration <=? work_end) eqn:Hguard.
  2:{ apply Z.leb_gt in Hguard. nia. }
  destruct (Datetime.add slot_start SLOT_STEP) as [next |] eqn:Hnext; [| discriminate].
  apply add_Some in Hnext. subst next.
  destruct (Z.eq_dec k 0) as [-> | Hk0].
  - replace (slot_start + 0 * SLOT_STEP) with slot_start in * by ring.
    rewrite Hfree in H. apply slot_loop_checked in H. destruct H as (new & -> & _).
    apply in_or_app. left. apply in_or_app. right. now left.
  - specialize (IH _ _ _ H (k - 1)).
    replace (slot_start + SLOT_STEP + (k - 1) * SLOT_STEP)
      with (slot_start + k * SLOT_STEP) in IH by ring.
    apply IH; [lia | assumption | assumption].
Qed.

Lemma block_loop_checked fuel db service date stylist :
  forall blocks available_slots out,
    block_loop py_int fuel db service date stylist blocks available_slots = Some (Ok out) ->
    Forall (fun b => block_bounds py_int date b <> None) blocks
    /\ exists new,
         out = available_slots ++ new
         /\ Forall (fun t => exists time_slot work_start work_end,
                      In time_slot blocks
                      /\ block_bounds py_int date time_slot = Some (work_start, work_end)
                      /\ slot_checked db stylist
                           (Service.duration_minutes service * Datetime.US_PER_MINUTE)
                           work_start work_end t) new.
Proof.
  induction blocks as [| time_slot rest IH]; intros available_slots out H; simpl in H.
  - injection H as <-. split; [constructor |]. exists []. rewrite app_nil_r.
    split; [reflexivity | constructor].
  - destruct (block_bounds py_int date time_slot) as [[work_start work_end] |] eqn:Hb;
      [| discriminate].
    destruct (Datetime.timedelta_minutes _) as [service_duration |] eqn:Hd;
      [| discriminate].
    apply timedelta_minutes_Some in Hd. subst service_duration.
    destruct (slot_loop _ _ _ _ _ _ _) as [[mid | |] |] eqn:Hloop; try discriminate.
    apply slot_loop_checked in Hloop. destruct Hloop as (new1 & -> & Hnew1).
    apply IH in H. destruct H as (Hparsed & new2 & -> & Hnew2). split.
    + constructor; [congruence | exact Hparsed].
    + exists (new1 ++ new2). split; [now rewrite app_assoc |].
      apply Forall_app. split.
      * eapply List.Forall_impl; [| exact Hnew1]. intros t Ht.
        exists time_slot, work_start, work_end. split; [now left | auto].
      * eapply List.Forall_impl; [| exact Hnew2]. intros t (ts & ws & we & Hin & Ht).
        exists ts, ws, we. split; [now right | auto].
Qed.

Lemma block_loop_complete fuel db service date stylist :
  forall blocks available_slots out,
    block_loop py_int fuel db service date stylist blocks available_slots = Some (Ok out) ->
    (forall t, In t available_slots -> In t out)
    /\ forall time_slot work_start work_end k,
         In time_slot blocks ->
         block_bounds py_int date time_slot = Some (work_start, work_end) ->
         0 <= k ->
         work_start + k * SLOT_STEP
         + Service.duration_minutes service * Datetime.US_PER_MINUTE <= work_end ->
         conflicting_appointment db (Stylist.id stylist) (work_start + k * SLOT_STEP)
           (work_start + k * SLOT_STEP
            + Service.duration_minutes service * Datetime.US_PER_MINUTE) = None ->
         In (TimeSlot.mk (work_start + k * SLOT_STEP)
               (work_start + k * SLOT_STEP
                + Service.duration_minutes service * Datetime.US_PER_MINUTE)
               (Stylist.id stylist) (Stylist.full_name stylist)) out.
Proof.
  induction blocks as [| time_slot rest IH]; intros available_slots out H; simpl in H.
  - injection H as <-. split; [auto |]. intros ? ? ? ? [].
  - destruct (block_bounds py_int date time_slot) as [[work_start work_end] |] eqn:Hb;
      [| discriminate].
    destruct (Datetime.timedelta_minutes _) as [service_duration |] eqn:Hd;
      [| discriminate].
    apply timedelta_minutes_Some in Hd. subst service_duration.
    destruct (slot_loop _ _ _ _ _ _ _) as [[mid | |] |] eqn:Hloop; try discriminate.
    pose proof (slot_loop_checked _ _ _ _ _ _ _ _ Hloop) as (new1 & Hmid & _).
    destruct (IH _ _ H) as [Hincl Hrest]. split.
    + intros t Ht. apply Hincl. subst mid. apply in_or_app. now left.
    + intros ts ws we k [<- | Hin] Hbounds Hk Hfit Hfree.
      * rewrite Hb in Hbounds. injection Hbounds as <- <-.
        apply Hincl. eapply slot_loop_complete; eauto.
      * eapply Hrest; eauto.
Qed.

Lemma stylist_loop_checked fuel db service date :
  forall candidates available_slots out,
    stylist_loop py_int fuel db service date candidates available_slots = Some (Ok out) ->
    exists new,
      out = available_slots ++ new
      /\ Forall (fun t => exists stylist,
                   In stylist candidates
                   /\ slot_offered py_int db service date stylist t) new.
Proof.
  induction candidates as [| stylist rest IH]; intros available_slots out H; simpl in H.
  - injection H as <-. exists []. rewrite app_nil_r. split; [reflexivity | constructor].
  - destruct (blocks_of_day stylist (Datetime.day_name date)) as [blocks |] eqn:Hblocks.
    + destruct (block_loop _ _ _ _ _ _ _ _) as [[mid | |] |] eqn:Hloop; try discriminate.
      apply block_loop_checked in Hloop. destruct Hloop as (Hparsed & new1 & -> & Hnew1).
      apply IH in H. destruct H as (new2 & -> & Hnew2).
      exists (new1 ++ new2). split; [now rewrite app_assoc |].
      apply Forall_app. split.
      * eapply List.Forall_impl; [| exact Hnew1].
        intros t (ts & ws & we & Hin & Hb & Ht).
        exists stylist. split; [now left |].
        exists blocks, ts, ws, we. auto.
      * eapply List.Forall_impl; [| exact Hnew2]. intros t (st & Hin & Ht).
        exists st. split; [now right | exact Ht].
    + apply IH in H. destruct H as (new & -> & Hnew). exists new. split; [reflexivity |].
      eapply List.Forall_impl; [| exact Hnew]. intros t (st & Hin & Ht).
      exists st. split; [now right | exact Ht].
Qed.

Lemma stylist_loop_complete fuel db service date :
  forall candidates available_slots out,
    stylist_loop py_int fuel db service date candidates available_slots = Some (Ok out) ->
    (forall t, In t available_slots -> In t out)
    /\ forall stylist blocks time_slot work_start work_end k,
         In stylist candidates ->
         blocks_of_day stylist (Datetime.day_name date) = Some blocks ->
         In time_slot blocks ->
         block_bounds py_int date time_slot = Some (work_start, work_end) ->
         0 <= k ->
         work_start + k * SLOT_STEP
         + Service.duration_minutes service * Datetime.US_PER_MINUTE <= work_end ->
         conflicting_appointment db (Stylist.id stylist) (work_start + k * SLOT_STEP)
           (work_start + k * SLOT_STEP
            + Service.duration_minutes service * Datetime.US_PER_MINUTE) = None ->
         In (TimeSlot.mk (work_start + k * SLOT_STEP)
               (work_start + k * SLOT_STEP
                + Service.duration_minutes service * Datetime.US_PER_MINUTE)
               (Stylist.id stylist) (Stylist.full_name stylist)) out.
Proof.
  induction candidates as [| stylist rest IH]; intros available_slots out H; simpl in H.
  - injection H as <-. split; [auto |]. intros ? ? ? ? ? ? [].
  - destruct (blocks_of_day stylist (Datetime.day_name date)) as [blocks |] eqn:Hblocks.
    + destruct (block_loop _ _ _ _ _ _ _ _) as [[mid | |] |] eqn:Hloop; try discriminate.
      destruct (block_loop_complete _ _ _ _ _ _ _ _ Hloop) as [Hincl1 Hblock].
      destruct (IH _ _ H) as [Hincl2 Hrest]. split.
      * intros t Ht. auto.
      * intros st bl ts ws we k [<- | Hin] Hbl Hts Hb Hk Hfit Hfree.
        -- rewrite Hblocks in Hbl. injection Hbl as <-.
           apply Hincl2. eapply Hblock; eauto.
        -- eapply Hrest; eauto.
    + destruct (IH _ _ H) as [Hincl Hrest]. split; [exact Hincl |].
      intros st bl ts ws we k [<- | Hin] Hbl Hts Hb Hk Hfit Hfree.
      * congruence.
      * eapply Hrest; eauto.
Qed.

Lemma candidate_stylists_facts db service_id stylist_id stylist :
  In stylist (candidate_stylists db service_id stylist_id) <->
  In stylist (stylists db)
  /\ Stylist.is_active stylist = true
  /\ In service_id (Stylist.services stylist)
  /\ (forall n, stylist_id = Some n -> n <> 0 -> Stylist.id stylist = n).
Proof.
  assert (Hoffers : existsb (Z.eqb service_id) (Stylist.services stylist) = true
                    <-> In service_id (Stylist.services stylist)).
  { rewrite existsb_exists. split.
    - intros (x & Hx & Heq). apply Z.eqb_eq in Heq. now subst.
    - intros Hin. exists service_id. split; [exact Hin | apply Z.eqb_refl]. }
  unfold candidate_stylists, all.
  destruct stylist_id as [n |]; simpl.
  - destruct (n =? 0) eqn:Hn; simpl.
    + apply Z.eqb_eq in Hn. subst n. rewrite filter_In, andb_true_iff, Hoffers.
      split; [intros (H1 & H2 & H3) | intros (H1 & H2 & H3 & _)]; repeat split; auto.
      intros n [= <-] Hne. contradiction.
    + apply Z.eqb_neq in Hn. rewrite !filter_In, andb_true_iff, Hoffers, Z.eqb_eq.
      split.
      * intros ((H1 & H2 & H3) & H4). repeat split; auto. intros m [= <-] _. exact H4.
      * intros (H1 & H2 & H3 & H4). repeat split; auto.
  - rewrite filter_In, andb_true_iff, Hoffers.
    split; [intros (H1 & H2 & H3) | intros (H1 & H2 & H3 & _)]; repeat split; auto.
    discriminate.
Qed.

Lemma check_availability_offered fuel db service_id date stylist_id slots t :
  check_availability py_int fuel db service_id date stylist_id = Some (Ok slots) ->
  In t slots ->
  exists service stylist,
    first (fun s => (Service.id s =? service_id) && Service.is_active s) (services db)
    = Some service
    /\ In stylist (candidate_stylists db service_id stylist_id)
    /\ slot_offered py_int db service date stylist t.
Proof.
  unfold check_availability. intros H Ht.
  destruct (first _ (services db)) as [service |] eqn:Hservice; [| discriminate].
  destruct (candidate_stylists db service_id stylist_id) as [| st rest] eqn:Hc.
  - injection H as <-. contradiction.
  - apply stylist_loop_checked in H. destruct H as (new & -> & Hnew).
    simpl in Ht. rewrite List.Forall_forall in Hnew.
    destruct (Hnew t Ht) as (stylist & Hin & Hoff).
    exists service, stylist. auto.
Qed.

(** X18. Every slot in the answer of [check_availability] belongs to an
    active stylist of the table that offers the service, the requested
    one when a stylist id other than 0 is given; it starts a whole number
    of 30-minute steps after the start of one of the stylist's blocks of
    the day, lasts exactly the duration of the service, ends within that
    block, and the conflict query for it found nothing. *)
Theorem check_availability_sound fuel db service_id date stylist_id slots t :
  check_availability py_int fuel db service_id date stylist_id = Some (Ok slots) ->
  In t slots ->
  exists service stylist blocks time_slot work_start work_end k,
    first (fun s => (Service.id s =? service_id) && Service.is_active s) (services db)
    = Some service
    /\ In stylist (stylists db)
    /\ Stylist.is_active stylist = true
    /\ In service_id (Stylist.services stylist)
    /\ (forall n, stylist_id = Some n -> n <> 0 -> TimeSlot.stylist_id t = n)
    /\ TimeSlot.stylist_id t = Stylist.id stylist
    /\ TimeSlot.stylist_name t = Stylist.full_name stylist
    /\ blocks_of_day stylist (Datetime.day_name date) = Some blocks
    /\ In time_slot blocks
    /\ block_bounds py_int date time_slot = Some (work_start, work_end)
    /\ 0 <= k
    /\ TimeSlot.start_time t = work_start + k * SLOT_STEP
    /\ TimeSlot.end_time t
       = TimeSlot.start_time t + Service.duration_minutes service * Datetime.US_PER_MINUTE
    /\ TimeSlot.end_time t <= work_end
    /\ conflicting_appointment db (Stylist.id stylist)
         (TimeSlot.start_time t) (TimeSlot.end_time t) = None.
Proof.
  intros H Ht.
  destruct (check_availability_offered _ _ _ _ _ _ _ H Ht)
    as (service & stylist & Hservice & Hcand & Hoff).
  apply candidate_stylists_facts in Hcand. destruct Hcand as (Hin & Hact & Hoffers & Hid).
  destruct Hoff as (blocks & ts & ws & we & Hblocks & _ & Hts & Hb & Hchecked).
  destruct Hchecked as (Hsid & Hname & (k & Hk & Hstart) & Hend & Hle & Hfree).
  apply add_Some in Hend.
  exists service, stylist, blocks, ts, ws, we, k.
  repeat split; auto.
  intros n Hn Hne. rewrite Hsid. now apply Hid.
Qed.

(** X19. The other way round: for a candidate stylist of the call and a
    block that the stylist has for the day, every start that lies a whole
    number of 30-minute steps after the start of the block, whose slot
    ends within the block and for which the conflict query finds nothing,
    is in the answer. *)
Theorem check_availability_complete
    fuel db service_id date stylist_id slots service stylist blocks time_slot
    work_start work_end k :
  check_availability py_int fuel db service_id date stylist_id = Some (Ok slots) ->
  first (fun s => (Service.id s =? service_id) && Service.is_active s) (services db)
  = Some service ->
  In stylist (candidate_stylists db service_id stylist_id) ->
  blocks_of_day stylist (Datetime.day_name date) = Some blocks ->
  In time_slot blocks ->
  block_bounds py_int date time_slot = Some (work_start, work_end) ->
  0 <= k ->
  work_start + k * SLOT_STEP
  + Service.duration_minutes service * Datetime.US_PER_MINUTE <= work_end ->
  conflicting_appointment db (Stylist.id stylist) (work_start + k * SLOT_STEP)
    (work_start + k * SLOT_STEP
     + Service.duration_minutes service * Datetime.US_PER_MINUTE) = None ->
  In (TimeSlot.mk (work_start + k * SLOT_STEP)
        (work_start + k * SLOT_STEP
         + Service.duration_minutes service * Datetime.US_PER_MINUTE)
        (Stylist.id stylist) (Stylist.full_name stylist)) slots.
Proof.
  unfold check_availability. intros H Hservice Hcand Hblocks Hts Hb Hk Hfit Hfree.
  rewrite Hservice in H.
  destruct (candidate_stylists db service_id stylist_id) as [| st rest] eqn:Hc;
    [contradiction |].
  destruct (stylist_loop_complete _ _ _ _ _ _ _ H) as [_ Hall].
  eapply Hall; eauto.
Qed.

(** *** The order of the answer *)

(** One run of the [while] loop adds the slots of its block, in their
    order. *)
Lemma slot_loop_slots fuel db stylist service_duration work_end :
  forall slot_start available_slots out,
    slot_loop fuel db stylist service_duration work_end slot_start available_slots
    = Some (Ok out) ->
    exists new,
      out = available_slots ++ new
      /\ slots_of_block db stylist service_duration slot_start work_end new.
Proof.
  induction fuel as [| fuel IH]; intros slot_start available_slots out H;
    simpl in H; [discriminate |].
  pose proof SLOT_STEP_pos as Hstep.
  destruct (Datetime.add slot_start service_duration) as [slot_end |] eqn:Hend;
    [| discriminate].
  apply add_Some in Hend. subst slot_end.
  destruct (slot_start + service_duration <=? work_end) eqn:Hguard.
  2:{ injection H as <-. apply Z.leb_gt in Hguard. exists []. rewrite app_nil_r.
      split; [reflexivity |]. split; [constructor |].
      intros t. split; [intros [] |]. intros (k & Hk & _ & Hfit & _). nia. }
  apply Z.leb_le in Hguard.
  destruct (Datetime.add slot_start SLOT_STEP) as [next |] eqn:Hnext; [| discriminate].
  apply add_Some in Hnext. subst next.
  apply IH in H. destruct H as (new & Hout & Hsorted & Hmem).
  assert (Hshift : forall t,
             In t new <->
             exists k,
               1 <= k
               /\ t = TimeSlot.mk (slot_start + k * SLOT_STEP)
                                  (slot_start + k * SLOT_STEP + service_duration)
                                  (Stylist.id stylist) (Stylist.full_name stylist)
               /\ slot_start + k * SLOT_STEP + service_duration <= work_end
               /\ conflicting_appointment db (Stylist.id stylist)
                    (slot_start + k * SLOT_STEP)
                    (slot_start + k * SLOT_STEP + service_duration) = None).
  { intros t. split.
    - intros Ht. apply Hmem in Ht. destruct Ht as (k & Hk & Ht & Hfit & Hfree).
      exists (k + 1).
      replace (slot_start + (k + 1) * SLOT_STEP)
        with (slot_start + SLOT_STEP + k * SLOT_STEP) by ring.
      split; [lia | auto].
    - intros (k & Hk & Ht & Hfit & Hfree). apply Hmem. exists (k - 1).
      replace (slot_start + SLOT_STEP + (k - 1) * SLOT_STEP)
        with (slot_start + k * SLOT_STEP) by ring.
      split; [lia | auto]. }
  clear Hmem.
  destruct (conflicting_appointment db (Stylist.id stylist) slot_start
              (slot_start + service_duration)) as [conflicting |] eqn:Hconflict.
  - exists new. split; [exact Hout |]. split; [exact Hsorted |].
    intros t. split.
    + intros Ht. apply Hshift in Ht. destruct Ht as (k & Hk & Ht).
      exists k. split; [lia | exact Ht].
    + intros (k & Hk & Ht & Hfit & Hfree). apply Hshift.
      destruct (Z.eq_dec k 0) as [-> | Hk0].
      * exfalso. replace (slot_start + 0 * SLOT_STEP) with slot_start in Hfree by ring.
        congruence.
      * exists k. split; [lia | auto].
  - exists (TimeSlot.mk slot_start (slot_start + service_duration) (Stylist.id stylist)
                        (Stylist.full_name stylist) :: new).
    split; [rewrite Hout; now rewrite <- app_assoc |]. split.
    + constructor; [| exact Hsorted].
      apply List.Forall_forall. intros t Ht. apply Hshift in Ht.
      destruct Ht as (k & Hk & -> & _). simpl. nia.
    + intros t. simpl. split.
      * intros [<- | Ht].
        -- exists 0. replace (slot_start + 0 * SLOT_STEP) with slot_start by ring.
           repeat split; auto; lia.
        -- apply Hshift in Ht. destruct Ht as (k & Hk & Ht).
           exists k. split; [lia | exact Ht].
      * intros (k & Hk & Ht & Hfit & Hfree).
        destruct (Z.eq_dec k 0) as [-> | Hk0].
        -- left. rewrite Ht.
           replace (slot_start + 0 * SLOT_STEP) with slot_start by ring. reflexivity.
        -- right. apply Hshift. exists k. split; [lia | auto].
Qed.

(** The loop over the blocks adds one such list per block, in the order of
    the blocks. *)
Lemma block_loop_slots fuel db service date stylist :
  forall blocks available_slots out,
    block_loop py_int fuel db service date stylist blocks available_slots = Some (Ok out) ->
    exists per_block,
      out = available_slots ++ concat per_block
      /\ slots_by_block py_int db service date stylist blocks per_block.
Proof.
  unfold slots_by_block.
  induction blocks as [| time_slot rest IH]; intros available_slots out H; simpl in H.
  - injection H as <-. exists []. simpl. rewrite app_nil_r.
    split; [reflexivity | constructor].
  - destruct (block_bounds py_int date time_slot) as [[work_start work_end] |] eqn:Hb;
      [| discriminate].
    destruct (Datetime.timedelta_minutes _) as [service_duration |] eqn:Hd;
      [| discriminate].
    apply timedelta_minutes_Some in Hd. subst service_duration.
    destruct (slot_loop _ _ _ _ _ _ _) as [[mid | |] |] eqn:Hloop; try discriminate.
    apply slot_loop_slots in Hloop. destruct Hloop as (new1 & -> & Hnew1).
    apply IH in H. destruct H as (per_block & -> & Hrest).
    exists (new1 :: per_block). simpl. split; [now rewrite app_assoc |].
    constructor; [| exact Hrest]. exists work_start, work_end. auto.
Qed.

(** The loop over the stylists adds one group per stylist, in the order of
    the stylists: nothing for a stylist that is skipped, and the lists of
    the blocks of the day, one after the other, for the others. *)
Lemma stylist_loop_slots fuel db service date :
  forall candidates available_slots out,
    stylist_loop py_int fuel db service date candidates available_slots = Some (Ok out) ->
    exists groups,
      out = available_slots ++ concat groups
      /\ Forall2
           (fun stylist group =>
              group_of_stylist py_int db service date stylist group
              /\ (blocks_of_day stylist (Datetime.day_name date) = None -> group = [])
              /\ (forall blocks,
                    blocks_of_day stylist (Datetime.day_name date) = Some blocks ->
                    exists per_block,
                      group = concat per_block
                      /\ slots_by_block py_int db service date stylist blocks per_block))
           candidates groups.
Proof.
  induction candidates as [| stylist rest IH]; intros available_slots out H; simpl in H.
  - injection H as <-. exists []. simpl. rewrite app_nil_r. split; [reflexivity | constructor].
  - destruct (blocks_of_day stylist (Datetime.day_name date)) as [blocks |] eqn:Hblocks.
    + destruct (block_loop _ _ _ _ _ _ _ _) as [[mid | |] |] eqn:Hloop; try discriminate.
      pose proof (block_loop_slots _ _ _ _ _ _ _ _ Hloop) as (per_block & Hmid & Hper).
      apply block_loop_spec in Hloop. destruct Hloop as (new & -> & Hnew & Hsorted).
      apply app_inv_head in Hmid. subst new.
      apply IH in H. destruct H as (groups & -> & Hgroups).
      exists (concat per_block :: groups). simpl. split; [now rewrite app_assoc |].
      constructor; [| exact Hgroups]. split; [| split].
      * split.
        -- eapply List.Forall_impl; [| exact Hnew]. intros t Ht. exists blocks. auto.
        -- intros Hdur Hasc. apply Hsorted; [exact Hdur | now apply Hasc].
      * rewrite Hblocks. discriminate.
      * rewrite Hblocks. intros blocks' [= <-]. eauto.
    + apply IH in H. destruct H as (groups & -> & Hgroups).
      exists ([] :: groups). simpl. split; [reflexivity |].
      constructor; [| exact Hgroups]. split; [| split].
      * split; [constructor | intros _ _; constructor].
      * reflexivity.
      * rewrite Hblocks. discriminate.
Qed.

(** C8, as the code has it. The answer of [check_availability] is the
    concatenation of one group per stylist, in the order of the stylists
    that the query returned; every slot of a group carries the id and the
    name of its stylist. The group of a stylist that is skipped is empty;
    the group of a stylist with blocks for the day is the concatenation of
    one list per block, in the order in which the blocks are stored, and
    the list of a block holds, in strictly ascending order of start time,
    exactly the slots of that block for which the conflict query finds
    nothing. The blocks are not sorted; so a group is in ascending order
    of start time when the duration of the service is not negative and the
    blocks that the stylist has for the day are stored in ascending order
    without overlap. *)
Theorem check_availability_order fuel db service_id date stylist_id slots :
  check_availability py_int fuel db service_id date stylist_id = Some (Ok slots) ->
  exists service groups,
    first (fun s => (Service.id s =? service_id) && Service.is_active s) (services db)
    = Some service
    /\ slots = concat groups
    /\ Forall2
         (fun stylist group =>
            Forall (fun t => TimeSlot.stylist_id t = Stylist.id stylist
                             /\ TimeSlot.stylist_name t = Stylist.full_name stylist) group
            /\ (blocks_of_day stylist (Datetime.day_name date) = None -> group = [])
            /\ (forall blocks,
                  blocks_of_day stylist (Datetime.day_name date) = Some blocks ->
                  exists per_block,
                    group = concat per_block
                    /\ slots_by_block py_int db service date stylist blocks per_block)
            /\ (0 <= Service.duration_minutes service ->
                (forall blocks,
                    blocks_of_day stylist (Datetime.day_name date) = Some blocks ->
                    blocks_ascending py_int date blocks) ->
                starts_ascending group))
         (candidate_stylists db service_id stylist_id) groups.
Proof.
  unfold check_availability. intros H.
  destruct (first _ (services db)) as [service |] eqn:Hservice; [| discriminate].
  exists service.
  assert (Hgroups : exists groups,
             slots = concat groups
             /\ Forall2
                  (fun stylist group =>
                     group_of_stylist py_int db service date stylist group
                     /\ (blocks_of_day stylist (Datetime.day_name date) = None -> group = [])
                     /\ (forall blocks,
                           blocks_of_day stylist (Datetime.day_name date) = Some blocks ->
                           exists per_block,
                             group = concat per_block
                             /\ slots_by_block py_int db service date stylist blocks
                                  per_block))
                  (candidate_stylists db service_id stylist_id) groups).
  { destruct (candidate_stylists db service_id stylist_id) as [| stylist rest] eqn:Hc.
    - injection H as <-. exists []. split; [reflexivity | constructor].
    - apply stylist_loop_slots in H. destruct H as (groups & -> & Hgroups).
      exists groups. auto. }
  destruct Hgroups as (groups & -> & Hgroups).
  exists groups. split; [reflexivity |]. split; [reflexivity |].
  eapply Forall2_impl; [exact Hgroups |].
  intros stylist group ([Hg Hsorted] & Hnone & Hsome).
  split; [| split; [exact Hnone | split; [exact Hsome | exact Hsorted]]].
  eapply List.Forall_impl; [| exact Hg].
  intros t (blocks & _ & ts & ws & we & _ & _ & Hid & Hname & _). auto.
Qed.

End AvailabilityMore.

(** ** Offered slots and accepted bookings *)

Section OfferedAndAccepted.

Variable py_int : string -> option Z.









End OfferedAndAccepted.

(** ** Histories that follow the life cycle *)

Section LifecycleFacts.

Variable py_int : string -> option Z.







End LifecycleFacts.

(** ** The further properties on concrete inputs *)

Section MoreScenarios.
Import Scenario.

Example db1_is_booked :
  create_appointment decimal_int db0 (book 1 1 10 0) client = (db1, Ok pending_10).
Proof. vm_compute. reflexivity. Qed.

Example availability_after_booking :
  check_availability decimal_int 10 db1 1 (at_time monday 0 0) (Some 1)
  = Some (Ok monday_slots_after).
Proof. vm_compute. reflexivity. Qed.

(** The table of two bookings back to back has distinct ids and no double
    booking. *)
Lemma db2_ids_unique : appointment_ids_unique db2.
Proof.
  unfold appointment_ids_unique. simpl.
  constructor; [intros [H | []]; discriminate H |].
  constructor; [intros [] | constructor].
Qed.

Lemma db2_no_double_booking : no_double_booking db2.
Proof.
  unfold no_double_booking. simpl.
  constructor; [| constructor; constructor].
  constructor; [| constructor]. intros _ _ _. reflexivity.
Qed.


(** Every request of that history is answered with an appointment, and at
    the end the first booking is CONFIRMED, the second CANCELLED and paid,
    and the third, which overlaps the second, PENDING. *)
Example two_bookings_history_served :
  Forall (fun r => exists a, r = Ok a)
         (snd (serve_all decimal_int db0 two_bookings_history))
  /\ List.map (fun a => (Appointment.id a, Appointment.status a, Appointment.is_paid a))
              (appointments (fst (serve_all decimal_int db0 two_bookings_history)))
     = [(Some 1, CONFIRMED, false); (Some 2, CANCELLED, true); (Some 3, PENDING, false)].
Proof.
  split.
  - vm_compute. repeat constructor; eexists; reflexivity.
  - vm_compute. reflexivity.
Qed.

(** The empty dictionary of working hours is no check either: Dora has
    one, and a haircut with her at three in the morning is accepted. *)
Example empty_working_hours_accepted :
  Stylist.working_hours dora = Some ∅
  /\ exists db' a,
       create_appointment decimal_int db_dora (book 1 4 3 0) client = (db', Ok a)
       /\ In a (appointments db').
Proof.
  split; [reflexivity |]. do 2 eexists. split; [vm_compute; reflexivity |].
  left. reflexivity.
Qed.

Lemma create_appointment_outside_working_hours_witness :
  (exists detail,
      create_appointment decimal_int db0 (book 1 1 13 0) client
      = (db0, HTTPException 400 detail))
  /\ (exists r a,
        create_appointment decimal_int db_dora (book 1 4 3 0) client
        = (set_appointments (appointments db_dora ++ [a]) db_dora, r)
        /\ (r = Ok a \/ r = Raised)
        /\ Appointment.start_time a = at_time monday 3 0).
Proof.
  split.
  - assert (Hne : ({[ "monday" := [block "09:00" "13:00"; block "14:00" "18:00"] ]}
                   : gmap string (list (gmap string string))) <> ∅).
    { apply map_non_empty_singleton. }
    assert (Hblocks : forall blocks time_slot,
               ({[ "monday" := [block "09:00" "13:00"; block "14:00" "18:00"] ]}
                : gmap string (list (gmap string string)))
                 !! Datetime.day_name (AppointmentCreate.start_time (book 1 1 13 0))
               = Some blocks ->
               In time_slot blocks ->
               exists work_start work_end,
                 block_bounds decimal_int (AppointmentCreate.start_time (book 1 1 13 0))
                              time_slot = Some (work_start, work_end)
                 /\ Interval.contains work_start work_end
                      (AppointmentCreate.start_time (book 1 1 13 0))
                      (at_time monday 14 0) = false).
    { intros blocks time_slot Hday Hin.
      replace (Datetime.day_name (AppointmentCreate.start_time (book 1 1 13 0)))
        with "monday" in Hday by (vm_compute; reflexivity).
      rewrite lookup_singleton_eq in Hday. injection Hday as <-.
      destruct Hin as [<- | [<- | []]]; do 2 eexists;
        (split; [vm_compute; reflexivity |]); vm_compute; reflexivity. }
    destruct (proj2 (create_appointment_outside_working_hours decimal_int db0
                       (book 1 1 13 0) client haircut anna (60 * Datetime.US_PER_MINUTE)
                       (at_time monday 14 0)
                       eq_refl eq_refl eq_refl eq_refl eq_refl eq_refl eq_refl)
                    {[ "monday" := [block "09:00" "13:00"; block "14:00" "18:00"] ]}
                    eq_refl Hne Hblocks)
      as (detail & H & _).
    exists detail. exact H.
  - destruct (proj1 (create_appointment_outside_working_hours decimal_int db_dora
                       (book 1 4 3 0) client haircut dora (60 * Datetime.US_PER_MINUTE)
                       (at_time monday 4 0)
                       eq_refl eq_refl eq_refl eq_refl eq_refl eq_refl eq_refl)
                    (or_intror eq_refl))
      as (r & a & H & Hr & _ & Hstart & _).
    exists r, a. auto.
Defined.


Lemma update_appointment_status_applies_witness :
  exists db' r a',
    appointment_by_id (fst (serve_all decimal_int db0 completed_history)) 1
    = Some (booking 1 10 COMPLETED)
    /\ update_appointment_status (fst (serve_all decimal_int db0 completed_history)) 1
         (AppointmentStatusUpdate.mk PENDING None) owner
       = (db', r)
    /\ (r = Ok a' \/ r = Raised)
    /\ Appointment.status a' = PENDING
    /\ appointment_by_id db' 1 = Some a'.
Proof.
  assert (Ha : appointment_by_id (fst (serve_all decimal_int db0 completed_history)) 1
               = Some (booking 1 10 COMPLETED)) by (vm_compute; reflexivity).
  destruct (proj1 (proj2 (update_appointment_status_applies
                            (fst (serve_all decimal_int db0 completed_history)) 1
                            (AppointmentStatusUpdate.mk PENDING None) owner)
                         (booking 1 10 COMPLETED) Ha))
    as (db' & r & a' & H & Hr & Hstatus & Hstored).
  { right. right. left. split; [reflexivity |].
    exists anna, (Salon.mk 1 10).
    split; [vm_compute; reflexivity |]. split; [vm_compute; reflexivity | reflexivity]. }
  exists db', r, a'. auto.
Defined.

Lemma check_availability_order_witness :
  (check_availability decimal_int 10 db0 1 (at_time monday 0 0) (Some 1)
   = Some (Ok monday_slots)
   /\ starts_ascending monday_slots)
  /\ exists slots first_block second_block,
       check_availability decimal_int 10 db0 1 (at_time monday 0 0) (Some 2)
       = Some (Ok slots)
       /\ slots = first_block ++ second_block
       /\ In (TimeSlot.mk (at_time monday 14 0) (at_time monday 15 0) 2 "Bea") first_block
       /\ Forall (fun t => at_time monday 14 0 <= TimeSlot.start_time t) first_block
       /\ In (TimeSlot.mk (at_time monday 9 0) (at_time monday 10 0) 2 "Bea") second_block
       /\ Forall (fun t => TimeSlot.end_time t <= at_time monday 10 0) second_block.
Proof.
  split.
  - split; [vm_compute; reflexivity |].
    destruct (check_availability_order decimal_int 10 db0 1 (at_time monday 0 0)
                (Some 1) monday_slots ltac:(vm_compute; reflexivity))
      as (service & groups & Hservice & Hconcat & Hgroups).
    replace (candidate_stylists db0 1 (Some 1)) with [anna] in Hgroups by reflexivity.
    inversion Hgroups as [| stylist group rest groups' (_ & _ & _ & Hsorted) Hrest]; subst.
    inversion Hrest; subst. simpl in Hconcat. rewrite app_nil_r in Hconcat. subst group.
    apply Hsorted.
    + injection Hservice as <-. discriminate.
    + intros blocks Hblocks.
      replace (Datetime.day_name (at_time monday 0 0)) with "monday" in Hblocks
        by (vm_compute; reflexivity).
      unfold blocks_of_day, anna in Hblocks. simpl in Hblocks.
      rewrite bool_decide_eq_false_2 in Hblocks by apply map_non_empty_singleton.
      rewrite lookup_singleton_eq in Hblocks. injection Hblocks as <-.
      repeat constructor.
      intros s1 e1 s2 e2 H1 H2. vm_compute in H1, H2.
      injection H1 as <- <-. injection H2 as <- <-. discriminate.
  - destruct (check_availability decimal_int 10 db0 1 (at_time monday 0 0) (Some 2))
      as [[slots | |] |] eqn:H; try (vm_compute in H; discriminate H).
    destruct (check_availability_order decimal_int 10 db0 1 (at_time monday 0 0)
                (Some 2) slots H)
      as (service & groups & Hservice & Hconcat & Hgroups).
    injection Hservice as <-.
    replace (candidate_stylists db0 1 (Some 2)) with [bea] in Hgroups by reflexivity.
    inversion Hgroups as [| stylist group rest groups' (_ & _ & Hblocks & _) Hrest]; subst.
    inversion Hrest; subst. simpl. rewrite app_nil_r.
    destruct (Hblocks [block "14:00" "15:00"; block "09:00" "10:00"])
      as (per_block & -> & Hper).
    { replace (Datetime.day_name (at_time monday 0 0)) with "monday"
        by (vm_compute; reflexivity).
      unfold blocks_of_day, bea. simpl.
      rewrite bool_decide_eq_false_2 by apply map_non_empty_singleton.
      apply lookup_singleton_eq. }
    unfold slots_by_block in Hper.
    inversion Hper as [| b1 l1 bs1 ls1 (ws1 & we1 & Hb1 & Hsorted1 & Hmem1) Hper']; subst.
    inversion Hper' as [| b2 l2 bs2 ls2 (ws2 & we2 & Hb2 & Hsorted2 & Hmem2) Hper'']; subst.
    inversion Hper''; subst.
    vm_compute in Hb1. injection Hb1 as <- <-.
    vm_compute in Hb2. injection Hb2 as <- <-.
    pose proof SLOT_STEP_pos as Hstep.
    exists (l1 ++ l2), l1, l2.
    split; [simpl; rewrite !app_nil_r; reflexivity |]. split; [reflexivity |].
    split; [| split; [| split]].
    + apply Hmem1. exists 0. split; [lia |]. split; [vm_compute; reflexivity |].
      split; [vm_compute; discriminate | vm_compute; reflexivity].
    + apply List.Forall_forall. intros t Ht. apply Hmem1 in Ht.
      destruct Ht as (k & Hk & -> & _). simpl. unfold at_time, monday.
      unfold Datetime.US_PER_DAY, Datetime.US_PER_HOUR, Datetime.US_PER_MINUTE. nia.
    + apply Hmem2. exists 0. split; [lia |]. split; [vm_compute; reflexivity |].
      split; [vm_compute; discriminate | vm_compute; reflexivity].
    + apply List.Forall_forall. intros t Ht. apply Hmem2 in Ht.
      destruct Ht as (k & Hk & -> & Hfit & _). simpl.
      unfold at_time, monday, haircut in *. simpl in Hfit.
      unfold Datetime.US_PER_DAY, Datetime.US_PER_HOUR, Datetime.US_PER_MINUTE in *. lia.
Defined.

Lemma conflicting_appointment_None_iff_witness :
  at_time monday 11 0 < at_time monday 12 0
  /\ conflicting_appointment db1 1 (at_time monday 11 0) (at_time monday 12 0) = None.
Proof.
  split; [reflexivity |].
  apply (conflicting_appointment_None_iff db1 1 (at_time monday 11 0) (at_time monday 12 0)).
  - reflexivity.
  - intros a [<- | []] _ _. reflexivity.
  - intros a [<- | []] _ _. left. vm_compute. discriminate.
Defined.

Lemma create_appointment_overlap_refused_witness :
  Interval.overlaps (Appointment.start_time pending_10) (Appointment.end_time pending_10)
    (at_time monday 10 30) (at_time monday 11 30) = true
  /\ create_appointment decimal_int db1 (book 1 1 10 30) client
     = (db1, HTTPException 400 "Time slot is not available").
Proof.
  split; [reflexivity |].
  apply (create_appointment_overlap_refused decimal_int db1 (book 1 1 10 30) client
           haircut anna (60 * Datetime.US_PER_MINUTE) (at_time monday 11 30) pending_10);
    try reflexivity.
  - left. reflexivity.
  - now left.
Defined.



Lemma create_appointment_frame_witness :
  exists db' a,
    create_appointment decimal_int db0 (at_home_no_address 2 1 10 0) client = (db', Raised)
    /\ stylists db' = stylists db0
    /\ appointments db' = appointments db0 ++ [a]
    /\ Appointment.start_time a = at_time monday 10 0
    /\ Appointment.status a = PENDING.
Proof.
  destruct (create_appointment decimal_int db0 (at_home_no_address 2 1 10 0) client)
    as [db' r] eqn:H.
  destruct (new_appointment decimal_int db0 (at_home_no_address 2 1 10 0) client)
    as [row | c d |] eqn:Hrow; [| vm_compute in Hrow; discriminate Hrow ..].
  destruct (create_appointment_frame decimal_int _ _ _ _ _ H) as (_ & _ & Hst & _ & Hlast).
  destruct (Hlast row eq_refl Hrow eq_refl (or_introl eq_refl))
    as (-> & a & Happ & Hstart & Hstatus).
  exists db', a. auto.
Defined.

Lemma update_appointment_status_authorized_witness :
  exists db' a',
    update_appointment_status db1 1
      (AppointmentStatusUpdate.mk CANCELLED (Some "Cancelled by client")) client
    = (db', Ok a')
    /\ exists a, appointment_by_id db1 1 = Some a
                 /\ Appointment.client_id a = User.id client.
Proof.
  do 2 eexists.
  assert (H : update_appointment_status db1 1
                (AppointmentStatusUpdate.mk CANCELLED (Some "Cancelled by client")) client
              = (_, Ok _)) by reflexivity.
  split; [exact H |].
  destruct (update_appointment_status_authorized _ _ _ _ _ _ H) as (a & Ha & Hclient & _).
  exists a. split; [exact Ha |]. now apply Hclient.
Defined.

Lemma update_appointment_status_frame_witness :
  exists db' a',
    update_appointment_status db2 2
      (AppointmentStatusUpdate.mk CANCELLED (Some "Cancelled by client")) client
    = (db', Ok a')
    /\ Appointment.status a' = CANCELLED
    /\ Appointment.cancellation_reason a' = Some "Cancelled by client"
    /\ Appointment.start_time a' = at_time monday 11 0
    /\ appointments db' = [pending_10; a'].
Proof.
  do 2 eexists.
  assert (H : update_appointment_status db2 2
                (AppointmentStatusUpdate.mk CANCELLED (Some "Cancelled by client")) client
              = (_, Ok _)) by reflexivity.
  split; [exact H |].
  destruct (update_appointment_status_frame _ _ _ _ _ _ H)
    as (a & Ha & Hstatus & Hreason & _ & _ & _ & _ & Hstart & _ & _ & _ & _ & _ & _ & _
        & _ & _ & Hrows & _).
  injection Ha as <-.
  split; [exact Hstatus |]. split; [exact Hreason |]. split; [exact Hstart |]. exact Hrows.
Defined.

Lemma update_appointment_status_no_double_booking_witness :
  exists db' a',
    update_appointment_status db2 1 (AppointmentStatusUpdate.mk CONFIRMED None) anna_user
    = (db', Ok a')
    /\ length (appointments db') = 2%nat
    /\ appointment_ids_unique db2
    /\ no_double_booking db2
    /\ no_double_booking db'.
Proof.
  do 2 eexists.
  assert (H : update_appointment_status db2 1
                (AppointmentStatusUpdate.mk CONFIRMED None) anna_user
              = (_, Ok _)) by reflexivity.
  split; [exact H |]. split; [reflexivity |].
  split; [exact db2_ids_unique |]. split; [exact db2_no_double_booking |].
  exact (update_appointment_status_no_double_booking _ _ _ _ _ _ pending_10 H eq_refl
           (or_intror (conj db2_ids_unique eq_refl)) db2_no_double_booking).
Defined.

Lemma parse_status_update_cases_witness :
  parse_status_update (StatusBody.mk CANCELLED (Given ""))
  = HTTPException 422 "Cancellation reason is required when cancelling an appointment"
  /\ parse_status_update (StatusBody.mk CONFIRMED Null)
     = Ok (AppointmentStatusUpdate.mk CONFIRMED None).
Proof.
  split.
  - apply (proj1 (parse_status_update_cases (StatusBody.mk CANCELLED (Given "")))).
    simpl. auto.
  - apply (proj2 (parse_status_update_cases (StatusBody.mk CONFIRMED Null))).
    simpl. intros [H _]. discriminate H.
Defined.

Lemma update_appointment_payment_effect_witness :
  exists db' a',
    update_appointment_payment db2 2 (AppointmentPaymentUpdate.mk true) owner
    = (db', Ok a')
    /\ Appointment.is_paid a' = true
    /\ Appointment.status a' = PENDING
    /\ Appointment.start_time a' = at_time monday 11 0
    /\ appointment_by_id db' 2 = Some a'.
Proof.
  do 2 eexists.
  assert (H : update_appointment_payment db2 2 (AppointmentPaymentUpdate.mk true) owner
              = (_, Ok _)) by reflexivity.
  split; [exact H |].
  destruct (update_appointment_payment_effect _ _ _ _ _ _ H)
    as (_ & a & Ha & _ & _ & Hstored & Hpaid & _ & _ & _ & _ & Hstart & _ & Hstatus & _).
  injection Ha as <-.
  split; [exact Hpaid |]. split; [exact Hstatus |]. split; [exact Hstart | exact Hstored].
Defined.

Lemma update_appointment_payment_no_double_booking_witness :
  exists db' a',
    update_appointment_payment db2 2 (AppointmentPaymentUpdate.mk true) owner
    = (db', Ok a')
    /\ length (appointments db') = 2%nat
    /\ no_double_booking db'.
Proof.
  do 2 eexists.
  assert (H : update_appointment_payment db2 2 (AppointmentPaymentUpdate.mk true) owner
              = (_, Ok _)) by reflexivity.
  split; [exact H |]. split; [reflexivity |].
  exact (update_appointment_payment_no_double_booking _ _ _ _ _ _ H
           db2_ids_unique db2_no_double_booking).
Defined.


Lemma get_my_appointments_sound_witness :
  get_my_appointments db1 (Some PENDING) None None 0 20 client = Ok [pending_10]
  /\ In pending_10 (appointments db1)
  /\ Appointment.status pending_10 = PENDING.
Proof.
  assert (H : get_my_appointments db1 (Some PENDING) None None 0 20 client
              = Ok [pending_10]) by reflexivity.
  split; [exact H |].
  destruct (get_my_appointments_sound _ _ _ _ _ _ _ _ pending_10 H (or_introl eq_refl))
    as (Hin & _ & _ & Hstatus & _).
  split; [exact Hin | now apply Hstatus].
Defined.

Lemma get_my_appointments_order_witness :
  get_my_appointments db3 None None None 0 2 client
  = Ok [booking 2 12 CONFIRMED; booking 3 11 PENDING]
  /\ ForallOrdPairs
       (fun x y => Appointment.start_time y <= Appointment.start_time x)
       [booking 2 12 CONFIRMED; booking 3 11 PENDING]
  /\ Z.of_nat (length [booking 2 12 CONFIRMED; booking 3 11 PENDING]) <= 2
  /\ Appointment.start_time pending_10 <= Appointment.start_time (booking 3 11 PENDING).
Proof.
  assert (H : get_my_appointments db3 None None None 0 2 client
              = Ok [booking 2 12 CONFIRMED; booking 3 11 PENDING])
    by (vm_compute; reflexivity).
  split; [exact H |].
  destruct (get_my_appointments_order _ _ _ _ _ _ _ _ H) as (Hsorted & Hlimit & Hlatest).
  split; [exact Hsorted |]. split; [apply Hlimit; discriminate |].
  apply (Hlatest ltac:(discriminate) pending_10 (booking 3 11 PENDING)).
  - left. reflexivity.
  - left. split; reflexivity.
  - discriminate.
  - discriminate.
  - discriminate.
  - intros [Hc | [Hc | []]]; discriminate Hc.
  - right. left. reflexivity.
Defined.

Lemma get_my_appointments_complete_witness :
  get_my_appointments db3 None (Some (at_time monday 11 0)) None 0 20 client
  = Ok [booking 2 12 CONFIRMED; booking 3 11 PENDING]
  /\ In (booking 3 11 PENDING) [booking 2 12 CONFIRMED; booking 3 11 PENDING].
Proof.
  assert (H : get_my_appointments db3 None (Some (at_time monday 11 0)) None 0 20 client
              = Ok [booking 2 12 CONFIRMED; booking 3 11 PENDING])
    by (vm_compute; reflexivity).
  split; [exact H |].
  apply (get_my_appointments_complete _ _ _ _ _ _ _ _ (booking 3 11 PENDING) H).
  - discriminate.
  - right. discriminate.
  - right. right. left. reflexivity.
  - left. split; reflexivity.
  - discriminate.
  - intros d [= <-]. reflexivity.
  - discriminate.
Defined.

Lemma parse_appointment_create_cases_witness :
  parse_appointment_create (CreateBody.mk 1 1 (at_time monday 10 0) (Some AT_HOME) Null Missing)
  = HTTPException 422 "Address is required for at-home appointments"
  /\ parse_appointment_create
       (CreateBody.mk 1 1 (at_time monday 10 0) (Some AT_HOME) Missing Missing)
     = Ok (AppointmentCreate.mk 1 1 (at_time monday 10 0) AT_HOME None None).
Proof.
  split.
  - apply (proj1 (parse_appointment_create_cases
                    (CreateBody.mk 1 1 (at_time monday 10 0) (Some AT_HOME) Null Missing))).
    simpl. auto.
  - apply (proj2 (parse_appointment_create_cases
                    (CreateBody.mk 1 1 (at_time monday 10 0) (Some AT_HOME) Missing Missing))).
    simpl. intros [_ [H | H]]; discriminate H.
Defined.

Lemma check_availability_sound_witness :
  check_availability decimal_int 10 db1 1 (at_time monday 0 0) (Some 1)
  = Some (Ok monday_slots_after)
  /\ In (anna_slot (11, 0)) monday_slots_after
  /\ conflicting_appointment db1 1 (TimeSlot.start_time (anna_slot (11, 0)))
       (TimeSlot.end_time (anna_slot (11, 0))) = None.
Proof.
  assert (H : check_availability decimal_int 10 db1 1 (at_time monday 0 0) (Some 1)
              = Some (Ok monday_slots_after)) by (vm_compute; reflexivity).
  assert (Hin : In (anna_slot (11, 0)) monday_slots_after) by (right; left; reflexivity).
  split; [exact H |]. split; [exact Hin |].
  destruct (check_availability_sound decimal_int _ _ _ _ _ _ _ H Hin)
    as (service & stylist & blocks & ts & ws & we & k & _ & _ & _ & _ & _ & Hid
        & _ & _ & _ & _ & _ & _ & _ & _ & Hfree).
  rewrite <- Hid in Hfree. exact Hfree.
Defined.

Lemma check_availability_complete_witness :
  check_availability decimal_int 10 db0 1 (at_time monday 0 0) (Some 1)
  = Some (Ok monday_slots)
  /\ In (TimeSlot.mk (at_time monday 9 0 + 2 * SLOT_STEP)
           (at_time monday 9 0 + 2 * SLOT_STEP
            + Service.duration_minutes haircut * Datetime.US_PER_MINUTE)
           (Stylist.id anna) (Stylist.full_name anna)) monday_slots.
Proof.
  assert (H : check_availability decimal_int 10 db0 1 (at_time monday 0 0) (Some 1)
              = Some (Ok monday_slots)) by (vm_compute; reflexivity).
  split; [exact H |].
  apply (check_availability_complete decimal_int 10 db0 1 (at_time monday 0 0) (Some 1)
           monday_slots haircut anna
           [block "09:00" "13:00"; block "14:00" "18:00"] (block "09:00" "13:00")
           (at_time monday 9 0) (at_time monday 13 0) 2 H).
  - reflexivity.
  - left. reflexivity.
  - vm_compute. reflexivity.
  - left. reflexivity.
  - vm_compute. reflexivity.
  - discriminate.
  - discriminate.
  - reflexivity.
Defined.




End MoreScenarios.
